(** * EchoAISync: credit ledger, job mutators and OAuth callback

    A shallow embedding of the server-side data-access module
    (the Supabase helpers: [getSubscription], [getJobs],
    [getJobsBetweenDates], [getCreditBalance], [insertJob], [updateJob],
    [updateJobByOriginalVideoUrl], [updateJobByTranscriptionId]) and of the
    OAuth callback route ([GET] of [app/auth/callback/route.ts]).

    The TypeScript functions are [async] functions that talk to a remote
    store.  They are embedded as computations of a state-and-exception monad
    over a [World]: the remote tables, the outcome of the coming round trips,
    the requests sent so far and the console.

    The repository holds two copies of the data-access module.  [Server] is
    the copy that awaits every query with [throwOnError]; [ServerUnchecked]
    is the copy that does not.  The client library and the store behind it
    are no part of the repository: section "The remote store" gives the
    semantics of the requests the module builds (row-level security,
    filters, order, single-row answers, insert and update), with what
    depends on the deployment left as the parameter [Backend]. *)

From Stdlib Require Import Ascii String QArith Qcanon.
From stdpp Require Import base numbers strings list sorting.

#[local] Set Warnings "-register-all".
Open Scope Qc_scope.

(** * JavaScript values *)

(** ** Numbers

    Finite numbers are exact rationals: rounding, overflow and the sign of
    zero of IEEE doubles are not modelled.  The two infinities and NaN are
    modelled, because [Number] produces them from strings. *)

Inductive number :=
| Fin (q : Qc)
| PosInf
| NegInf
| NaN.

Definition int (z : Z) : number := Fin (Q2Qc (inject_Z z)).
Arguments int : simpl never.

Definition num_add (a b : number) : number :=
  match a, b with
  | NaN, _ | _, NaN => NaN
  | PosInf, NegInf | NegInf, PosInf => NaN
  | PosInf, _ | _, PosInf => PosInf
  | NegInf, _ | _, NegInf => NegInf
  | Fin x, Fin y => Fin (x + y)
  end.

Definition num_neg (a : number) : number :=
  match a with
  | Fin x => Fin (- x)
  | PosInf => NegInf
  | NegInf => PosInf
  | NaN => NaN
  end.

Definition num_sub (a b : number) : number := num_add a (num_neg b).

Definition isNaN (a : number) : bool :=
  match a with NaN => true | _ => false end.

(** ToBoolean on a number: [0] and [NaN] are falsy. *)
Definition num_truthy (a : number) : bool :=
  match a with
  | Fin q => negb (bool_decide (q = 0))
  | NaN => false
  | PosInf | NegInf => true
  end.

(** ** StringToNumber

    The StringNumericLiteral grammar of ECMAScript on ASCII strings: optional
    white space around a signed decimal literal (with optional fraction and
    exponent), [Infinity], or an unsigned binary, octal or hexadecimal
    integer literal.  The empty (or blank) string is [0]; anything else is
    [NaN]. *)

Definition is_white_space (c : ascii) : bool :=
  let n := nat_of_ascii c in
  bool_decide (n = 32%nat) || (bool_decide (9 ≤ n)%nat && bool_decide (n ≤ 13)%nat).

Definition digit_value (c : ascii) : option Z :=
  let n := Z.of_nat (nat_of_ascii c) in
  if bool_decide (48 ≤ n)%Z && bool_decide (n ≤ 57)%Z then Some (n - 48)%Z
  else if bool_decide (97 ≤ n)%Z && bool_decide (n ≤ 102)%Z then Some (n - 87)%Z
  else if bool_decide (65 ≤ n)%Z && bool_decide (n ≤ 70)%Z then Some (n - 55)%Z
  else None.

(** The longest prefix of digits of the given radix, as digit values, and
    the rest of the input. *)
Fixpoint take_digits (radix : Z) (s : list ascii) : list Z * list ascii :=
  match s with
  | [] => ([], [])
  | c :: s' =>
      match digit_value c with
      | Some d =>
          if bool_decide (d < radix)%Z
          then let '(ds, rest) := take_digits radix s' in (d :: ds, rest)
          else ([], s)
      | None => ([], s)
      end
  end.

Definition digits_value (radix : Z) (ds : list Z) : Z :=
  fold_left (fun acc d => acc * radix + d)%Z ds 0%Z.

Definition pow10 (k : Z) : Qc :=
  if bool_decide (0 ≤ k)%Z
  then Q2Qc (inject_Z (10 ^ k))
  else / Q2Qc (inject_Z (10 ^ (- k))).

Fixpoint drop_white_space (s : list ascii) : list ascii :=
  match s with
  | c :: s' => if is_white_space c then drop_white_space s' else s
  | [] => []
  end.

Definition trim (s : list ascii) : list ascii :=
  reverse (drop_white_space (reverse (drop_white_space s))).

(** ExponentPart: [e] or [E], an optional sign, at least one digit, and
    nothing after it.  [Some 0] when there is no exponent part. *)
Definition exponent_part (s : list ascii) : option Z :=
  match s with
  | [] => Some 0%Z
  | c :: s' =>
      if bool_decide (c = "e"%char) || bool_decide (c = "E"%char) then
        let '(neg, s'') :=
          match s' with
          | "+"%char :: t => (false, t)
          | "-"%char :: t => (true, t)
          | _ => (false, s')
          end in
        match take_digits 10 s'' with
        | ((_ :: _) as ds, []) =>
            let e := digits_value 10 ds in Some (if neg then - e else e)%Z
        | _ => None
        end
      else None
  end.

(** StrUnsignedDecimalLiteral without the [Infinity] alternative. *)
Definition unsigned_decimal (s : list ascii) : option Qc :=
  let '(ip, r1) := take_digits 10 s in
  let '(fp, r2) :=
    match r1 with
    | "."%char :: t => take_digits 10 t
    | _ => ([], r1)
    end in
  match ip, fp with
  | [], [] => None
  | _, _ =>
      match exponent_part r2 with
      | Some e =>
          Some (Q2Qc (inject_Z (digits_value 10 (ip ++ fp)))
                * pow10 (e - Z.of_nat (length fp)))
      | None => None
      end
  end.

Definition str_decimal (s : list ascii) : number :=
  let '(neg, body) :=
    match s with
    | "+"%char :: t => (false, t)
    | "-"%char :: t => (true, t)
    | _ => (false, s)
    end in
  if bool_decide (body = list_ascii_of_string "Infinity")
  then (if neg then NegInf else PosInf)
  else match unsigned_decimal body with
       | Some q => Fin (if neg then - q else q)
       | None => NaN
       end.

Definition non_decimal (radix : Z) (s : list ascii) : number :=
  match take_digits radix s with
  | ((_ :: _) as ds, []) => int (digits_value radix ds)
  | _ => NaN
  end.

Definition StringToNumber (str : string) : number :=
  match trim (list_ascii_of_string str) with
  | [] => int 0
  | ("0"%char :: p :: t) as s =>
      if bool_decide (p = "x"%char) || bool_decide (p = "X"%char) then non_decimal 16 t
      else if bool_decide (p = "o"%char) || bool_decide (p = "O"%char) then non_decimal 8 t
      else if bool_decide (p = "b"%char) || bool_decide (p = "B"%char) then non_decimal 2 t
      else str_decimal s
  | s => str_decimal s
  end.

(** ** JSON values and the conversions applied to them *)

Inductive Json :=
| JNull
| JBool (b : bool)
| JNum (q : Qc)
| JStr (s : string)
| JArr (items : list Json)
| JObj (fields : list (string * Json)).

(** A JavaScript value read out of JSON data: [None] is [undefined]. *)
Abbreviation jsval := (option Json).
Abbreviation undefined := (@None Json).

(** ToNumber.  An array converts through its string form (the elements
    joined by commas, [null] printed as the empty string); an object prints
    as [[object Object]]. *)
Fixpoint json_to_number (j : Json) : number :=
  match j with
  | JNull => int 0
  | JBool b => if b then int 1 else int 0
  | JNum q => Fin q
  | JStr s => StringToNumber s
  | JArr [] => int 0
  | JArr [JBool _] => NaN
  | JArr [x] => json_to_number x
  | JArr _ => NaN
  | JObj _ => NaN
  end.

Definition Number (v : jsval) : number :=
  match v with
  | None => NaN
  | Some j => json_to_number j
  end.

(** ToBoolean. *)
Definition truthy (v : jsval) : bool :=
  match v with
  | None | Some JNull => false
  | Some (JBool b) => b
  | Some (JNum q) => num_truthy (Fin q)
  | Some (JStr s) => negb (bool_decide (s = ""%string))
  | Some (JArr _) | Some (JObj _) => true
  end.

Definition typeof (v : jsval) : string :=
  match v with
  | None => "undefined"
  | Some (JBool _) => "boolean"
  | Some (JNum _) => "number"
  | Some (JStr _) => "string"
  | Some JNull | Some (JArr _) | Some (JObj _) => "object"
  end.

(** Property lookup in a parsed JSON object: the last binding of a
    repeated key wins. *)
Fixpoint lookup_field (k : string) (fields : list (string * Json)) : jsval :=
  match fields with
  | [] => None
  | (k', v) :: rest =>
      match lookup_field k rest with
      | Some v' => Some v'
      | None => if bool_decide (k' = k) then Some v else None
      end
  end.

(** [k in v], for [v] an object ([typeof v = "object"], not [null]). *)
Definition has_property (k : string) (v : jsval) : bool :=
  match v with
  | Some (JObj fields) => bool_decide (is_Some (lookup_field k fields))
  | _ => false
  end.

(** [v?.k]: [undefined] on [null] and [undefined], and on values that have
    no such property. *)
Definition get_property (v : jsval) (k : string) : jsval :=
  match v with
  | Some (JObj fields) => lookup_field k fields
  | _ => None
  end.

(** [v === null] *)
Definition is_null (v : jsval) : bool :=
  match v with
  | Some JNull => true
  | _ => false
  end.

(** [a ?? b] *)
Definition nullish_or (a b : jsval) : jsval :=
  match a with
  | None | Some JNull => b
  | _ => a
  end.

(** * The remote store *)

(** ** Tables

    The generated schema types ([types_db]) are not part of the sources:
    the row types below have the columns of the spec's data model. *)

Module Users.
(** Modelled from the spec: the row type of [users] ([types_db] is
    missing); an identity record with a unique id. *)
Record Row := { id : string }.
End Users.

Module Products.
(** Modelled from the spec: the row type of [products] ([types_db] is
    missing); an active flag and a JSON metadata map, [null] when unset. *)
Record Row := { id : string; active : option bool; metadata : Json }.
End Products.

Module Prices.
(** Modelled from the spec: the row type of [prices] ([types_db] is
    missing); a price belongs to a product and has a unit amount. *)
Record Row := {
  id : string;
  product_id : option string;
  active : option bool;
  unit_amount : option Qc
}.
End Prices.

Module Subscriptions.
(** Modelled from the spec: the row type of [subscriptions] ([types_db] is
    missing); a subscription belongs to a user, has a status, a billing
    period and a price. *)
Record Row := {
  id : string;
  user_id : string;
  status : option string;
  price_id : option string;
  current_period_start : string;
  current_period_end : string
}.
End Subscriptions.

Module Jobs.
(** Modelled from the spec: the row type of [jobs] ([types_db] is missing);
    the credits are a number or [null]. *)
Record Row := {
  id : string;
  user_id : option string;
  status : option string;
  created_at : string;
  credits : option Qc;
  is_deleted : option bool;
  original_video_url : option string;
  transcription_id : option string
}.

(** The payload of an insert: a property that is [undefined] is [None]. *)
Record Insert := { i_user_id : option string; i_status : option string }.

(** A field map of an update.  A column that the map does not mention is
    [None]; a nullable column set to [null] is [Some None].  [u_unknown]
    lists the keys of the map that are not columns of the table. *)
Record Update := {
  u_id : option string;
  u_user_id : option (option string);
  u_status : option (option string);
  u_created_at : option string;
  u_credits : option (option Qc);
  u_is_deleted : option (option bool);
  u_original_video_url : option (option string);
  u_transcription_id : option (option string);
  u_unknown : list string
}.

(** UPDATE ... SET on one row. *)
Definition set (u : Update) (r : Row) : Row :=
  {| id := default (id r) (u_id u);
     user_id := default (user_id r) (u_user_id u);
     status := default (status r) (u_status u);
     created_at := default (created_at r) (u_created_at u);
     credits := default (credits r) (u_credits u);
     is_deleted := default (is_deleted r) (u_is_deleted u);
     original_video_url := default (original_video_url r) (u_original_video_url u);
     transcription_id := default (transcription_id r) (u_transcription_id u) |}.
End Jobs.

(** The rows a select of [subscriptions] yields when it asks for all columns
    with the price embedded and, inside the price, its product: each
    subscription with its price (or [null]), and the price with its product
    (or [null]). *)
Record PriceWithProduct := {
  price : Prices.Row;
  products : option Products.Row
}.

Record SubscriptionWithPrice := {
  row : Subscriptions.Row;
  prices : option PriceWithProduct
}.

Record Db := {
  users_table : list Users.Row;
  products_table : list Products.Row;
  prices_table : list Prices.Row;
  subscriptions_table : list Subscriptions.Row;
  jobs_table : list Jobs.Row
}.

Definition with_jobs (js : list Jobs.Row) (d : Db) : Db :=
  {| users_table := users_table d;
     products_table := products_table d;
     prices_table := prices_table d;
     subscriptions_table := subscriptions_table d;
     jobs_table := js |}.

Inductive Table := tbl_users | tbl_subscriptions | tbl_jobs.

Definition RowOf (t : Table) : Type :=
  match t with
  | tbl_users => Users.Row
  | tbl_subscriptions => SubscriptionWithPrice
  | tbl_jobs => Jobs.Row
  end.

(** ** Credentials *)

(** The two query-executing handles: the one bound to the request's session
    cookies (with the authenticated user id, if any) and the service-role
    one, which bypasses row-level security. *)
Inductive Client :=
| SessionClient (uid : option string)
| ServiceClient.

(** ** Requests *)

Inductive Filter :=
| FilterEq (column value : string)
| FilterGte (column value : string)
| FilterLte (column value : string)
| FilterIn (column : string) (values : list string).

(** The column list of a select: all columns of the table, and the related
    rows to embed, each with a column list of its own. *)
Inductive Columns :=
| Star (embedded : list (string * Columns)).

Inductive Verb :=
| Select (columns : Columns)
| Insert (rows : list Jobs.Insert)
| Update (fields : Jobs.Update).

Record Query (t : Table) := {
  q_client : Client;
  q_verb : Verb;
  q_returning : bool;
  q_filters : list Filter;
  q_order : list (string * bool);
  q_throw : bool
}.
Arguments q_client {t}. Arguments q_verb {t}. Arguments q_returning {t}.
Arguments q_filters {t}. Arguments q_order {t}. Arguments q_throw {t}.

Inductive Error :=
| FetchError (message : string)
| PostgrestError (code : string)
| AuthError (message : string)
| TypeError (message : string).

(** What the module sends over the wire, in order. *)
Inductive Request :=
| Rest (t : Table) (q : Query t)
| ExchangeCodeForSession (code : string).

(** ** The deployment

    What the remote project is configured with and the sources do not
    show: the row-level security policies, the order of timestamps, the
    column defaults applied to an inserted job, the constraints a new
    version of a job row has to satisfy, and the user an authorization code
    stands for at the identity provider. *)

Inductive AnyRow :=
| UserRow (r : Users.Row)
| ProductRow (r : Products.Row)
| PriceRow (r : Prices.Row)
| SubscriptionRow (r : Subscriptions.Row)
| JobRow (r : Jobs.Row).

Record Backend := {
  policy : option string -> AnyRow -> bool;
  ts_compare : string -> string -> comparison;
  new_job : Client -> Db -> Jobs.Insert -> option Jobs.Row;
  check_job : Client -> Db -> Jobs.Row -> bool;
  redeem : string -> option string
}.

(** ** The world *)

Record World := {
  backend : Backend;
  db : Db;
  (** the user id carried by the session cookies of the request *)
  cookie_user : option string;
  (** the outcome of the coming round trips, the next one first: [None] is a
      request that is delivered and answered, [Some e] one that fails with
      [e]; an empty list means no further failure *)
  faults : list (option Error);
  (** the requests sent so far, the oldest first *)
  requests : list Request;
  (** the lines written with [console.error], the oldest first *)
  console : list string
}.

Definition set_db (d : Db) (w : World) : World :=
  {| backend := backend w; db := d; cookie_user := cookie_user w;
     faults := faults w; requests := requests w; console := console w |}.

Definition set_cookie_user (u : option string) (w : World) : World :=
  {| backend := backend w; db := db w; cookie_user := u;
     faults := faults w; requests := requests w; console := console w |}.

Definition set_faults (fs : list (option Error)) (w : World) : World :=
  {| backend := backend w; db := db w; cookie_user := cookie_user w;
     faults := fs; requests := requests w; console := console w |}.

Definition add_request (r : Request) (w : World) : World :=
  {| backend := backend w; db := db w; cookie_user := cookie_user w;
     faults := faults w; requests := requests w ++ [r]; console := console w |}.

Definition add_console (line : string) (w : World) : World :=
  {| backend := backend w; db := db w; cookie_user := cookie_user w;
     faults := faults w; requests := requests w; console := console w ++ [line] |}.

(** The outcome of the next round trip, and the world once it is consumed. *)
Definition next_fault (w : World) : option Error * World :=
  match faults w with
  | [] => (None, w)
  | f :: fs => (f, set_faults fs w)
  end.

(** ** Computations: state and exceptions *)

Inductive Outcome (A : Type) :=
| Return (a : A)
| Throw (e : Error).
Arguments Return {A}. Arguments Throw {A}.

Definition M (A : Type) : Type := World -> Outcome A * World.

Definition ret {A} (a : A) : M A := fun w => (Return a, w).

Definition bind {A B} (m : M A) (k : A -> M B) : M B :=
  fun w =>
    match m w with
    | (Return a, w') => k a w'
    | (Throw e, w') => (Throw e, w')
    end.

Definition throw {A} (e : Error) : M A := fun w => (Throw e, w).

(** [try { m } catch (error) { handler error }] *)
Definition try_catch {A} (m : M A) (handler : Error -> M A) : M A :=
  fun w =>
    match m w with
    | (Return a, w') => (Return a, w')
    | (Throw e, w') => handler e w'
    end.

Definition console_error (line : string) : M unit :=
  fun w => (Return tt, add_console line w).

Declare Scope js_scope.
Delimit Scope js_scope with js.
Notation "'let*' x := m 'in' k" := (bind m (fun x => k))
  (at level 10, x pattern, m at level 100, k at level 200) : js_scope.
Notation "m ;; k" := (bind m (fun _ => k))
  (at level 100, k at level 200, right associativity) : js_scope.
Notation "'try' m 'catch' h" := (try_catch m h)
  (at level 10, m at level 200, h at level 200) : js_scope.

(** ** Row-level security, filters and order *)

Definition visible (b : Backend) (c : Client) (r : AnyRow) : bool :=
  match c with
  | ServiceClient => true
  | SessionClient uid => policy b uid r
  end.

(** The value of a column in a row, with the type of the column. *)
Inductive Cell :=
| CNull
| CText (s : string)
| CTime (s : string)
| CBool (b : bool)
| CNum (q : Qc).

Definition text (o : option string) : Cell :=
  match o with Some s => CText s | None => CNull end.

Definition columns (t : Table) : list string :=
  match t with
  | tbl_users => ["id"]
  | tbl_subscriptions =>
      ["id"; "user_id"; "status"; "price_id";
       "current_period_start"; "current_period_end"]
  | tbl_jobs =>
      ["id"; "user_id"; "status"; "created_at"; "credits"; "is_deleted";
       "original_video_url"; "transcription_id"]
  end%string.

Definition cell (t : Table) (column : string) : RowOf t -> Cell :=
  match t with
  | tbl_users => fun r =>
      if bool_decide (column = "id") then CText (Users.id r) else CNull
  | tbl_subscriptions => fun r =>
      let s := row r in
      if bool_decide (column = "id") then CText (Subscriptions.id s)
      else if bool_decide (column = "user_id") then CText (Subscriptions.user_id s)
      else if bool_decide (column = "status") then text (Subscriptions.status s)
      else if bool_decide (column = "price_id") then text (Subscriptions.price_id s)
      else if bool_decide (column = "current_period_start")
      then CTime (Subscriptions.current_period_start s)
      else if bool_decide (column = "current_period_end")
      then CTime (Subscriptions.current_period_end s)
      else CNull
  | tbl_jobs => fun r =>
      if bool_decide (column = "id") then CText (Jobs.id r)
      else if bool_decide (column = "user_id") then text (Jobs.user_id r)
      else if bool_decide (column = "status") then text (Jobs.status r)
      else if bool_decide (column = "created_at") then CTime (Jobs.created_at r)
      else if bool_decide (column = "credits")
      then match Jobs.credits r with Some q => CNum q | None => CNull end
      else if bool_decide (column = "is_deleted")
      then match Jobs.is_deleted r with Some b => CBool b | None => CNull end
      else if bool_decide (column = "original_video_url")
      then text (Jobs.original_video_url r)
      else if bool_decide (column = "transcription_id")
      then text (Jobs.transcription_id r)
      else CNull
  end%string.

(** The comparison of a cell with the literal of a filter, read at the type
    of the cell.  [None] when the cell is [NULL] or the literal does not
    denote a value of that type: no comparison holds then. *)
Definition compare_literal (b : Backend) (c : Cell) (literal : string)
  : option comparison :=
  match c with
  | CNull => None
  | CText s => Some (String.compare s literal)
  | CTime s => Some (ts_compare b s literal)
  | CBool x =>
      if bool_decide (literal = "true"%string)
      then Some (if x then Eq else Lt)
      else if bool_decide (literal = "false"%string)
      then Some (if x then Gt else Eq)
      else None
  | CNum q =>
      match StringToNumber literal with
      | Fin q' => Some (q ?= q')
      | _ => None
      end
  end.

Definition filter_column (f : Filter) : string :=
  match f with
  | FilterEq c _ | FilterGte c _ | FilterLte c _ | FilterIn c _ => c
  end.

Definition holds (b : Backend) (t : Table) (r : RowOf t) (f : Filter) : bool :=
  match f with
  | FilterEq c v =>
      bool_decide (compare_literal b (cell t c r) v = Some Eq)
  | FilterGte c v =>
      match compare_literal b (cell t c r) v with
      | Some Eq | Some Gt => true
      | _ => false
      end
  | FilterLte c v =>
      match compare_literal b (cell t c r) v with
      | Some Eq | Some Lt => true
      | _ => false
      end
  | FilterIn c vs =>
      existsb
        (fun v => bool_decide (compare_literal b (cell t c r) v = Some Eq))
        vs
  end.

Definition matches (b : Backend) (t : Table) (fs : list Filter) (r : RowOf t) : bool :=
  forallb (holds b t r) fs.

Definition cell_compare (b : Backend) (x y : Cell) : comparison :=
  match x, y with
  | CText x, CText y => String.compare x y
  | CTime x, CTime y => ts_compare b x y
  | CBool x, CBool y => Z.compare (Z.b2z x) (Z.b2z y)
  | CNum x, CNum y => x ?= y
  | CNull, CNull => Eq
  | CNull, _ => Gt
  | _, CNull => Lt
  | _, _ => Eq
  end.

(** The order of two rows under the keys of an [order] clause, each key
    with its direction ([true] is ascending). *)
Fixpoint order_compare (b : Backend) (t : Table) (keys : list (string * bool))
    (x y : RowOf t) : comparison :=
  match keys with
  | [] => Eq
  | (column, ascending) :: keys' =>
      match cell_compare b (cell t column x) (cell t column y) with
      | Eq => order_compare b t keys' x y
      | c => if ascending : bool then c else CompOpp c
      end
  end.

Definition ordered (b : Backend) (t : Table) (keys : list (string * bool))
    (rows : list (RowOf t)) : list (RowOf t) :=
  merge_sort (fun x y => order_compare b t keys x y <> Gt) rows.

(** ** Execution of a request on the tables *)

Definition embed_product (b : Backend) (d : Db) (c : Client) (p : Prices.Row)
  : option Products.Row :=
  match Prices.product_id p with
  | Some pid =>
      List.find (fun x => bool_decide (Products.id x = pid))
        (List.filter (fun x => visible b c (ProductRow x)) (products_table d))
  | None => None
  end.

Definition embed_price (b : Backend) (d : Db) (c : Client) (s : Subscriptions.Row)
  : option PriceWithProduct :=
  match Subscriptions.price_id s with
  | Some pid =>
      match List.find (fun x => bool_decide (Prices.id x = pid))
              (List.filter (fun x => visible b c (PriceRow x)) (prices_table d)) with
      | Some p => Some {| price := p; products := embed_product b d c p |}
      | None => None
      end
  | None => None
  end.

(** The rows of a table that the client may see. *)
Definition scan (b : Backend) (d : Db) (c : Client) (t : Table) : list (RowOf t) :=
  match t with
  | tbl_users =>
      List.filter (fun r => visible b c (UserRow r)) (users_table d)
  | tbl_subscriptions =>
      List.map (fun s => {| row := s; prices := embed_price b d c s |})
        (List.filter (fun r => visible b c (SubscriptionRow r))
           (subscriptions_table d))
  | tbl_jobs =>
      List.filter (fun r => visible b c (JobRow r)) (jobs_table d)
  end.

(** [data] and [error] of the client's answer. *)
Record Response (A : Type) := {
  data : option A;
  error : option Error
}.
Arguments data {A}. Arguments error {A}.

Definition success {A} (a : option A) : Response A :=
  {| data := a; error := None |}.
Definition failure {A} (e : Error) : Response A :=
  {| data := None; error := Some e |}.

Definition returning {t} (q : Query t) (rows : list (RowOf t))
  : Response (list (RowOf t)) :=
  success (if q_returning q then Some rows else None).

(** The jobs a client may update or see and that satisfy the filters. *)
Definition selected (b : Backend) (c : Client) (fs : list Filter) (r : Jobs.Row) : bool :=
  visible b c (JobRow r) && matches b tbl_jobs fs r.

(** The answer of the store to a delivered request, and the tables after
    it.  A statement is atomic: when it is rejected the tables are as
    before. *)
Definition execute (b : Backend) (d : Db) (t : Table) (q : Query t)
  : Response (list (RowOf t)) * Db :=
  let c := q_client q in
  if negb (forallb (fun f => bool_decide (filter_column f ∈ columns t)) (q_filters q))
  then (failure (PostgrestError "42703"), d)
  else
    match q_verb q with
    | Select _ =>
        (success (Some (ordered b t (q_order q)
                          (List.filter (matches b t (q_filters q)) (scan b d c t)))),
         d)
    | Insert payloads =>
        match t return Query t -> Response (list (RowOf t)) * Db with
        | tbl_jobs => fun q =>
            match mapM (new_job b c d) payloads with
            | Some rows =>
                (returning q rows, with_jobs (jobs_table d ++ rows) d)
            | None => (failure (PostgrestError "23000"), d)
            end
        | _ => fun _ => (failure (PostgrestError "42501"), d)
        end q
    | Update fields =>
        match t return Query t -> Response (list (RowOf t)) * Db with
        | tbl_jobs => fun q =>
            let hit := selected b c (q_filters q) in
            let rows := List.map (Jobs.set fields) (List.filter hit (jobs_table d)) in
            if negb (bool_decide (Jobs.u_unknown fields = []))
            then (failure (PostgrestError "PGRST204"), d)
            else if forallb (check_job b c d) rows
            then (returning q rows,
                  with_jobs
                    (List.map (fun r => if hit r then Jobs.set fields r else r)
                       (jobs_table d))
                    d)
            else (failure (PostgrestError "23000"), d)
        | _ => fun _ => (failure (PostgrestError "42501"), d)
        end q
    end.

(** One round trip: the request is recorded, the next fault is consumed,
    and a delivered request is executed. *)
Definition send {t} (q : Query t) (w : World) : Response (list (RowOf t)) * World :=
  let '(fault, w1) := next_fault (add_request (Rest t q) w) in
  match fault with
  | Some e => (failure e, w1)
  | None => let '(r, d) := execute (backend w1) (db w1) t q in (r, set_db d w1)
  end.

(** The answer as the caller gets it: with [throwOnError] an error is
    thrown instead of returned. *)
Definition settle {t A} (q : Query t) (r : Response A) : M (Response A) :=
  match error r with
  | Some e => if q_throw q then throw e else ret r
  | None => ret r
  end.

(** [await q] *)
Definition await {t} (q : Query t) : M (Response (list (RowOf t))) :=
  fun w => let '(r, w') := send q w in settle q r w'.

Definition one_row {A} (r : Response (list A)) : Response A :=
  match error r, data r with
  | Some e, _ => failure e
  | None, Some [x] => success (Some x)
  | None, _ => failure (PostgrestError "PGRST116")
  end.

Definition at_most_one_row {A} (r : Response (list A)) : Response A :=
  match error r, data r with
  | Some e, _ => failure e
  | None, Some [x] => success (Some x)
  | None, Some [] => success None
  | None, _ => failure (PostgrestError "PGRST116")
  end.

(** [await q.single()]: exactly one row, or an error. *)
Definition single {t} (q : Query t) : M (Response (RowOf t)) :=
  fun w => let '(r, w') := send q w in settle q (one_row r) w'.

(** [await q.maybeSingle()]: one row, [null] for none, an error for more. *)
Definition maybeSingle {t} (q : Query t) : M (Response (RowOf t)) :=
  fun w => let '(r, w') := send q w in settle q (at_most_one_row r) w'.

(** ** The query builder *)

Definition from (c : Client) (t : Table) : Query t :=
  {| q_client := c; q_verb := Select (Star []); q_returning := false;
     q_filters := []; q_order := []; q_throw := false |}.

(** [.select(columns)]: the verb of a read, and on an insert or an update
    the request to return the written rows. *)
Definition select {t} (cols : Columns) (q : Query t) : Query t :=
  {| q_client := q_client q;
     q_verb := match q_verb q with Select _ => Select cols | v => v end;
     q_returning := true;
     q_filters := q_filters q; q_order := q_order q; q_throw := q_throw q |}.

Definition insert (rows : list Jobs.Insert) (q : Query tbl_jobs) : Query tbl_jobs :=
  {| q_client := q_client q; q_verb := Insert rows; q_returning := q_returning q;
     q_filters := q_filters q; q_order := q_order q; q_throw := q_throw q |}.

Definition update (fields : Jobs.Update) (q : Query tbl_jobs) : Query tbl_jobs :=
  {| q_client := q_client q; q_verb := Update fields; q_returning := q_returning q;
     q_filters := q_filters q; q_order := q_order q; q_throw := q_throw q |}.

Definition where_ {t} (f : Filter) (q : Query t) : Query t :=
  {| q_client := q_client q; q_verb := q_verb q; q_returning := q_returning q;
     q_filters := q_filters q ++ [f]; q_order := q_order q; q_throw := q_throw q |}.

Definition eq {t} (column value : string) : Query t -> Query t := where_ (FilterEq column value).
Definition gte {t} (column value : string) : Query t -> Query t := where_ (FilterGte column value).
Definition lte {t} (column value : string) : Query t -> Query t := where_ (FilterLte column value).
Definition in_ {t} (column : string) (values : list string) : Query t -> Query t :=
  where_ (FilterIn column values).

Definition order {t} (column : string) (ascending : bool) (q : Query t) : Query t :=
  {| q_client := q_client q; q_verb := q_verb q; q_returning := q_returning q;
     q_filters := q_filters q; q_order := q_order q ++ [(column, ascending)];
     q_throw := q_throw q |}.

Definition throwOnError {t} (q : Query t) : Query t :=
  {| q_client := q_client q; q_verb := q_verb q; q_returning := q_returning q;
     q_filters := q_filters q; q_order := q_order q; q_throw := true |}.

(** Method chaining: [q .> m] is [q.m]. *)
Notation "q .> m" := (m q) (at level 45, left associativity, only parsing).

(** ** JavaScript operators on the values of the ledger *)

(** [a || b] on a number that may be [null] or [undefined]. *)
Definition num_or (a : option number) (b : number) : number :=
  match a with
  | Some n => if num_truthy n then n else b
  | None => b
  end.

(** [xs.reduce(f, init)] *)
Definition reduce {A B} (f : B -> A -> B) (init : B) (xs : list A) : B :=
  fold_left f xs init.

(** The callback of both [reduce] calls of [getCreditBalance]:
    [(sum, job) => sum + (job.credits || 0)]. *)
Definition sumCredits (sum : number) (job : Jobs.Row) : number :=
  num_add sum (num_or (Fin <$> Jobs.credits job) (int 0)).

(** * The data-access module *)

Record Balance := { remaining : number; outOf : number }.

Module JobsResult.
(** [{ success, data, error }] as [getJobs] returns it; a property that is
    missing is [None]. *)
Record t := {
  success : bool;
  data : option (list Jobs.Row);
  error : option Error
}.
End JobsResult.

Open Scope js_scope.
Open Scope string_scope.

Module Server.

(** The client of the request: it carries the session of the cookies.  The
    request scope and the environment variables are taken to be in place,
    so that building the client does not throw. *)
Definition createClient : M Client :=
  fun w => (Return (SessionClient (cookie_user w)), w).

Definition supabaseService : Client := ServiceClient.

Definition getUserDetails : M (option Users.Row) :=
  let* supabase := createClient in
  try (
    let* r := single (from supabase tbl_users .> select (Star []) .> throwOnError) in
    let user := data r in
    ret user
  ) catch (fun error =>
    console_error "getUserDetails error";;
    ret None).

Definition getSubscription : M (option SubscriptionWithPrice) :=
  let* supabase := createClient in
  try (
    let* r := maybeSingle (from supabase tbl_subscriptions
                .> select (Star [("prices", Star [("products", Star [])])])
                .> in_ "status" ["trialing"; "active"]
                .> throwOnError) in
    let subscription := data r in
    ret subscription
  ) catch (fun error =>
    console_error "getSubscription error";;
    ret None).

Definition getJobs : M JobsResult.t :=
  try (
    let* supabase := createClient in
    let* r := await (from supabase tbl_jobs
                .> select (Star [])
                .> order "created_at" false
                .> throwOnError) in
    let jobs := data r in
    ret {| JobsResult.success := true; JobsResult.data := jobs;
           JobsResult.error := None |}
  ) catch (fun error =>
    console_error "getJobs error";;
    ret {| JobsResult.success := false; JobsResult.data := None;
           JobsResult.error := Some error |}).

Definition getJobsBetweenDates (userId startDate endDate : string)
  : M (option (list Jobs.Row)) :=
  let* supabase := createClient in
  try (
    let* r := await (from supabase tbl_jobs
                .> select (Star [])
                .> eq "user_id" userId
                .> gte "created_at" startDate
                .> lte "created_at" endDate
                .> throwOnError) in
    let jobs := data r in
    ret jobs
  ) catch (fun error =>
    console_error "getJobsBetweenDates error";;
    ret None).

Definition getCreditBalance : M Balance :=
  let* subscription := getSubscription in
  match subscription with
  | Some subscription =>
      let rawMetadata : jsval :=
        p ← prices subscription; x ← products p; Some (Products.metadata x) in
      let metadata : jsval :=
        if truthy rawMetadata
           && bool_decide (typeof rawMetadata = "object")
           && negb (is_null rawMetadata)
           && has_property "credits" rawMetadata
        then rawMetadata
        else Some JNull in
      let subscriptionCredits :=
        Number (nullish_or (get_property metadata "credits") (Some (JNum 0))) in
      let* jobs := getJobsBetweenDates
                     (Subscriptions.user_id (row subscription))
                     (Subscriptions.current_period_start (row subscription))
                     (Subscriptions.current_period_end (row subscription)) in
      let creditsSpent :=
        match jobs with
        | Some jobs =>
            reduce sumCredits (int 0) jobs
        | None => int 0
        end in
      ret {| remaining := num_sub subscriptionCredits creditsSpent;
             outOf := subscriptionCredits |}
  | None =>
      (* fallback: free-tier *)
      let defaultCredits := int 7500 in
      let* listing := getJobs in
      let success := JobsResult.success listing in
      let allJobs := JobsResult.data listing in
      let* creditsSpent :=
        if success then
          match allJobs with
          | Some allJobs =>
              ret (reduce sumCredits (int 0) allJobs)
          | None => throw (TypeError "Cannot read properties of null (reading 'reduce')")
          end
        else ret (int 0) in
      ret {| remaining := num_sub defaultCredits creditsSpent;
             outOf := defaultCredits |}
  end.

Definition insertJob : M (list Jobs.Row) :=
  let* supabase := createClient in
  let* user := getUserDetails in
  let jobPayload :=
    {| Jobs.i_user_id := Users.id <$> user; Jobs.i_status := Some "pending" |} in
  try (
    let* r := await (from supabase tbl_jobs
                .> insert [jobPayload]
                .> select (Star [])
                .> throwOnError) in
    ret (default [] (data r))
  ) catch (fun error =>
    console_error "insertJob error";;
    ret []).

Definition updateJob (jobId : string) (updatedFields : Jobs.Update)
  : M (list Jobs.Row) :=
  try (
    let* supabase := createClient in
    let* r := await (from supabase tbl_jobs
                .> update updatedFields
                .> eq "id" jobId
                .> select (Star [])
                .> throwOnError) in
    ret (default [] (data r))
  ) catch (fun error =>
    console_error "updateJob error";;
    ret []).

Definition updateJobByOriginalVideoUrl (originalVideoUrl : string)
    (updatedFields : Jobs.Update) : M (list Jobs.Row) :=
  let* supabase := createClient in
  try (
    let* r := await (from supabase tbl_jobs
                .> update updatedFields
                .> eq "original_video_url" originalVideoUrl
                .> select (Star [])
                .> throwOnError) in
    ret (default [] (data r))
  ) catch (fun error =>
    console_error "updateJobByOriginalVideoUrl error";;
    ret []).

Definition updateJobByTranscriptionId (transcriptionId : string)
    (updatedFields : Jobs.Update) : M (list Jobs.Row) :=
  try (
    let* r := await (from supabaseService tbl_jobs
                .> update updatedFields
                .> eq "transcription_id" transcriptionId
                .> select (Star [])
                .> throwOnError) in
    ret (default [] (data r))
  ) catch (fun error =>
    console_error "updateJobByTranscriptionId error";;
    ret []).

End Server.

(** The second copy of the module in the repository.  Its queries are
    awaited without [throwOnError] (except the subscription lookup), so a
    failed query answers with [data = null] instead of throwing, and the
    allotment is read from the metadata without a check or a default. *)
Module ServerUnchecked.

(** As in the first copy, the client is taken to be built without an
    exception.  This copy builds it inside the [try] of [getJobs] and of
    [updateJob], whose handlers would catch such an exception; what is
    stated about these two is about the outcomes of their query, the client
    being there. *)
Definition createClient : M Client :=
  fun w => (Return (SessionClient (cookie_user w)), w).

Definition supabaseService : Client := ServiceClient.

Definition getUserDetails : M (option Users.Row) :=
  let* supabase := createClient in
  try (
    let* r := single (from supabase tbl_users .> select (Star [])) in
    let user := data r in
    ret user
  ) catch (fun error =>
    console_error "getUserDetails error";;
    ret None).

Definition getSubscription : M (option SubscriptionWithPrice) :=
  let* supabase := createClient in
  try (
    let* r := maybeSingle (from supabase tbl_subscriptions
                .> select (Star [("prices", Star [("products", Star [])])])
                .> in_ "status" ["trialing"; "active"]
                .> throwOnError) in
    let subscription := data r in
    ret subscription
  ) catch (fun error =>
    console_error "getSubscription error";;
    ret None).

Definition getJobs : M JobsResult.t :=
  try (
    let* supabase := createClient in
    let* r := await (from supabase tbl_jobs
                .> select (Star [])
                .> order "created_at" false) in
    let jobs := data r in
    ret {| JobsResult.success := true; JobsResult.data := jobs;
           JobsResult.error := None |}
  ) catch (fun error =>
    console_error "getJobs error";;
    ret {| JobsResult.success := false; JobsResult.data := None;
           JobsResult.error := Some error |}).

Definition getJobsBetweenDates (userId startDate endDate : string)
  : M (option (list Jobs.Row)) :=
  let* supabase := createClient in
  try (
    let* r := await (from supabase tbl_jobs
                .> select (Star [])
                .> eq "user_id" userId
                .> gte "created_at" startDate
                .> lte "created_at" endDate) in
    let jobs := data r in
    ret jobs
  ) catch (fun error =>
    console_error "getJobsBetweenDates error";;
    ret None).

Definition getCreditBalance : M Balance :=
  let* subscription := getSubscription in
  match subscription with
  | Some subscription =>
      let metadata : jsval :=
        p ← prices subscription; x ← products p; Some (Products.metadata x) in
      let subscriptionCredits := Number (get_property metadata "credits") in
      let* jobs := getJobsBetweenDates
                     (Subscriptions.user_id (row subscription))
                     (Subscriptions.current_period_start (row subscription))
                     (Subscriptions.current_period_end (row subscription)) in
      let creditsSpent :=
        match jobs with
        | Some jobs =>
            reduce sumCredits (int 0) jobs
        | None => int 0
        end in
      ret {| remaining := num_sub subscriptionCredits creditsSpent;
             outOf := subscriptionCredits |}
  | None =>
      (* fallback: free-tier *)
      let defaultCredits := int 7500 in
      let* listing := getJobs in
      let success := JobsResult.success listing in
      let allJobs := JobsResult.data listing in
      let* creditsSpent :=
        if success then
          match allJobs with
          | Some allJobs =>
              ret (reduce sumCredits (int 0) allJobs)
          | None => throw (TypeError "Cannot read properties of null (reading 'reduce')")
          end
        else ret (int 0) in
      ret {| remaining := num_sub defaultCredits creditsSpent;
             outOf := defaultCredits |}
  end.

Definition insertJob : M (list Jobs.Row) :=
  let* supabase := createClient in
  let* user := getUserDetails in
  let jobPayload :=
    {| Jobs.i_user_id := Users.id <$> user; Jobs.i_status := Some "pending" |} in
  let* r := await (from supabase tbl_jobs
              .> insert [jobPayload]
              .> select (Star [])) in
  (match error r with
   | Some _ => console_error "insertJob error"
   | None => ret tt
   end);;
  ret (default [] (data r)).

Definition updateJob (jobId : string) (updatedFields : Jobs.Update)
  : M (list Jobs.Row) :=
  try (
    let* supabase := createClient in
    let* r := await (from supabase tbl_jobs
                .> update updatedFields
                .> eq "id" jobId
                .> select (Star [])) in
    ret (default [] (data r))
  ) catch (fun error =>
    console_error "updateJob error";;
    ret []).

Definition updateJobByOriginalVideoUrl (originalVideoUrl : string)
    (updatedFields : Jobs.Update) : M (list Jobs.Row) :=
  let* supabase := createClient in
  let* r := await (from supabase tbl_jobs
              .> update updatedFields
              .> eq "original_video_url" originalVideoUrl
              .> select (Star [])) in
  (match error r with
   | Some _ => console_error "updateJobByOriginalVideoUrl error"
   | None => ret tt
   end);;
  ret (default [] (data r)).

Definition updateJobByTranscriptionId (transcriptionId : string)
    (updatedFields : Jobs.Update) : M (list Jobs.Row) :=
  try (
    let* r := await (from supabaseService tbl_jobs
                .> update updatedFields
                .> eq "transcription_id" transcriptionId
                .> select (Star [])) in
    ret (default [] (data r))
  ) catch (fun error =>
    console_error "updateJobByTranscriptionId error";;
    ret []).

End ServerUnchecked.

(** * The OAuth callback route *)

(** The parsed URL of the inbound request. *)
Record URL := {
  origin : string;
  pathname : string;
  searchParams : list (string * string)
}.

(** [searchParams.get(name)]: the first value of the parameter, or [null]. *)
Definition searchParams_get (name : string) (u : URL) : option string :=
  snd <$> List.find (fun kv => bool_decide (fst kv = name)) (searchParams u).

Record NextRequest := { url : URL }.

Record NextResponse := { status : Z; location : string }.

Definition redirect (target : string) : NextResponse :=
  {| status := 307; location := target |}.

(** [supabase.auth.exchangeCodeForSession(code)]: a round trip to the
    identity provider, which answers with an error or with a session, in
    which case the user of the session is stored in the cookies. *)
Definition exchangeCodeForSession (supabase : Client) (code : string)
  : M (Response string) :=
  fun w =>
    let '(fault, w1) := next_fault (add_request (ExchangeCodeForSession code) w) in
    match fault with
    | Some e => (Return (failure e), w1)
    | None =>
        match redeem (backend w1) code with
        | Some uid => (Return (success (Some uid)), set_cookie_user (Some uid) w1)
        | None => (Return (failure (AuthError "invalid flow state")), w1)
        end
    end.

Module Route.

Definition GET (request : NextRequest) : M NextResponse :=
  let requestUrl := url request in
  let code := searchParams_get "code" requestUrl in
  (match code with
   | Some code =>
       if negb (bool_decide (code = ""))
       then
         let* supabase := Server.createClient in
         let* _ := exchangeCodeForSession supabase code in
         ret tt
       else ret tt
   | None => ret tt
   end);;
  (* URL to redirect to after sign in process completes *)
  ret (redirect (origin requestUrl ++ "/subscription")).

End Route.

(** * A concrete deployment

    Row-level security lets a session see and change the rows of its own
    user, and everybody read the catalogue; timestamps are ISO-8601 strings
    of one format, ordered as strings; an inserted job gets its defaults
    and has to name its user. *)
Module Demo.

Definition own (uid : option string) (r : AnyRow) : bool :=
  match r with
  | UserRow r => bool_decide (uid = Some (Users.id r))
  | SubscriptionRow r => bool_decide (uid = Some (Subscriptions.user_id r))
  | JobRow r => bool_decide (uid = Jobs.user_id r) && bool_decide (is_Some uid)
  | ProductRow _ | PriceRow _ => true
  end.

Definition deployment : Backend :=
  {| policy := own;
     ts_compare := String.compare;
     new_job := fun c d p =>
       match Jobs.i_user_id p with
       | Some u =>
           Some {| Jobs.id := "job-new"; Jobs.user_id := Some u;
                   Jobs.status := Jobs.i_status p;
                   Jobs.created_at := "2024-03-01T00:00:00Z";
                   Jobs.credits := None; Jobs.is_deleted := Some false;
                   Jobs.original_video_url := None;
                   Jobs.transcription_id := None |}
       | None => None
       end;
     check_job := fun c d r => bool_decide (is_Some (Jobs.user_id r));
     redeem := fun code => if bool_decide (code = "good") then Some "u1" else None |}.

(** A deployment that lets a job be inserted without a user. *)
Definition lenient : Backend :=
  {| policy := own;
     ts_compare := String.compare;
     new_job := fun c d p =>
       Some {| Jobs.id := "job-new"; Jobs.user_id := Jobs.i_user_id p;
               Jobs.status := Jobs.i_status p;
               Jobs.created_at := "2024-03-01T00:00:00Z";
               Jobs.credits := None; Jobs.is_deleted := Some false;
               Jobs.original_video_url := None;
               Jobs.transcription_id := None |};
     check_job := fun c d r => true;
     redeem := fun code => if bool_decide (code = "good") then Some "u1" else None |}.

Definition job (id user created : string) (credits : option Z) : Jobs.Row :=
  {| Jobs.id := id; Jobs.user_id := Some user; Jobs.status := Some "done";
     Jobs.created_at := created;
     Jobs.credits := (fun z => Q2Qc (inject_Z z)) <$> credits;
     Jobs.is_deleted := Some false;
     Jobs.original_video_url := Some ("https://video/" ++ id);
     Jobs.transcription_id := Some ("tr-" ++ id) |}.

Definition metadata (credits : Json) : Json :=
  JObj [("index", JStr "0"); ("credits", credits)].

Definition product (meta : Json) : Products.Row :=
  {| Products.id := "prod"; Products.active := Some true;
     Products.metadata := meta |}.

Definition price : Prices.Row :=
  {| Prices.id := "price"; Prices.product_id := Some "prod";
     Prices.active := Some true; Prices.unit_amount := Some (Q2Qc 1900) |}.

Definition subscription (status : string) : Subscriptions.Row :=
  {| Subscriptions.id := "sub"; Subscriptions.user_id := "u1";
     Subscriptions.status := Some status; Subscriptions.price_id := Some "price";
     Subscriptions.current_period_start := "2024-01-01T00:00:00Z";
     Subscriptions.current_period_end := "2024-02-01T00:00:00Z" |}.

Definition tables (subs : list Subscriptions.Row) (meta : Json)
    (js : list Jobs.Row) : Db :=
  {| users_table := [ {| Users.id := "u1" |}; {| Users.id := "u2" |} ];
     products_table := [product meta];
     prices_table := [price];
     subscriptions_table := subs;
     jobs_table := js |}.

Definition world_of (b : Backend) (d : Db) (fs : list (option Error)) : World :=
  {| backend := b; db := d; cookie_user := Some "u1";
     faults := fs; requests := []; console := [] |}.

Definition world (d : Db) (fs : list (option Error)) : World :=
  world_of deployment d fs.

End Demo.

(** * Notions the statements use *)

(** The sum of the credits of the jobs that have some. *)
Fixpoint total_credits (js : list Jobs.Row) : Qc :=
  match js with
  | [] => 0
  | j :: js' =>
      match Jobs.credits j with
      | Some q => q + total_credits js'
      | None => total_credits js'
      end
  end.

(** A job whose credits are absent, [null] or zero. *)
Definition no_credits (j : Jobs.Row) : bool :=
  match Jobs.credits j with
  | Some q => bool_decide (q = 0)
  | None => true
  end.

(** The [n]-th coming round trip fails. *)
Definition failed (n : nat) (w : World) : bool :=
  match faults w !! n with
  | Some (Some _) => true
  | _ => false
  end.

(** The metadata of the product embedded in a subscription, [undefined]
    when the price or the product is missing. *)
Definition product_metadata (s : SubscriptionWithPrice) : jsval :=
  p ← prices s; x ← products p; Some (Products.metadata x).

(** A subscription row in status trialing or active. *)
Definition active_like (s : Subscriptions.Row) : bool :=
  bool_decide (Subscriptions.status s = Some "trialing")
  || bool_decide (Subscriptions.status s = Some "active").

(** The session of the request sees a subscription in status trialing or
    active. *)
Definition has_active_subscription (w : World) : bool :=
  existsb
    (fun s => visible (backend w) (SessionClient (cookie_user w)) (SubscriptionRow s)
              && active_like s)
    (subscriptions_table (db w)).

(** The jobs the session of the request may see: all of them, whatever
    their user, date and [is_deleted] flag, as far as row-level security
    lets them through. *)
Definition visible_jobs (w : World) : list Jobs.Row :=
  List.filter (fun r => visible (backend w) (SessionClient (cookie_user w)) (JobRow r))
    (jobs_table (db w)).

Definition is_select (r : Request) : bool :=
  match r with
  | Rest _ q => match q_verb q with Select _ => true | _ => false end
  | ExchangeCodeForSession _ => false
  end.

(** The world after a request was sent, the answer left aside. *)
Definition sent {t} (q : Query t) (w : World) : World :=
  set_faults (tail (faults w)) (add_request (Rest t q) w).

(** [w'] comes after [w] by lookups only: the deployment, the tables and
    the session are the same, and every request sent in between is a
    select. *)
Definition only_read (w w' : World) : Prop :=
  backend w' = backend w /\ db w' = db w /\ cookie_user w' = cookie_user w
  /\ exists rs, requests w' = (requests w ++ rs)%list /\ forallb is_select rs = true.

(** The requests the reads send, as the builder chains of the source
    assemble them. *)
Definition subscription_query (w : World) : Query tbl_subscriptions :=
  from (SessionClient (cookie_user w)) tbl_subscriptions
    .> select (Star [("prices", Star [("products", Star [])])])
    .> in_ "status" ["trialing"; "active"]
    .> throwOnError.

Definition listing_query (w : World) : Query tbl_jobs :=
  from (SessionClient (cookie_user w)) tbl_jobs
    .> select (Star [])
    .> order "created_at" false
    .> throwOnError.

Definition period_query (userId startDate endDate : string) (w : World)
  : Query tbl_jobs :=
  from (SessionClient (cookie_user w)) tbl_jobs
    .> select (Star [])
    .> eq "user_id" userId
    .> gte "created_at" startDate
    .> lte "created_at" endDate
    .> throwOnError.

Definition user_query (w : World) : Query tbl_users :=
  from (SessionClient (cookie_user w)) tbl_users .> select (Star []) .> throwOnError.

Ltac run :=
  unfold bind, ret, try_catch, throw, console_error, await, single, maybeSingle,
    settle, Server.createClient in *.

(** The allotment [getCreditBalance] reads out of a subscription: the
    number the [credits] entry of the product's metadata converts to, and
    zero when there is no such entry. *)
Definition allotment (s : SubscriptionWithPrice) : number :=
  match get_property (product_metadata s) "credits" with
  | Some c => json_to_number c
  | None => int 0
  end.

(** The requests the mutators send. *)
Definition update_query (c : Client) (column value : string) (u : Jobs.Update)
  : Query tbl_jobs :=
  from c tbl_jobs .> update u .> eq column value .> select (Star []) .> throwOnError.

Definition insert_query (c : Client) (payload : Jobs.Insert) : Query tbl_jobs :=
  from c tbl_jobs .> insert [payload] .> select (Star []) .> throwOnError.

(** [rows] are the rows a statement wrote between the tables [d] and [d']:
    each is in the jobs table afterwards, and every row of the table that
    was not there before is among them. *)
Definition wrote (d d' : Db) (rows : list Jobs.Row) : Prop :=
  (forall r, In r rows -> In r (jobs_table d'))
  /\ (forall r, In r (jobs_table d') -> ~ In r (jobs_table d) -> In r rows).

Definition mutated_rows (w w' : World) (rows : list Jobs.Row) : Prop :=
  wrote (db w) (db w') rows.

(** A statement whose answer carries the rows it wrote, which writes
    nothing when its answer carries no row, and which carries no row when it
    is rejected. *)
Definition sound_statement (q : Query tbl_jobs) : Prop :=
  forall (b : Backend) (d : Db),
    wrote d (snd (execute b d tbl_jobs q))
      (default [] (data (fst (execute b d tbl_jobs q))))
    /\ (default [] (data (fst (execute b d tbl_jobs q))) = [] ->
        snd (execute b d tbl_jobs q) = d)
    /\ (is_Some (error (fst (execute b d tbl_jobs q))) ->
        data (fst (execute b d tbl_jobs q)) = None).

(** The new version of a job row under an update. *)
Definition updated (b : Backend) (c : Client) (fs : list Filter) (u : Jobs.Update)
    (r : Jobs.Row) : Jobs.Row :=
  if selected b c fs r then Jobs.set u r else r.

(** What every job mutator promises, [n] being the round trip of its
    statement: it returns, with the rows its statement wrote; when it
    returns no row the tables are unchanged; and it returns no row when the
    statement's round trip fails. *)
Definition mutator_contract (m : M (list Jobs.Row)) (n : nat) : Prop :=
  forall w : World,
    exists (rows : list Jobs.Row) (w' : World),
      m w = (Return rows, w')
      /\ mutated_rows w w' rows
      /\ (rows = [] -> db w' = db w)
      /\ (failed n w = true -> rows = []).

(** The shape all four mutators share: await the statement with
    [throwOnError], return [data ?? []], and on an error log and return
    [[]]. *)
Definition statement (q : Query tbl_jobs) (line : string) : M (list Jobs.Row) :=
  try_catch
    (bind (await q) (fun r => ret (default [] (data r))))
    (fun _ => bind (console_error line) (fun _ => ret [])).

(** ** Notions of the further properties *)

(** [created_at] of the job lies in the period, both bounds included. *)
Definition in_period (b : Backend) (startDate endDate : string) (r : Jobs.Row) : bool :=
  negb (bool_decide (ts_compare b (Jobs.created_at r) startDate = Lt))
  && negb (bool_decide (ts_compare b (Jobs.created_at r) endDate = Gt)).

(** The jobs of a user in a period, among those the session may see, in
    the order of the table. *)
Definition period_jobs (w : World) (userId startDate endDate : string)
  : list Jobs.Row :=
  List.filter
    (fun r => bool_decide (Jobs.user_id r = Some userId)
              && in_period (backend w) startDate endDate r)
    (visible_jobs w).

(** The subscriptions in status trialing or active that the session may
    see. *)
Definition active_subscriptions (w : World) : list Subscriptions.Row :=
  List.filter active_like
    (List.filter
       (fun s => visible (backend w) (SessionClient (cookie_user w)) (SubscriptionRow s))
       (subscriptions_table (db w))).

(** A subscription as the session's select returns it, with its price and
    product embedded. *)
Definition joined (w : World) (s : Subscriptions.Row) : SubscriptionWithPrice :=
  {| row := s;
     prices := embed_price (backend w) (db w) (SessionClient (cookie_user w)) s |}.

(** The users the session may see. *)
Definition visible_users (w : World) : list Users.Row :=
  List.filter (fun r => visible (backend w) (SessionClient (cookie_user w)) (UserRow r))
    (users_table (db w)).

(** [x] is not older than [y]. *)
Definition not_older (b : Backend) (x y : Jobs.Row) : Prop :=
  ts_compare b (Jobs.created_at x) (Jobs.created_at y) <> Lt.

(** The request goes through the client of the session, not through the
    service-role client. *)
Definition through_session (uid : option string) (r : Request) : bool :=
  match r with
  | Rest _ q =>
      match q_client q with
      | SessionClient u => bool_decide (u = uid)
      | ServiceClient => false
      end
  | ExchangeCodeForSession _ => true
  end.

(** The tables other than [jobs] are the same. *)
Definition same_but_jobs (d d' : Db) : Prop :=
  users_table d' = users_table d /\ products_table d' = products_table d
  /\ prices_table d' = prices_table d
  /\ subscriptions_table d' = subscriptions_table d.

(** The rows an update by [column = value] selects for the client, with the
    fields applied. *)
Definition rewritten (b : Backend) (d : Db) (c : Client) (column value : string)
    (u : Jobs.Update) : list Jobs.Row :=
  List.map (Jobs.set u)
    (List.filter (selected b c [FilterEq column value]) (jobs_table d)).

(** The store accepts the update: the field map names columns of the table
    only, and the new rows satisfy the constraints. *)
Definition accepts_update (b : Backend) (d : Db) (c : Client) (column value : string)
    (u : Jobs.Update) : bool :=
  bool_decide (Jobs.u_unknown u = [])
  && forallb (check_job b c d) (rewritten b d c column value u).

(** What an update by [column = value] through the client [c w] comes to,
    its round trip being the first: when that is delivered and the store
    accepts the update, the mutator returns exactly the rewritten rows and
    the jobs table has them in the place of the old ones; otherwise it
    returns the empty list and the tables are as before. *)
Definition update_outcome (m : M (list Jobs.Row)) (c : World -> Client)
    (column value : string) (u : Jobs.Update) : Prop :=
  forall w : World,
    exists w' : World,
      if negb (failed 0 w) && accepts_update (backend w) (db w) (c w) column value u
      then m w = (Return (rewritten (backend w) (db w) (c w) column value u), w')
           /\ jobs_table (db w')
              = List.map (updated (backend w) (c w) [FilterEq column value] u)
                  (jobs_table (db w))
           /\ same_but_jobs (db w) (db w')
      else m w = (Return [], w') /\ db w' = db w.

(** What [insertJob] comes to, its statement being the second round trip:
    when that is delivered and the store makes a row of the payload, the
    mutator returns exactly that row, put at the end of the jobs table;
    otherwise it returns the empty list and the tables are as before.  The
    payload names the user the lookup found, if any. *)
Definition insert_outcome (m : M (list Jobs.Row)) : Prop :=
  forall w : World,
    exists (user : option Users.Row) (w1 w' : World),
      Server.getUserDetails w = (Return user, w1)
      /\ match
           (if failed 1 w then None
            else new_job (backend w) (SessionClient (cookie_user w)) (db w)
                   {| Jobs.i_user_id := Users.id <$> user;
                      Jobs.i_status := Some "pending" |})
         with
         | Some r =>
             m w = (Return [r], w')
             /\ jobs_table (db w') = (jobs_table (db w) ++ [r])%list
             /\ same_but_jobs (db w) (db w')
         | None => m w = (Return [], w') /\ db w' = db w
         end.

(** The statements of the second copy of the module: those of the first,
    without [throwOnError]. *)
Definition unchecked_update_query (c : Client) (column value : string)
    (u : Jobs.Update) : Query tbl_jobs :=
  from c tbl_jobs .> update u .> eq column value .> select (Star []).

Definition unchecked_insert_query (c : Client) (payload : Jobs.Insert) : Query tbl_jobs :=
  from c tbl_jobs .> insert [payload] .> select (Star []).

(** * Numbers *)

Lemma int_0 : int 0 = Fin 0.
Proof. reflexivity. Qed.

Lemma num_add_0_r (a : number) : num_add a (int 0) = a.
Proof.
  rewrite int_0. destruct a as [q| | |]; simpl; try reflexivity.
  f_equal. ring.
Qed.

Lemma num_sub_0_r (a : number) : num_sub a (int 0) = a.
Proof.
  unfold num_sub. rewrite int_0. destruct a as [q| | |]; simpl; try reflexivity.
  f_equal. ring.
Qed.

Lemma difference_negative (a s : Qc) : a < s -> a - s < 0.
Proof.
  intros H. apply Qclt_minus_iff in H. apply Qclt_minus_iff.
  replace (0 + - (a - s)) with (s + - a) by ring. exact H.
Qed.

(** * The credits spent *)

Lemma sumCredits_Fin (q : Qc) (j : Jobs.Row) :
  sumCredits (Fin q) j = Fin (q + default 0 (Jobs.credits j)).
Proof.
  unfold sumCredits. destruct (Jobs.credits j) as [c|]; simpl.
  - case_bool_decide as Hc; simpl.
    + subst c. reflexivity.
    + reflexivity.
  - reflexivity.
Qed.

Lemma sumCredits_no_credits (sum : number) (j : Jobs.Row) :
  no_credits j = true -> sumCredits sum j = sum.
Proof.
  unfold no_credits, sumCredits. destruct (Jobs.credits j) as [c|]; simpl.
  - intros Hc. apply bool_decide_eq_true in Hc. subst c.
    rewrite bool_decide_eq_true_2 by reflexivity. simpl. apply num_add_0_r.
  - intros _. apply num_add_0_r.
Qed.

Lemma reduce_sumCredits_from (js : list Jobs.Row) (q : Qc) :
  reduce sumCredits (Fin q) js = Fin (q + total_credits js).
Proof.
  unfold reduce. revert q.
  induction js as [|j js IH]; intros q; cbn [fold_left total_credits].
  - f_equal. ring.
  - rewrite sumCredits_Fin, IH. f_equal.
    destruct (Jobs.credits j); simpl; ring.
Qed.

Lemma reduce_sumCredits (js : list Jobs.Row) :
  reduce sumCredits (int 0) js = Fin (total_credits js).
Proof. rewrite int_0, reduce_sumCredits_from. f_equal. ring. Qed.

Lemma total_credits_Permutation (l1 l2 : list Jobs.Row) :
  l1 ≡ₚ l2 -> total_credits l1 = total_credits l2.
Proof.
  induction 1 as [|j l1 l2 _ IH|j1 j2 l|l1 l2 l3 _ IH1 _ IH2]; simpl.
  - reflexivity.
  - rewrite IH. reflexivity.
  - destruct (Jobs.credits j1), (Jobs.credits j2); ring.
  - congruence.
Qed.

Lemma total_credits_filter (js : list Jobs.Row) :
  total_credits (List.filter (fun j => negb (no_credits j)) js) = total_credits js.
Proof.
  induction js as [|j js IH]; simpl; [reflexivity|].
  unfold no_credits at 1. destruct (Jobs.credits j) as [c|] eqn:Hc; simpl.
  - case_bool_decide as H0; simpl.
    + rewrite IH. subst c. ring.
    + rewrite Hc, IH. reflexivity.
  - apply IH.
Qed.

(** * Round trips *)

Lemma next_fault_eq (w : World) :
  next_fault w = (mjoin (faults w !! 0%nat), set_faults (tail (faults w)) w).
Proof.
  unfold next_fault. destruct w as [b d u fs rs cs]; simpl.
  destruct fs; reflexivity.
Qed.

Lemma send_eq {t} (q : Query t) (w : World) :
  send q w =
    match mjoin (faults w !! 0%nat) with
    | Some e => (failure e, sent q w)
    | None =>
        (fst (execute (backend w) (db w) t q),
         set_db (snd (execute (backend w) (db w) t q)) (sent q w))
    end.
Proof.
  unfold send. rewrite next_fault_eq. simpl.
  destruct (mjoin (faults w !! 0%nat)); [reflexivity|].
  destruct (execute (backend w) (db w) t q); reflexivity.
Qed.

Lemma failed_true (n : nat) (w : World) :
  failed n w = true <-> exists e, mjoin (faults w !! n) = Some e.
Proof.
  unfold failed. destruct (faults w !! n) as [[e|]|]; simpl; split;
    try done; eauto; by intros [? ?].
Qed.

Lemma failed_false (n : nat) (w : World) :
  failed n w = false <-> mjoin (faults w !! n) = None.
Proof.
  unfold failed. destruct (faults w !! n) as [[e|]|]; simpl; split; done.
Qed.

Lemma execute_select_db (b : Backend) (d : Db) {t} (q : Query t) (c : Columns) :
  q_verb q = Select c -> snd (execute b d t q) = d.
Proof.
  intros Hq. unfold execute. rewrite Hq. by case_match.
Qed.

(** ** What a read leaves as it is *)

Lemma only_read_trans (w1 w2 w3 : World) :
  only_read w1 w2 -> only_read w2 w3 -> only_read w1 w3.
Proof.
  intros (Hb1 & Hd1 & Hc1 & rs1 & Hr1 & Hs1) (Hb2 & Hd2 & Hc2 & rs2 & Hr2 & Hs2).
  repeat split; try congruence.
  exists (rs1 ++ rs2)%list. rewrite Hr2, Hr1, <- app_assoc. split; [done|].
  rewrite forallb_app, Hs1, Hs2. done.
Qed.

Lemma only_read_console (line : string) (w : World) :
  only_read w (add_console line w).
Proof. repeat split. exists []. by rewrite app_nil_r. Qed.

Lemma only_read_send {t} (q : Query t) (c : Columns) (w : World) :
  q_verb q = Select c -> only_read w (snd (send q w)).
Proof.
  intros Hq. rewrite send_eq.
  assert (Hs : is_select (Rest t q) = true) by (simpl; by rewrite Hq).
  destruct (mjoin (faults w !! 0%nat)); simpl.
  - repeat split. exists [Rest t q]. split; [done|]. cbn [forallb]. by rewrite Hs.
  - repeat split.
    + by apply execute_select_db with c.
    + exists [Rest t q]. split; [done|]. cbn [forallb]. by rewrite Hs.
Qed.

(** * The reads of the module *)

Lemma getSubscription_eq (w : World) :
  Server.getSubscription w =
    let r := at_most_one_row (fst (send (subscription_query w) w)) in
    let w1 := snd (send (subscription_query w) w) in
    match error r with
    | Some _ => (Return None, add_console "getSubscription error" w1)
    | None => (Return (data r), w1)
    end.
Proof.
  unfold Server.getSubscription. run. fold (subscription_query w).
  destruct (send (subscription_query w) w) as [r w1]. cbn [fst snd].
  destruct (error (at_most_one_row r)); reflexivity.
Qed.

Lemma getJobs_eq (w : World) :
  Server.getJobs w =
    let r := fst (send (listing_query w) w) in
    let w1 := snd (send (listing_query w) w) in
    match error r with
    | Some e =>
        (Return {| JobsResult.success := false; JobsResult.data := None;
                   JobsResult.error := Some e |},
         add_console "getJobs error" w1)
    | None =>
        (Return {| JobsResult.success := true; JobsResult.data := data r;
                   JobsResult.error := None |}, w1)
    end.
Proof.
  unfold Server.getJobs. run. fold (listing_query w).
  destruct (send (listing_query w) w) as [r w1]. cbn [fst snd].
  destruct (error r); reflexivity.
Qed.

Lemma getJobsBetweenDates_eq (userId startDate endDate : string) (w : World) :
  Server.getJobsBetweenDates userId startDate endDate w =
    let r := fst (send (period_query userId startDate endDate w) w) in
    let w1 := snd (send (period_query userId startDate endDate w) w) in
    match error r with
    | Some _ => (Return None, add_console "getJobsBetweenDates error" w1)
    | None => (Return (data r), w1)
    end.
Proof.
  unfold Server.getJobsBetweenDates. run.
  fold (period_query userId startDate endDate w).
  destruct (send (period_query userId startDate endDate w) w) as [r w1].
  cbn [fst snd]. destruct (error r); reflexivity.
Qed.

Lemma getUserDetails_eq (w : World) :
  Server.getUserDetails w =
    let r := one_row (fst (send (user_query w) w)) in
    let w1 := snd (send (user_query w) w) in
    match error r with
    | Some _ => (Return None, add_console "getUserDetails error" w1)
    | None => (Return (data r), w1)
    end.
Proof.
  unfold Server.getUserDetails. run. fold (user_query w).
  destruct (send (user_query w) w) as [r w1]. cbn [fst snd].
  destruct (error (one_row r)); reflexivity.
Qed.

(** Each read returns, leaves the world as a read does, takes one round
    trip, and answers [null] when that round trip fails. *)
Lemma faults_send {t} (q : Query t) (w : World) :
  faults (snd (send q w)) = tail (faults w).
Proof.
  rewrite send_eq. by destruct (mjoin (faults w !! 0%nat)).
Qed.

Lemma error_send_failed {t} (q : Query t) (w : World) :
  failed 0 w = true -> exists e, fst (send q w) = failure e.
Proof.
  intros [e He]%failed_true. rewrite send_eq, He. by exists e.
Qed.

Lemma failed_tail (w w1 : World) (n : nat) :
  faults w1 = tail (faults w) -> failed n w1 = failed (S n) w.
Proof.
  unfold failed. intros ->. by destruct (faults w).
Qed.

Lemma getSubscription_returns (w : World) :
  exists s w1,
    Server.getSubscription w = (Return s, w1) /\ only_read w w1
    /\ faults w1 = tail (faults w) /\ (failed 0 w = true -> s = None).
Proof.
  rewrite getSubscription_eq. cbn zeta.
  pose proof (only_read_send (subscription_query w) _ w eq_refl) as Hr.
  pose proof (faults_send (subscription_query w) w) as Hf.
  pose proof (error_send_failed (subscription_query w) w) as He.
  destruct (error _) eqn:Herr; do 2 eexists; (split; [reflexivity|]).
  - split; [|split; [done|done]].
    eapply only_read_trans; [exact Hr|apply only_read_console].
  - split; [done|]. split; [done|].
    intros [e Hfail]%He. rewrite Hfail in Herr. discriminate Herr.
Qed.

Lemma getJobsBetweenDates_returns (userId startDate endDate : string) (w : World) :
  exists js w1,
    Server.getJobsBetweenDates userId startDate endDate w = (Return js, w1)
    /\ only_read w w1 /\ faults w1 = tail (faults w)
    /\ (failed 0 w = true -> js = None).
Proof.
  rewrite getJobsBetweenDates_eq. cbn zeta.
  pose proof (only_read_send (period_query userId startDate endDate w) _ w eq_refl) as Hr.
  pose proof (faults_send (period_query userId startDate endDate w) w) as Hf.
  pose proof (error_send_failed (period_query userId startDate endDate w) w) as He.
  destruct (error _) eqn:Herr; do 2 eexists; (split; [reflexivity|]).
  - split; [|split; [done|done]].
    eapply only_read_trans; [exact Hr|apply only_read_console].
  - split; [done|]. split; [done|].
    intros [e Hfail]%He. rewrite Hfail in Herr. discriminate Herr.
Qed.

Lemma getJobs_returns (w : World) :
  exists listing w1,
    Server.getJobs w = (Return listing, w1)
    /\ only_read w w1 /\ faults w1 = tail (faults w)
    /\ (failed 0 w = true -> JobsResult.data listing = None).
Proof.
  rewrite getJobs_eq. cbn zeta.
  pose proof (only_read_send (listing_query w) _ w eq_refl) as Hr.
  pose proof (faults_send (listing_query w) w) as Hf.
  pose proof (error_send_failed (listing_query w) w) as He.
  destruct (error _) eqn:Herr; do 2 eexists; (split; [reflexivity|]).
  - split; [|split; [done|done]].
    eapply only_read_trans; [exact Hr|apply only_read_console].
  - split; [done|]. split; [done|].
    intros [e Hfail]%He. rewrite Hfail in Herr. discriminate Herr.
Qed.

(** * What the store answers to the reads *)

Lemma filter_all {A} (f : A -> bool) (l : list A) :
  (forall x, f x = true) -> List.filter f l = l.
Proof.
  intros Hf. induction l as [|x l IH]; simpl; [done|]. by rewrite Hf, IH.
Qed.

Lemma execute_listing (w : World) :
  execute (backend w) (db w) tbl_jobs (listing_query w)
  = (success (Some (ordered (backend w) tbl_jobs [("created_at", false)] (visible_jobs w))),
     db w).
Proof.
  change (execute (backend w) (db w) tbl_jobs (listing_query w))
    with (success (Some (ordered (backend w) tbl_jobs [("created_at", false)]
                           (List.filter (matches (backend w) tbl_jobs [])
                              (visible_jobs w)))), db w).
  by rewrite filter_all.
Qed.

Lemma ordered_Permutation (b : Backend) (t : Table) (keys : list (string * bool))
    (rows : list (RowOf t)) :
  ordered b t keys rows ≡ₚ rows.
Proof. apply merge_sort_Permutation. Qed.

Lemma string_compare_refl (s : string) : String.compare s s = Eq.
Proof.
  pose proof (String.compare_antisym s s) as H.
  destruct (String.compare s s); [reflexivity|discriminate H|discriminate H].
Qed.

Lemma compare_text_eq (b : Backend) (s v : string) :
  compare_literal b (CText s) v = Some Eq <-> s = v.
Proof.
  cbn [compare_literal]. split.
  - intros [= H]. by apply String.compare_eq_iff.
  - intros ->. f_equal. apply string_compare_refl.
Qed.

Lemma compare_null (b : Backend) (v : string) :
  compare_literal b CNull v = None.
Proof. reflexivity. Qed.

(** The subscriptions a select restricted to the statuses trialing and
    active finds. *)
Lemma matches_active_like (b : Backend) (r : SubscriptionWithPrice) :
  matches b tbl_subscriptions [FilterIn "status" ["trialing"; "active"]] r
  = active_like (row r).
Proof.
  unfold matches, active_like. cbn [forallb holds existsb].
  change (cell tbl_subscriptions "status" r) with (text (Subscriptions.status (row r))).
  destruct (Subscriptions.status (row r)) as [st|]; cbn [text].
  - rewrite !orb_false_r, andb_true_r. f_equal.
    + apply bool_decide_ext. rewrite compare_text_eq. naive_solver.
    + apply bool_decide_ext. rewrite compare_text_eq. naive_solver.
  - reflexivity.
Qed.

Lemma execute_subscription (w : World) :
  execute (backend w) (db w) tbl_subscriptions (subscription_query w)
  = (success (Some (ordered (backend w) tbl_subscriptions []
       (List.filter (fun r => active_like (row r))
          (scan (backend w) (db w) (SessionClient (cookie_user w)) tbl_subscriptions)))),
     db w).
Proof.
  change (execute (backend w) (db w) tbl_subscriptions (subscription_query w))
    with (success (Some (ordered (backend w) tbl_subscriptions []
            (List.filter (matches (backend w) tbl_subscriptions [FilterIn "status" ["trialing"; "active"]])
               (scan (backend w) (db w) (SessionClient (cookie_user w)) tbl_subscriptions)))),
          db w).
  do 4 f_equal. apply filter_ext. intros r. apply matches_active_like.
Qed.

(** * The credit balance *)

Lemma server_allotment (raw : jsval) :
  Number
    (nullish_or
       (get_property
          (if truthy raw && bool_decide (typeof raw = "object")
              && negb (is_null raw) && has_property "credits" raw
           then raw else Some JNull)
          "credits")
       (Some (JNum 0)))
  = match get_property raw "credits" with
    | Some c => json_to_number c
    | None => int 0
    end.
Proof.
  destruct raw as [[|x|q|s|items|fields]|]; cbn [get_property has_property is_null typeof];
    try (destruct (truthy _); reflexivity).
  cbn [truthy negb andb].
  rewrite bool_decide_eq_true_2 by reflexivity. cbn [andb].
  destruct (lookup_field "credits" fields) as [c|] eqn:Hc.
  - rewrite bool_decide_eq_true_2 by eauto. cbn [get_property]. rewrite Hc.
    destruct c; reflexivity.
  - rewrite bool_decide_eq_false_2 by (by intros [? ?]). reflexivity.
Qed.

(** The subscribed path, for any answer of the two lookups. *)
Lemma getCreditBalance_subscribed (w w1 w2 : World) (sub : SubscriptionWithPrice)
    (found : option (list Jobs.Row)) :
  Server.getSubscription w = (Return (Some sub), w1) ->
  Server.getJobsBetweenDates
    (Subscriptions.user_id (row sub))
    (Subscriptions.current_period_start (row sub))
    (Subscriptions.current_period_end (row sub)) w1 = (Return found, w2) ->
  Server.getCreditBalance w
  = (Return {| remaining := num_sub (allotment sub) (Fin (total_credits (default [] found)));
               outOf := allotment sub |}, w2).
Proof.
  intros H1 H2. unfold Server.getCreditBalance, bind at 1. rewrite H1.
  unfold bind at 1. rewrite H2. unfold ret. do 2 f_equal.
  fold (product_metadata sub). rewrite server_allotment. fold (allotment sub).
  destruct found as [js|]; cbn [default].
  - by rewrite reduce_sumCredits.
  - reflexivity.
Qed.

(** The free-tier path, for any answer of the listing. *)
Lemma getCreditBalance_free_tier (w w1 w2 : World) (listing : JobsResult.t) :
  Server.getSubscription w = (Return None, w1) ->
  Server.getJobs w1 = (Return listing, w2) ->
  Server.getCreditBalance w
  = (Return {| remaining :=
                 Fin (Q2Qc 7500 - total_credits (default [] (JobsResult.data listing)));
               outOf := int 7500 |}, w2).
Proof.
  intros H1 H2. unfold Server.getCreditBalance, bind at 1. rewrite H1.
  unfold bind at 1. rewrite H2.
  rewrite getJobs_eq in H2. cbn zeta in H2.
  destruct (error (fst (send (listing_query w1) w1))) as [e|] eqn:He;
    injection H2 as <- <-; cbn [JobsResult.success JobsResult.data default].
  - reflexivity.
  - rewrite send_eq in He |- *.
    destruct (mjoin (faults w1 !! 0%nat)) as [e|]; cbn [fst snd] in *; [discriminate He|].
    rewrite execute_listing. cbn [fst data success default].
    unfold bind, ret. by rewrite reduce_sumCredits.
Qed.

(** C1. When the subscription lookup yields a subscription whose product
    metadata carries the credit allotment [A] (its [credits] entry converts
    to the number [A]) and the in-period job query returns the jobs [js],
    [getCreditBalance] returns [remaining = A - S] and [outOf = A], where [S]
    is the sum of the credits of [js].  The difference is not floored: it is
    negative when [S] exceeds [A]. *)
Theorem subscribed_balance_is_allotment_minus_spent
    (w w1 w2 : World) (sub : SubscriptionWithPrice) (js : list Jobs.Row) (A : Qc) :
  Server.getSubscription w = (Return (Some sub), w1) ->
  Server.getJobsBetweenDates
    (Subscriptions.user_id (row sub))
    (Subscriptions.current_period_start (row sub))
    (Subscriptions.current_period_end (row sub)) w1 = (Return (Some js), w2) ->
  Number (get_property (product_metadata sub) "credits") = Fin A ->
  Server.getCreditBalance w
  = (Return {| remaining := Fin (A - total_credits js); outOf := Fin A |}, w2)
  /\ (A < total_credits js -> A - total_credits js < 0).
Proof.
  intros H1 H2 HA. split; [|apply difference_negative].
  rewrite (getCreditBalance_subscribed w w1 w2 sub (Some js) H1 H2).
  assert (allotment sub = Fin A) as ->.
  { unfold allotment. destruct (get_property (product_metadata sub) "credits");
      [exact HA|discriminate HA]. }
  reflexivity.
Qed.

(** An overdrawn account: an allotment of 100 and jobs of 100 and 50 credits
    in the period leave -50. *)
Lemma subscribed_balance_witness :
  fst (Server.getCreditBalance
         (Demo.world
            (Demo.tables [Demo.subscription "active"] (Demo.metadata (JStr "100"))
               [Demo.job "a" "u1" "2024-01-05T00:00:00Z" (Some 100%Z);
                Demo.job "b" "u1" "2024-01-15T00:00:00Z" (Some 50%Z)])
            []))
  = Return {| remaining := int (-50); outOf := int 100 |}.
Proof.
  pose proof (fun w1 w2 sub js H1 H2 HA =>
                proj1 (subscribed_balance_is_allotment_minus_spent
                         (Demo.world
                            (Demo.tables [Demo.subscription "active"]
                               (Demo.metadata (JStr "100"))
                               [Demo.job "a" "u1" "2024-01-05T00:00:00Z" (Some 100%Z);
                                Demo.job "b" "u1" "2024-01-15T00:00:00Z" (Some 50%Z)])
                            [])
                         w1 w2 sub js (Q2Qc 100) H1 H2 HA)) as H.
  erewrite H; cycle 1; [reflexivity|reflexivity|reflexivity|reflexivity].
Defined.

(** ** The free tier *)

Lemma no_active_subscription_found (b : Backend) (d : Db) (c : Client)
    (subs : list Subscriptions.Row) :
  existsb (fun s => visible b c (SubscriptionRow s) && active_like s) subs = false ->
  List.filter (fun r => active_like (row r))
    (List.map (fun s => {| row := s; prices := embed_price b d c s |})
       (List.filter (fun r => visible b c (SubscriptionRow r)) subs)) = [].
Proof.
  induction subs as [|s subs IH]; cbn [existsb List.filter List.map]; [done|].
  intros [Hs Hrest]%orb_false_elim.
  destruct (visible b c (SubscriptionRow s)); cbn [andb] in Hs.
  - cbn [List.map List.filter row]. rewrite Hs. by apply IH.
  - by apply IH.
Qed.

(** Without a subscription in status trialing or active in sight, the
    lookup answers [null], whether the round trip fails or not. *)
Lemma getSubscription_none (w : World) :
  has_active_subscription w = false ->
  exists w1, Server.getSubscription w = (Return None, w1) /\ only_read w w1
             /\ faults w1 = tail (faults w).
Proof.
  intros Hno. rewrite getSubscription_eq. cbn zeta.
  pose proof (only_read_send (subscription_query w) _ w eq_refl) as Hr.
  revert Hr. rewrite send_eq.
  destruct (mjoin (faults w !! 0%nat)) as [e|]; cbn [fst snd at_most_one_row failure error].
  - intros Hr. eexists. split; [reflexivity|]. split; [|reflexivity].
    eapply only_read_trans; [exact Hr|apply only_read_console].
  - rewrite execute_subscription. cbn [fst snd scan].
    unfold has_active_subscription in Hno.
    rewrite (no_active_subscription_found _ _ _ _ Hno).
    intros Hr. eexists. split; [reflexivity|]. split; [exact Hr|reflexivity].
Qed.

Lemma visible_jobs_only_read (w w' : World) :
  only_read w w' -> visible_jobs w' = visible_jobs w.
Proof.
  intros (Hb & Hd & Hc & _). unfold visible_jobs. by rewrite Hb, Hd, Hc.
Qed.

(** The unfiltered listing: when it succeeds, its rows are all the jobs the
    session sees, in some order. *)
Lemma getJobs_lists_visible_jobs (w w' : World) (listing : JobsResult.t) :
  Server.getJobs w = (Return listing, w') ->
  if JobsResult.success listing
  then exists js, JobsResult.data listing = Some js /\ js ≡ₚ visible_jobs w
  else JobsResult.data listing = None.
Proof.
  rewrite getJobs_eq. cbn zeta. rewrite send_eq.
  destruct (mjoin (faults w !! 0%nat)) as [e|]; cbn [fst snd failure error].
  - by intros [= <- _].
  - rewrite execute_listing. cbn [fst success error data].
    intros [= <- _]. cbn [JobsResult.success JobsResult.data].
    eexists. split; [reflexivity|].
    exact (ordered_Permutation (backend w) tbl_jobs _ (visible_jobs w)).
Qed.

Lemma getJobs_request (w w' : World) (listing : JobsResult.t) :
  Server.getJobs w = (Return listing, w') ->
  requests w' = (requests w ++ [Rest tbl_jobs (listing_query w)])%list.
Proof.
  rewrite getJobs_eq. cbn zeta. rewrite send_eq.
  destruct (mjoin (faults w !! 0%nat)) as [e|]; cbn [fst snd failure error].
  - by intros [= _ <-].
  - rewrite execute_listing. cbn [fst snd success error]. by intros [= _ <-].
Qed.

(** The listing when its round trip is delivered: it reports success,
    and its rows are all the jobs the session sees. *)
Lemma getJobs_delivered (w : World) :
  failed 0 w = false ->
  exists w',
    Server.getJobs w
    = (Return {| JobsResult.success := true;
                 JobsResult.data :=
                   Some (ordered (backend w) tbl_jobs [("created_at", false)]
                           (visible_jobs w));
                 JobsResult.error := None |}, w').
Proof.
  intros Hf%failed_false. rewrite getJobs_eq. cbn zeta.
  rewrite send_eq, Hf, execute_listing. cbn [fst snd error success data].
  by eexists.
Qed.

(** The listing when its round trip fails. *)
Lemma getJobs_undelivered (w w' : World) (listing : JobsResult.t) :
  failed 0 w = true ->
  Server.getJobs w = (Return listing, w') ->
  JobsResult.success listing = false /\ JobsResult.data listing = None.
Proof.
  intros [e He]%failed_true. rewrite getJobs_eq. cbn zeta. rewrite send_eq, He.
  cbn [fst snd error failure]. by intros [= <- _].
Qed.

(** C2. For a session that sees no subscription in status trialing or active,
    [getCreditBalance] takes the free tier: the subscription lookup answers
    [null], the job listing [getJobs] is called, and the result is
    [outOf = 7500] and [remaining = 7500 - S], where [S] sums the credits of
    all the jobs the listing returned.  When the round trip of the listing is
    delivered, the listing succeeds with all the jobs the session may see, so
    that [remaining = 7500 - ] the credits of all of them: the one request
    [getJobs] sends has no filter at all, neither on the billing period, nor
    on the user, nor on [is_deleted].  When that round trip fails the listing
    reports a failure and no credits count as spent. *)
Theorem free_tier_balance_sums_all_listed_jobs (w : World) :
  has_active_subscription w = false ->
  exists (w1 w2 : World) (listing : JobsResult.t),
    Server.getSubscription w = (Return None, w1)
    /\ Server.getJobs w1 = (Return listing, w2)
    /\ Server.getCreditBalance w
       = (Return {| remaining :=
                      Fin (Q2Qc 7500 - total_credits (default [] (JobsResult.data listing)));
                    outOf := int 7500 |}, w2)
    /\ (if failed 1 w
        then JobsResult.success listing = false /\ JobsResult.data listing = None
        else JobsResult.success listing = true
             /\ exists js,
                  JobsResult.data listing = Some js /\ js ≡ₚ visible_jobs w)
    /\ (failed 1 w = false ->
        Server.getCreditBalance w
        = (Return {| remaining := Fin (Q2Qc 7500 - total_credits (visible_jobs w));
                     outOf := int 7500 |}, w2))
    /\ requests w2 = (requests w1 ++ [Rest tbl_jobs (listing_query w1)])%list
    /\ q_filters (listing_query w1) = [].
Proof.
  intros Hno. destruct (getSubscription_none w Hno) as (w1 & H1 & Hread & Hf1).
  destruct (getJobs_returns w1) as (listing & w2 & H2 & _).
  pose proof (getCreditBalance_free_tier w w1 _ listing H1 H2) as Hbal.
  pose proof (failed_tail w w1 0 Hf1) as Htail.
  exists w1, w2, listing.
  split; [exact H1|]. split; [exact H2|]. split; [exact Hbal|].
  assert (Hok : failed 1 w = false ->
                JobsResult.success listing = true
                /\ exists js, JobsResult.data listing = Some js /\ js ≡ₚ visible_jobs w).
  { intros Hf. rewrite <- Htail in Hf.
    destruct (getJobs_delivered w1 Hf) as (w2' & H2'). rewrite H2 in H2'.
    injection H2' as -> _. cbn [JobsResult.success JobsResult.data].
    split; [reflexivity|]. eexists. split; [reflexivity|].
    rewrite <- (visible_jobs_only_read w w1 Hread).
    exact (ordered_Permutation (backend w1) tbl_jobs _ (visible_jobs w1)). }
  assert (Hfail : failed 1 w = true ->
                  JobsResult.success listing = false /\ JobsResult.data listing = None).
  { intros Hf. rewrite <- Htail in Hf. exact (getJobs_undelivered w1 w2 listing Hf H2). }
  split; [|split; [|split; [|reflexivity]]].
  - destruct (failed 1 w); [by apply Hfail|by apply Hok].
  - intros Hf. destruct (Hok Hf) as (_ & js & Hjs & Hperm).
    rewrite Hbal, Hjs. change (default [] (Some js)) with js.
    by rewrite (total_credits_Permutation _ _ Hperm).
  - exact (getJobs_request w1 w2 listing H2).
Qed.

(** Scenario 2: a canceled subscription and jobs of 1000, 2000 and 500
    credits, one of them outside the old billing period, leave 4000 of
    7500. *)
Lemma free_tier_balance_witness :
  has_active_subscription
    (Demo.world
       (Demo.tables [Demo.subscription "canceled"] (Demo.metadata (JStr "500"))
          [Demo.job "a" "u1" "2024-01-05T00:00:00Z" (Some 1000%Z);
           Demo.job "b" "u1" "2024-01-15T00:00:00Z" (Some 2000%Z);
           Demo.job "c" "u1" "2024-02-15T00:00:00Z" (Some 500%Z)])
       []) = false
  /\ fst (Server.getCreditBalance
            (Demo.world
               (Demo.tables [Demo.subscription "canceled"] (Demo.metadata (JStr "500"))
                  [Demo.job "a" "u1" "2024-01-05T00:00:00Z" (Some 1000%Z);
                   Demo.job "b" "u1" "2024-01-15T00:00:00Z" (Some 2000%Z);
                   Demo.job "c" "u1" "2024-02-15T00:00:00Z" (Some 500%Z)])
               []))
     = Return {| remaining := int 4000; outOf := int 7500 |}.
Proof.
  split; [reflexivity|].
  destruct (free_tier_balance_sums_all_listed_jobs
              (Demo.world
                 (Demo.tables [Demo.subscription "canceled"] (Demo.metadata (JStr "500"))
                    [Demo.job "a" "u1" "2024-01-05T00:00:00Z" (Some 1000%Z);
                     Demo.job "b" "u1" "2024-01-15T00:00:00Z" (Some 2000%Z);
                     Demo.job "c" "u1" "2024-02-15T00:00:00Z" (Some 500%Z)])
                 [])
              eq_refl) as (w1 & w2 & listing & _ & _ & _ & _ & H & _).
  rewrite (H eq_refl). reflexivity.
Defined.

(** ** The allotment when the metadata is not as expected *)

(** Without a [credits] entry (no price, no product, metadata that is
    [null] or not an object, or an object without the key) the allotment is
    zero. *)
Lemma absent_credits_allotment (w w1 w2 : World) (sub : SubscriptionWithPrice)
    (found : option (list Jobs.Row)) :
  Server.getSubscription w = (Return (Some sub), w1) ->
  Server.getJobsBetweenDates
    (Subscriptions.user_id (row sub))
    (Subscriptions.current_period_start (row sub))
    (Subscriptions.current_period_end (row sub)) w1 = (Return found, w2) ->
  get_property (product_metadata sub) "credits" = None ->
  Server.getCreditBalance w
  = (Return {| remaining := Fin (0 - total_credits (default [] found));
               outOf := int 0 |}, w2).
Proof.
  intros H1 H2 Hc. rewrite (getCreditBalance_subscribed w w1 w2 sub found H1 H2).
  unfold allotment. rewrite Hc. reflexivity.
Qed.

(** With a [credits] entry that does not convert to a number, the allotment
    and the balance are [NaN]. *)
Lemma malformed_credits_allotment (w w1 w2 : World) (sub : SubscriptionWithPrice)
    (found : option (list Jobs.Row)) (c : Json) :
  Server.getSubscription w = (Return (Some sub), w1) ->
  Server.getJobsBetweenDates
    (Subscriptions.user_id (row sub))
    (Subscriptions.current_period_start (row sub))
    (Subscriptions.current_period_end (row sub)) w1 = (Return found, w2) ->
  get_property (product_metadata sub) "credits" = Some c ->
  json_to_number c = NaN ->
  Server.getCreditBalance w = (Return {| remaining := NaN; outOf := NaN |}, w2).
Proof.
  intros H1 H2 Hc Hn. rewrite (getCreditBalance_subscribed w w1 w2 sub found H1 H2).
  unfold allotment. rewrite Hc, Hn. reflexivity.
Qed.

(** C3, at the failing input: a product whose metadata has the [credits]
    entry ["abc"].  [Number("abc")] is [NaN], so the balance is
    [{ remaining: NaN, outOf: NaN }], not [{ remaining: 0 - S, outOf: 0 }]. *)
Theorem non_numeric_credits_give_NaN :
  StringToNumber "abc" = NaN
  /\ fst (Server.getCreditBalance
            (Demo.world
               (Demo.tables [Demo.subscription "active"] (Demo.metadata (JStr "abc"))
                  [Demo.job "a" "u1" "2024-01-05T00:00:00Z" (Some 100%Z)])
               []))
     = Return {| remaining := NaN; outOf := NaN |}.
Proof. split; reflexivity. Qed.

(** The same product without the [credits] entry: the allotment is zero and
    the 100 credits spent leave -100. *)
Example missing_credits_give_zero :
  fst (Server.getCreditBalance
         (Demo.world
            (Demo.tables [Demo.subscription "active"] (JObj [("index", JStr "0")])
               [Demo.job "a" "u1" "2024-01-05T00:00:00Z" (Some 100%Z)])
            []))
  = Return {| remaining := int (-100); outOf := int 0 |}.
Proof. reflexivity. Qed.

(** The second copy of the module has no default: there a missing [credits]
    entry gives [NaN] as well. *)
Example unchecked_missing_credits_give_NaN :
  fst (ServerUnchecked.getCreditBalance
         (Demo.world
            (Demo.tables [Demo.subscription "active"] (JObj [("index", JStr "0")])
               [Demo.job "a" "u1" "2024-01-05T00:00:00Z" (Some 100%Z)])
            []))
  = Return {| remaining := NaN; outOf := NaN |}.
Proof. reflexivity. Qed.

(** The scenarios of the specification. *)
Example scenario_1 :
  fst (Server.getCreditBalance
         (Demo.world
            (Demo.tables [Demo.subscription "active"] (Demo.metadata (JStr "500"))
               [Demo.job "a" "u1" "2024-01-05T00:00:00Z" (Some 100%Z);
                Demo.job "b" "u1" "2024-01-15T00:00:00Z" (Some 50%Z)])
            []))
  = Return {| remaining := int 350; outOf := int 500 |}.
Proof. reflexivity. Qed.

Example scenario_2 :
  fst (Server.getCreditBalance
         (Demo.world
            (Demo.tables [] (Demo.metadata (JStr "500"))
               [Demo.job "a" "u1" "2024-01-05T00:00:00Z" (Some 1000%Z);
                Demo.job "b" "u1" "2024-01-15T00:00:00Z" (Some 2000%Z);
                Demo.job "c" "u1" "2024-02-15T00:00:00Z" (Some 500%Z)])
            []))
  = Return {| remaining := int 4000; outOf := int 7500 |}.
Proof. reflexivity. Qed.

(** ** No exception, no write *)

(** C5. [getCreditBalance] never throws: for every world, so for every
    outcome of the round trips, it returns a pair of numbers.  When the
    subscription lookup fails the free tier is taken ([outOf] is 7500), and
    when the job query that follows fails (the in-period query or the
    free-tier listing) no credits count as spent ([remaining] is [outOf]). *)
Theorem getCreditBalance_never_throws (w : World) :
  exists (b : Balance) (w' : World),
    Server.getCreditBalance w = (Return b, w')
    /\ (failed 0 w = true -> outOf b = int 7500)
    /\ (failed 1 w = true -> remaining b = outOf b).
Proof.
  destruct (getSubscription_returns w) as (s & w1 & H1 & _ & Hf1 & Hnone).
  destruct s as [sub|].
  - destruct (getJobsBetweenDates_returns
                (Subscriptions.user_id (row sub))
                (Subscriptions.current_period_start (row sub))
                (Subscriptions.current_period_end (row sub)) w1)
      as (found & w2 & H2 & _ & _ & Hfail).
    do 2 eexists. split; [exact (getCreditBalance_subscribed w w1 w2 sub found H1 H2)|].
    cbn [outOf remaining]. split.
    + intros Hfailed. discriminate (Hnone Hfailed).
    + intros Hfailed. rewrite <- (failed_tail w w1 0 Hf1) in Hfailed.
      rewrite (Hfail Hfailed). cbn [default total_credits]. apply num_sub_0_r.
  - destruct (getJobs_returns w1) as (listing & w2 & H2 & _ & _ & Hfail).
    do 2 eexists. split; [exact (getCreditBalance_free_tier w w1 w2 listing H1 H2)|].
    cbn [outOf remaining]. split; [done|].
    intros Hfailed. rewrite <- (failed_tail w w1 0 Hf1) in Hfailed.
    rewrite (Hfail Hfailed). reflexivity.
Qed.

(** C8. [getCreditBalance] is read-only: whatever happens, the tables
    (users, subscriptions, products, prices and jobs) are afterwards what
    they were, and every request it has sent is a select. *)
Theorem getCreditBalance_read_only (w : World) :
  db (snd (Server.getCreditBalance w)) = db w
  /\ exists rs,
       requests (snd (Server.getCreditBalance w)) = (requests w ++ rs)%list
       /\ forallb is_select rs = true.
Proof.
  assert (only_read w (snd (Server.getCreditBalance w))) as (_ & Hd & _ & Hr);
    [|by split].
  destruct (getSubscription_returns w) as (s & w1 & H1 & Hr1 & _).
  destruct s as [sub|].
  - destruct (getJobsBetweenDates_returns
                (Subscriptions.user_id (row sub))
                (Subscriptions.current_period_start (row sub))
                (Subscriptions.current_period_end (row sub)) w1)
      as (found & w2 & H2 & Hr2 & _).
    rewrite (getCreditBalance_subscribed w w1 w2 sub found H1 H2). cbn [snd].
    by eapply only_read_trans.
  - destruct (getJobs_returns w1) as (listing & w2 & H2 & Hr2 & _).
    rewrite (getCreditBalance_free_tier w w1 w2 listing H1 H2). cbn [snd].
    by eapply only_read_trans.
Qed.

(** ** Jobs without credits *)

(** C4. Whatever list of jobs [getCreditBalance] sums, on the subscribed
    in-period path and on the free-tier path alike, a job whose credits are
    absent, null or zero contributes nothing: the balance it returns is
    [outOf] minus the sum of the credits of the jobs that have some, and
    that is the sum of the credits that are present in the whole list.  The
    list is what the job query of the path answered, and no job when that
    query failed. *)
Theorem credits_spent_ignores_missing_credits (w : World) :
  exists (s : option SubscriptionWithPrice) (w1 : World),
    Server.getSubscription w = (Return s, w1)
    /\ match s with
       | Some sub =>
           exists (found : option (list Jobs.Row)) (w2 : World),
             Server.getJobsBetweenDates
               (Subscriptions.user_id (row sub))
               (Subscriptions.current_period_start (row sub))
               (Subscriptions.current_period_end (row sub)) w1 = (Return found, w2)
             /\ Server.getCreditBalance w
                = (Return
                     {| remaining :=
                          num_sub (allotment sub)
                            (Fin (total_credits
                                    (List.filter (fun j => negb (no_credits j))
                                       (default [] found))));
                        outOf := allotment sub |}, w2)
             /\ total_credits (List.filter (fun j => negb (no_credits j)) (default [] found))
                = total_credits (default [] found)
       | None =>
           exists (listing : JobsResult.t) (w2 : World),
             Server.getJobs w1 = (Return listing, w2)
             /\ Server.getCreditBalance w
                = (Return
                     {| remaining :=
                          Fin (Q2Qc 7500
                               - total_credits
                                   (List.filter (fun j => negb (no_credits j))
                                      (default [] (JobsResult.data listing))));
                        outOf := int 7500 |}, w2)
             /\ total_credits
                  (List.filter (fun j => negb (no_credits j))
                     (default [] (JobsResult.data listing)))
                = total_credits (default [] (JobsResult.data listing))
       end.
Proof.
  destruct (getSubscription_returns w) as (s & w1 & H1 & _).
  exists s, w1. split; [exact H1|]. destruct s as [sub|].
  - destruct (getJobsBetweenDates_returns
                (Subscriptions.user_id (row sub))
                (Subscriptions.current_period_start (row sub))
                (Subscriptions.current_period_end (row sub)) w1)
      as (found & w2 & H2 & _).
    exists found, w2. split; [exact H2|]. split; [|apply total_credits_filter].
    rewrite total_credits_filter.
    exact (getCreditBalance_subscribed w w1 w2 sub found H1 H2).
  - destruct (getJobs_returns w1) as (listing & w2 & H2 & _).
    exists listing, w2. split; [exact H2|]. split; [|apply total_credits_filter].
    rewrite total_credits_filter.
    exact (getCreditBalance_free_tier w w1 w2 listing H1 H2).
Qed.

(** Jobs of 100 credits, of [null] credits and of zero credits: 100
    credits are spent, on either path. *)
Example creditless_jobs_count_for_nothing :
  fst (Server.getCreditBalance
         (Demo.world
            (Demo.tables [Demo.subscription "active"] (Demo.metadata (JStr "500"))
               [Demo.job "a" "u1" "2024-01-05T00:00:00Z" (Some 100%Z);
                Demo.job "b" "u1" "2024-01-06T00:00:00Z" None;
                Demo.job "c" "u1" "2024-01-07T00:00:00Z" (Some 0%Z)])
            []))
  = Return {| remaining := int 400; outOf := int 500 |}
  /\ fst (Server.getCreditBalance
            (Demo.world
               (Demo.tables [] (Demo.metadata (JStr "500"))
                  [Demo.job "a" "u1" "2024-01-05T00:00:00Z" (Some 100%Z);
                   Demo.job "b" "u1" "2024-01-06T00:00:00Z" None;
                   Demo.job "c" "u1" "2024-01-07T00:00:00Z" (Some 0%Z)])
               []))
     = Return {| remaining := int 7400; outOf := int 7500 |}.
Proof. split; reflexivity. Qed.

(** ** The second copy of the module *)

(** The subscribed path of the second copy: the allotment is the number the
    [credits] entry converts to, [NaN] when there is none. *)
Lemma unchecked_getCreditBalance_subscribed (w w1 w2 : World)
    (sub : SubscriptionWithPrice) (found : option (list Jobs.Row)) :
  ServerUnchecked.getSubscription w = (Return (Some sub), w1) ->
  ServerUnchecked.getJobsBetweenDates
    (Subscriptions.user_id (row sub))
    (Subscriptions.current_period_start (row sub))
    (Subscriptions.current_period_end (row sub)) w1 = (Return found, w2) ->
  ServerUnchecked.getCreditBalance w
  = (Return {| remaining :=
                 num_sub (Number (get_property (product_metadata sub) "credits"))
                   (Fin (total_credits (default [] found)));
               outOf := Number (get_property (product_metadata sub) "credits") |}, w2).
Proof.
  intros H1 H2. unfold ServerUnchecked.getCreditBalance, bind at 1. rewrite H1.
  unfold bind at 1. rewrite H2. unfold ret. do 2 f_equal.
  fold (product_metadata sub).
  destruct found as [js|]; cbn [default].
  - by rewrite reduce_sumCredits.
  - reflexivity.
Qed.

(** The same equation for a numeric allotment as in the first copy. *)
Lemma unchecked_subscribed_balance (w w1 w2 : World) (sub : SubscriptionWithPrice)
    (js : list Jobs.Row) (A : Qc) :
  ServerUnchecked.getSubscription w = (Return (Some sub), w1) ->
  ServerUnchecked.getJobsBetweenDates
    (Subscriptions.user_id (row sub))
    (Subscriptions.current_period_start (row sub))
    (Subscriptions.current_period_end (row sub)) w1 = (Return (Some js), w2) ->
  Number (get_property (product_metadata sub) "credits") = Fin A ->
  ServerUnchecked.getCreditBalance w
  = (Return {| remaining := Fin (A - total_credits js); outOf := Fin A |}, w2).
Proof.
  intros H1 H2 HA.
  rewrite (unchecked_getCreditBalance_subscribed w w1 w2 sub (Some js) H1 H2), HA.
  reflexivity.
Qed.

(** Unlike the first copy, the second one can throw: its listing does not
    throw on a failed query, reports success with [data = null], and
    [getCreditBalance] then calls [reduce] on [null]. *)
Example unchecked_getCreditBalance_throws :
  fst (ServerUnchecked.getCreditBalance
         (Demo.world (Demo.tables [] JNull [])
            [None; Some (FetchError "fetch failed")]))
  = Throw (TypeError "Cannot read properties of null (reading 'reduce')").
Proof. reflexivity. Qed.

(** * The job mutators *)

(** ** What the store does with an update and an insert *)

Lemma execute_update (b : Backend) (d : Db) (c : Client) (column value : string)
    (u : Jobs.Update) :
  In column (columns tbl_jobs) ->
  execute b d tbl_jobs (update_query c column value u)
  = let rows := List.map (Jobs.set u)
                  (List.filter (selected b c [FilterEq column value]) (jobs_table d)) in
    if negb (bool_decide (Jobs.u_unknown u = []))
    then (failure (PostgrestError "PGRST204"), d)
    else if forallb (check_job b c d) rows
    then (success (Some rows),
          with_jobs (List.map (updated b c [FilterEq column value] u) (jobs_table d)) d)
    else (failure (PostgrestError "23000"), d).
Proof.
  intros Hcol. unfold execute.
  cbn [update_query q_filters q_verb q_client from update eq where_ select throwOnError
       app forallb filter_column].
  rewrite bool_decide_eq_true_2 by (by apply list_elem_of_In). cbn [andb negb].
  reflexivity.
Qed.

Lemma execute_insert (b : Backend) (d : Db) (c : Client) (payload : Jobs.Insert) :
  execute b d tbl_jobs (insert_query c payload)
  = match new_job b c d payload with
    | Some r => (success (Some [r]), with_jobs (jobs_table d ++ [r]) d)
    | None => (failure (PostgrestError "23000"), d)
    end.
Proof.
  unfold execute.
  cbn [insert_query q_filters q_verb q_client from insert select throwOnError
       forallb negb mapM].
  destruct (new_job b c d payload); reflexivity.
Qed.

Lemma wrote_nothing (d : Db) : wrote d d [].
Proof. split; [by intros r []|]. intros r Hr Hn. by destruct Hn. Qed.

Lemma with_jobs_same (d : Db) : with_jobs (jobs_table d) d = d.
Proof. by destruct d. Qed.

(** An update that selects no row changes no row. *)
Lemma unhit_unchanged (b : Backend) (c : Client) (fs : list Filter) (u : Jobs.Update)
    (js : list Jobs.Row) :
  List.filter (selected b c fs) js = [] -> List.map (updated b c fs u) js = js.
Proof.
  induction js as [|r js IH]; cbn [List.filter List.map]; [done|].
  unfold updated at 1. destruct (selected b c fs r); [done|].
  intros Hnone. by rewrite (IH Hnone).
Qed.

Lemma update_sound (c : Client) (column value : string) (u : Jobs.Update) :
  In column (columns tbl_jobs) -> sound_statement (update_query c column value u).
Proof.
  intros Hcol b d. rewrite (execute_update b d c column value u Hcol). cbn zeta.
  destruct (negb (bool_decide (Jobs.u_unknown u = []))).
  { cbn [fst snd data error failure default]. split; [apply wrote_nothing|done]. }
  destruct (forallb _ _).
  - cbn [fst snd data error success default].
    split; [|split; [|by intros [? ?]]].
    + split; cbn [with_jobs jobs_table].
      * intros r' (r & <- & (Hr & Hhit)%filter_In)%in_map_iff.
        apply in_map_iff. exists r. split; [|done]. unfold updated. by rewrite Hhit.
      * intros r' (r & <- & Hr)%in_map_iff Hnew. unfold updated in *.
        destruct (selected b c [FilterEq column value] r) eqn:Hhit; [|done].
        apply in_map_iff. exists r. split; [done|]. by apply filter_In.
    + intros Hnone%map_eq_nil.
      rewrite (unhit_unchanged b c [FilterEq column value] u _ Hnone).
      apply with_jobs_same.
  - cbn [fst snd data error failure default]. split; [apply wrote_nothing|done].
Qed.

Lemma insert_sound (c : Client) (payload : Jobs.Insert) :
  sound_statement (insert_query c payload).
Proof.
  intros b d. rewrite execute_insert. destruct (new_job b c d payload) as [r|].
  - cbn [fst snd data error success default].
    split; [|split; [done|by intros [? ?]]].
    split; cbn [with_jobs jobs_table].
    + intros r' Hr'. apply in_or_app. by right.
    + intros r' [Hold|Hnew]%in_app_or Hn; [done|exact Hnew].
  - cbn [fst snd data error failure default]. split; [apply wrote_nothing|done].
Qed.

(** One round trip of a statement. *)
Lemma send_sound (q : Query tbl_jobs) (w : World) :
  sound_statement q ->
  mutated_rows w (snd (send q w)) (default [] (data (fst (send q w))))
  /\ (default [] (data (fst (send q w))) = [] -> db (snd (send q w)) = db w)
  /\ (is_Some (error (fst (send q w))) -> data (fst (send q w)) = None)
  /\ (failed 0 w = true -> is_Some (error (fst (send q w)))).
Proof.
  intros Hq. rewrite send_eq. unfold mutated_rows.
  destruct (mjoin (faults w !! 0%nat)) as [e|] eqn:Hf.
  - cbn [fst snd data error failure default sent set_faults add_request db].
    split; [apply wrote_nothing|]. split; [done|]. split; [done|]. intros _. by exists e.
  - cbn [fst snd set_db db]. destruct (Hq (backend w) (db w)) as (Hw & Hn & He).
    split; [exact Hw|]. split; [exact Hn|]. split; [exact He|].
    intros [e He']%failed_true. congruence.
Qed.

Lemma statement_eq (q : Query tbl_jobs) (line : string) (w : World) :
  q_throw q = true ->
  statement q line w
  = match error (fst (send q w)) with
    | Some _ => (Return [], add_console line (snd (send q w)))
    | None => (Return (default [] (data (fst (send q w)))), snd (send q w))
    end.
Proof.
  intros Ht. unfold statement. run. destruct (send q w) as [r w1]. cbn [fst snd].
  rewrite Ht. destruct (error r); reflexivity.
Qed.

Lemma statement_contract (q : Query tbl_jobs) (line : string) (w : World) :
  q_throw q = true -> sound_statement q ->
  exists (rows : list Jobs.Row) (w' : World),
    statement q line w = (Return rows, w')
    /\ mutated_rows w w' rows
    /\ (rows = [] -> db w' = db w)
    /\ (failed 0 w = true -> rows = [])
    /\ backend w' = backend w /\ cookie_user w' = cookie_user w
    /\ requests w' = (requests w ++ [Rest tbl_jobs q])%list.
Proof.
  intros Ht Hq. rewrite (statement_eq q line w Ht).
  destruct (send_sound q w Hq) as (Hw & Hn & He & Hf).
  assert (Hframe : backend (snd (send q w)) = backend w
                   /\ cookie_user (snd (send q w)) = cookie_user w
                   /\ requests (snd (send q w)) = (requests w ++ [Rest tbl_jobs q])%list).
  { rewrite send_eq. by destruct (mjoin (faults w !! 0%nat)). }
  destruct (error (fst (send q w))) as [e|] eqn:Herr.
  - pose proof (He (ltac:(eauto))) as Hdata. rewrite Hdata in Hw, Hn.
    do 2 eexists. split; [reflexivity|]. unfold mutated_rows in *.
    cbn [add_console db backend cookie_user requests]. rewrite (Hn eq_refl).
    split; [apply wrote_nothing|]. by split.
  - do 2 eexists. split; [reflexivity|]. split; [exact Hw|]. split; [exact Hn|].
    split; [|exact Hframe].
    intros Hfail. destruct (Hf Hfail) as [e He']. discriminate He'.
Qed.

(** ** The four mutators as statements *)

Lemma updateJob_eq (jobId : string) (u : Jobs.Update) (w : World) :
  Server.updateJob jobId u w
  = statement (update_query (SessionClient (cookie_user w)) "id" jobId u)
      "updateJob error" w.
Proof. reflexivity. Qed.

Lemma updateJobByOriginalVideoUrl_eq (originalVideoUrl : string) (u : Jobs.Update)
    (w : World) :
  Server.updateJobByOriginalVideoUrl originalVideoUrl u w
  = statement
      (update_query (SessionClient (cookie_user w)) "original_video_url"
         originalVideoUrl u)
      "updateJobByOriginalVideoUrl error" w.
Proof. reflexivity. Qed.

Lemma updateJobByTranscriptionId_eq (transcriptionId : string) (u : Jobs.Update)
    (w : World) :
  Server.updateJobByTranscriptionId transcriptionId u w
  = statement (update_query ServiceClient "transcription_id" transcriptionId u)
      "updateJobByTranscriptionId error" w.
Proof. reflexivity. Qed.

Lemma insertJob_eq (w w1 : World) (user : option Users.Row) :
  Server.getUserDetails w = (Return user, w1) ->
  Server.insertJob w
  = statement
      (insert_query (SessionClient (cookie_user w))
         {| Jobs.i_user_id := Users.id <$> user; Jobs.i_status := Some "pending" |})
      "insertJob error" w1.
Proof.
  intros H. unfold Server.insertJob, bind at 1, Server.createClient at 1.
  unfold bind at 1. rewrite H. reflexivity.
Qed.

Lemma getUserDetails_returns (w : World) :
  exists user w1,
    Server.getUserDetails w = (Return user, w1) /\ only_read w w1
    /\ faults w1 = tail (faults w) /\ (failed 0 w = true -> user = None).
Proof.
  rewrite getUserDetails_eq. cbn zeta.
  pose proof (only_read_send (user_query w) _ w eq_refl) as Hr.
  pose proof (faults_send (user_query w) w) as Hf.
  pose proof (error_send_failed (user_query w) w) as He.
  destruct (error _) eqn:Herr; do 2 eexists; (split; [reflexivity|]).
  - split; [|split; [done|done]].
    eapply only_read_trans; [exact Hr|apply only_read_console].
  - split; [done|]. split; [done|].
    intros [e Hfail]%He. rewrite Hfail in Herr. discriminate Herr.
Qed.

Lemma in_columns_jobs (column : string) :
  column = "id" \/ column = "original_video_url" \/ column = "transcription_id" ->
  In column (columns tbl_jobs).
Proof. intros [-> | [-> | ->]]; cbn; tauto. Qed.

Lemma update_contract (c : World -> Client) (column value line : string)
    (u : Jobs.Update) :
  In column (columns tbl_jobs) ->
  mutator_contract (fun w => statement (update_query (c w) column value u) line w) 0.
Proof.
  intros Hcol w.
  destruct (statement_contract (update_query (c w) column value u) line w eq_refl
              (update_sound (c w) column value u Hcol))
    as (rows & w' & H & Hw & Hn & Hf & _).
  by exists rows, w'.
Qed.

Lemma insertJob_contract : mutator_contract Server.insertJob 1.
Proof.
  intros w. destruct (getUserDetails_returns w) as (user & w1 & H1 & Hr & Hf1 & _).
  rewrite (insertJob_eq w w1 user H1).
  destruct (statement_contract
              (insert_query (SessionClient (cookie_user w))
                 {| Jobs.i_user_id := Users.id <$> user; Jobs.i_status := Some "pending" |})
              "insertJob error" w1 eq_refl (insert_sound _ _))
    as (rows & w' & H & Hw & Hn & Hf & _).
  destruct Hr as (_ & Hd & _). unfold mutated_rows in *. rewrite Hd in Hw, Hn.
  exists rows, w'. split; [exact H|]. split; [exact Hw|]. split; [exact Hn|].
  intros Hfail. apply Hf. by rewrite (failed_tail w w1 0 Hf1).
Qed.

(** An update by a transcription id that no job carries. *)
Lemma selected_transcription_id (b : Backend) (tid : string) (r : Jobs.Row) :
  selected b ServiceClient [FilterEq "transcription_id" tid] r
  = bool_decide (Jobs.transcription_id r = Some tid).
Proof.
  unfold selected, matches. cbn [visible forallb holds andb].
  change (cell tbl_jobs "transcription_id" r) with (text (Jobs.transcription_id r)).
  rewrite andb_true_r. destruct (Jobs.transcription_id r) as [t|]; cbn [text].
  - apply bool_decide_ext. rewrite compare_text_eq. naive_solver.
  - rewrite compare_null. by rewrite !bool_decide_eq_false_2.
Qed.

Lemma update_without_match (tid : string) (u : Jobs.Update) (w : World) :
  (forall r, In r (jobs_table (db w)) -> Jobs.transcription_id r <> Some tid) ->
  exists w', Server.updateJobByTranscriptionId tid u w = (Return [], w')
             /\ db w' = db w.
Proof.
  intros Hno. rewrite updateJobByTranscriptionId_eq.
  rewrite (statement_eq (update_query ServiceClient "transcription_id" tid u) _ w eq_refl),
    send_eq.
  destruct (mjoin (faults w !! 0%nat)) as [e|].
  { cbn [fst snd error failure]. by eexists. }
  rewrite (execute_update _ _ _ _ _ _ (in_columns_jobs _ (or_intror (or_intror eq_refl)))).
  cbn zeta.
  assert (Hnone : List.filter (selected (backend w) ServiceClient
                                 [FilterEq "transcription_id" tid])
                    (jobs_table (db w)) = []).
  { induction (jobs_table (db w)) as [|r l IH]; [done|]. cbn [List.filter].
    rewrite selected_transcription_id, bool_decide_eq_false_2.
    - apply IH. intros r' Hr'. apply Hno. by right.
    - apply Hno. by left. }
  assert (Hsame : List.map (updated (backend w) ServiceClient
                              [FilterEq "transcription_id" tid] u)
                    (jobs_table (db w)) = jobs_table (db w)).
  { clear Hnone. induction (jobs_table (db w)) as [|r l IH]; [done|]. cbn [List.map].
    unfold updated at 1. rewrite selected_transcription_id, bool_decide_eq_false_2.
    - f_equal. apply IH. intros r' Hr'. apply Hno. by right.
    - apply Hno. by left. }
  rewrite Hnone, Hsame, with_jobs_same. cbn [List.map forallb].
  destruct (negb _); cbn [fst snd error failure success data default]; eexists;
    (split; [reflexivity|]); by destruct w.
Qed.

(** ** The rows the mutators return *)

Lemma update_statement_outcome (c : World -> Client) (column value line : string)
    (u : Jobs.Update) :
  In column (columns tbl_jobs) ->
  update_outcome (fun w => statement (update_query (c w) column value u) line w)
    c column value u.
Proof.
  intros Hcol w. cbv beta.
  rewrite (statement_eq (update_query (c w) column value u) line w eq_refl), send_eq.
  destruct (failed 0 w) eqn:Hf; cbn [negb andb].
  { apply failed_true in Hf as [e ->]. cbn [fst snd error failure]. by eexists. }
  apply failed_false in Hf as ->.
  rewrite (execute_update _ _ _ _ _ _ Hcol). cbn zeta.
  unfold accepts_update, rewritten.
  destruct (bool_decide (Jobs.u_unknown u = [])); cbn [negb andb].
  - destruct (forallb _ _); cbn [fst snd error success failure data default].
    + eexists. split; [reflexivity|]. cbn [set_db db with_jobs jobs_table].
      split; [reflexivity|]. by repeat split.
    + by eexists.
  - cbn [fst snd error failure]. by eexists.
Qed.

Lemma insertJob_outcome : insert_outcome Server.insertJob.
Proof.
  intros w.
  destruct (getUserDetails_returns w) as (user & w1 & H1 & (Hb & Hd & Hc & _) & Hf1 & _).
  exists user, w1. rewrite (insertJob_eq w w1 user H1).
  rewrite (statement_eq
             (insert_query (SessionClient (cookie_user w))
                {| Jobs.i_user_id := Users.id <$> user; Jobs.i_status := Some "pending" |})
             "insertJob error" w1 eq_refl), send_eq.
  rewrite <- (failed_tail w w1 0 Hf1).
  destruct (failed 0 w1) eqn:Hf.
  { apply failed_true in Hf as [e ->]. cbn [fst snd error failure].
    eexists. split; [exact H1|]. split; [reflexivity|]. exact Hd. }
  apply failed_false in Hf as ->. rewrite execute_insert, Hb, Hd.
  destruct (new_job _ _ _ _) as [r|]; cbn [fst snd error success failure data default].
  - eexists. split; [exact H1|]. split; [reflexivity|].
    cbn [set_db db with_jobs jobs_table]. split; [reflexivity|]. by repeat split.
  - eexists. split; [exact H1|]. split; reflexivity.
Qed.

(** C6. Every job mutator ([insertJob], [updateJob],
    [updateJobByOriginalVideoUrl], [updateJobByTranscriptionId]) returns,
    never throws, and returns the rows it has mutated.  An update whose
    round trip is delivered and which the store accepts returns exactly the
    rows it selected with the fields applied, and these rows replace the old
    ones in the table; [insertJob] returns exactly the row the store made of
    its payload, put at the end of the table (see [update_outcome] and
    [insert_outcome]).  In every other case, a failed round trip among them,
    the mutator returns the empty list and the tables are unchanged.  In
    particular [updateJobByTranscriptionId] with a transcription id that no
    job carries returns the empty list, without an exception, and changes
    nothing. *)
Theorem job_mutators_return_written_rows :
  insert_outcome Server.insertJob
  /\ (forall jobId u,
        update_outcome (Server.updateJob jobId u)
          (fun w => SessionClient (cookie_user w)) "id" jobId u)
  /\ (forall originalVideoUrl u,
        update_outcome (Server.updateJobByOriginalVideoUrl originalVideoUrl u)
          (fun w => SessionClient (cookie_user w)) "original_video_url"
          originalVideoUrl u)
  /\ (forall transcriptionId u,
        update_outcome (Server.updateJobByTranscriptionId transcriptionId u)
          (fun _ => ServiceClient) "transcription_id" transcriptionId u)
  /\ mutator_contract Server.insertJob 1
  /\ (forall jobId u, mutator_contract (Server.updateJob jobId u) 0)
  /\ (forall originalVideoUrl u,
        mutator_contract (Server.updateJobByOriginalVideoUrl originalVideoUrl u) 0)
  /\ (forall transcriptionId u,
        mutator_contract (Server.updateJobByTranscriptionId transcriptionId u) 0)
  /\ (forall transcriptionId u w,
        (forall r, In r (jobs_table (db w)) ->
                   Jobs.transcription_id r <> Some transcriptionId) ->
        exists w',
          Server.updateJobByTranscriptionId transcriptionId u w = (Return [], w')
          /\ db w' = db w).
Proof.
  split; [exact insertJob_outcome|].
  split; [intros jobId u|split; [intros url u|split; [intros tid u|]]].
  - exact (update_statement_outcome (fun w => SessionClient (cookie_user w)) "id" jobId
             "updateJob error" u (in_columns_jobs _ (or_introl eq_refl))).
  - exact (update_statement_outcome (fun w => SessionClient (cookie_user w))
             "original_video_url" url "updateJobByOriginalVideoUrl error" u
             (in_columns_jobs _ (or_intror (or_introl eq_refl)))).
  - exact (update_statement_outcome (fun _ => ServiceClient) "transcription_id" tid
             "updateJobByTranscriptionId error" u
             (in_columns_jobs _ (or_intror (or_intror eq_refl)))).
  - split; [exact insertJob_contract|].
    split; [intros jobId u|split; [intros url u|split; [intros tid u|]]].
    + exact (update_contract (fun w => SessionClient (cookie_user w)) "id" jobId
               "updateJob error" u (in_columns_jobs _ (or_introl eq_refl))).
    + exact (update_contract (fun w => SessionClient (cookie_user w))
               "original_video_url" url "updateJobByOriginalVideoUrl error" u
               (in_columns_jobs _ (or_intror (or_introl eq_refl)))).
    + exact (update_contract (fun _ => ServiceClient) "transcription_id" tid
               "updateJobByTranscriptionId error" u
               (in_columns_jobs _ (or_intror (or_intror eq_refl)))).
    + exact update_without_match.
Qed.

(** An update that reaches a row returns it as it is afterwards. *)
Example updateJob_returns_the_row :
  fst (Server.updateJob "a"
         {| Jobs.u_id := None; Jobs.u_user_id := None;
            Jobs.u_status := Some (Some "done");
            Jobs.u_created_at := None; Jobs.u_credits := Some (Some (Q2Qc 40));
            Jobs.u_is_deleted := None; Jobs.u_original_video_url := None;
            Jobs.u_transcription_id := None; Jobs.u_unknown := [] |}
         (Demo.world
            (Demo.tables [] (Demo.metadata (JStr "500"))
               [Demo.job "a" "u1" "2024-01-05T00:00:00Z" (Some 100%Z);
                Demo.job "b" "u1" "2024-01-06T00:00:00Z" (Some 7%Z)])
            []))
  = Return [Demo.job "a" "u1" "2024-01-05T00:00:00Z" (Some 40%Z)].
Proof. reflexivity. Qed.

(** An insert returns the row the store has made. *)
Example insertJob_returns_the_row :
  fst (Server.insertJob
         (Demo.world
            (Demo.tables [] (Demo.metadata (JStr "500"))
               [Demo.job "a" "u1" "2024-01-05T00:00:00Z" (Some 100%Z)])
            []))
  = Return [ {| Jobs.id := "job-new"; Jobs.user_id := Some "u1";
                Jobs.status := Some "pending";
                Jobs.created_at := "2024-03-01T00:00:00Z";
                Jobs.credits := None; Jobs.is_deleted := Some false;
                Jobs.original_video_url := None; Jobs.transcription_id := None |} ].
Proof. reflexivity. Qed.

(** Scenario 3: an update by a transcription id that matches no row
    returns the empty list, logs nothing and changes nothing. *)
Example scenario_3 :
  (fun out => (fst out, jobs_table (db (snd out)), console (snd out)))
    (Server.updateJobByTranscriptionId "tr-unknown"
       {| Jobs.u_id := None; Jobs.u_user_id := None; Jobs.u_status := Some (Some "done");
          Jobs.u_created_at := None; Jobs.u_credits := None;
          Jobs.u_is_deleted := None; Jobs.u_original_video_url := None;
          Jobs.u_transcription_id := None; Jobs.u_unknown := [] |}
       (Demo.world
          (Demo.tables [] JNull [Demo.job "a" "u1" "2024-01-05T00:00:00Z" None])
          []))
  = (Return [], [Demo.job "a" "u1" "2024-01-05T00:00:00Z" None], []).
Proof. reflexivity. Qed.

(** A failed round trip: the empty list, and a line on the console. *)
Example updateJob_offline :
  (fun out => (fst out, jobs_table (db (snd out)), console (snd out)))
    (Server.updateJob "a"
       {| Jobs.u_id := None; Jobs.u_user_id := None; Jobs.u_status := Some (Some "done");
          Jobs.u_created_at := None; Jobs.u_credits := None;
          Jobs.u_is_deleted := None; Jobs.u_original_video_url := None;
          Jobs.u_transcription_id := None; Jobs.u_unknown := [] |}
       (Demo.world
          (Demo.tables [] JNull [Demo.job "a" "u1" "2024-01-05T00:00:00Z" None])
          [Some (FetchError "fetch failed")]))
  = (Return [], [Demo.job "a" "u1" "2024-01-05T00:00:00Z" None], ["updateJob error"]).
Proof. reflexivity. Qed.

(** ** Updating twice *)

Lemma set_idempotent (u : Jobs.Update) (r : Jobs.Row) :
  Jobs.set u (Jobs.set u r) = Jobs.set u r.
Proof.
  destruct u as [i us st ca cr de ov tr un]. unfold Jobs.set.
  cbn [Jobs.id Jobs.user_id Jobs.status Jobs.created_at Jobs.credits Jobs.is_deleted
       Jobs.original_video_url Jobs.transcription_id Jobs.u_id Jobs.u_user_id
       Jobs.u_status Jobs.u_created_at Jobs.u_credits Jobs.u_is_deleted
       Jobs.u_original_video_url Jobs.u_transcription_id].
  f_equal; by destruct i, us, st, ca, cr, de, ov, tr.
Qed.

Lemma updated_idempotent (b : Backend) (c : Client) (fs : list Filter)
    (u : Jobs.Update) (r : Jobs.Row) :
  updated b c fs u (updated b c fs u r) = updated b c fs u r.
Proof.
  unfold updated. destruct (selected b c fs r) eqn:Hhit.
  - destruct (selected b c fs (Jobs.set u r)); [apply set_idempotent|reflexivity].
  - by rewrite Hhit.
Qed.

(** An update statement leaves the tables as they are or maps [updated]
    over the jobs. *)
Lemma execute_update_db (b : Backend) (d : Db) (c : Client)
    (column value : string) (u : Jobs.Update) :
  In column (columns tbl_jobs) ->
  snd (execute b d tbl_jobs (update_query c column value u)) = d
  \/ snd (execute b d tbl_jobs (update_query c column value u))
     = with_jobs (List.map (updated b c [FilterEq column value] u) (jobs_table d)) d.
Proof.
  intros Hcol. rewrite (execute_update _ _ _ _ _ _ Hcol). cbn zeta.
  destruct (negb _); [by left|]. destruct (forallb _ _); [by right|by left].
Qed.

(** The tables after an update statement was executed twice are the tables
    after it was executed once. *)
Lemma execute_update_idempotent (b : Backend) (d : Db) (c : Client)
    (column value : string) (u : Jobs.Update) :
  In column (columns tbl_jobs) ->
  snd (execute b (snd (execute b d tbl_jobs (update_query c column value u)))
         tbl_jobs (update_query c column value u))
  = snd (execute b d tbl_jobs (update_query c column value u)).
Proof.
  intros Hcol.
  destruct (execute_update_db b d c column value u Hcol) as [H1|H1].
  - rewrite H1. exact H1.
  - rewrite H1.
    destruct (execute_update_db b
                (with_jobs (List.map (updated b c [FilterEq column value] u) (jobs_table d)) d)
                c column value u Hcol) as [H2|H2]; rewrite H2; [reflexivity|].
    unfold with_jobs. cbn [jobs_table users_table products_table prices_table
                           subscriptions_table].
    f_equal. rewrite map_map. apply map_ext. intros r. apply updated_idempotent.
Qed.

(** C7. [updateJob] is idempotent: when the first call reaches the store,
    calling it a second time with the same id and the same field map leaves
    the tables as the first call left them, whatever the outcome of the
    second round trip. *)
Theorem updateJob_idempotent (jobId : string) (u : Jobs.Update) (w : World) :
  failed 0 w = false ->
  db (snd (Server.updateJob jobId u (snd (Server.updateJob jobId u w))))
  = db (snd (Server.updateJob jobId u w)).
Proof.
  intros Hok%failed_false.
  set (q := update_query (SessionClient (cookie_user w)) "id" jobId u).
  assert (Hcol : In "id" (columns tbl_jobs)) by (apply in_columns_jobs; by left).
  assert (Hone : exists w1, Server.updateJob jobId u w = (fst (Server.updateJob jobId u w), w1)
                            /\ cookie_user w1 = cookie_user w
                            /\ backend w1 = backend w
                            /\ db w1 = snd (execute (backend w) (db w) tbl_jobs q)).
  { rewrite updateJob_eq. fold q. rewrite (statement_eq q _ w eq_refl), send_eq, Hok.
    cbn [fst snd]. destruct (error _); by eexists. }
  destruct Hone as (w1 & H1 & Hc & Hb & Hd). rewrite H1. cbn [snd].
  rewrite updateJob_eq, Hc. fold q. rewrite (statement_eq q _ w1 eq_refl), send_eq.
  destruct (mjoin (faults w1 !! 0%nat)) as [e|].
  - reflexivity.
  - cbn [fst snd]. rewrite Hb, Hd.
    pose proof (execute_update_idempotent (backend w) (db w) _ _ _ _ Hcol
                  : snd (execute _ _ tbl_jobs q) = snd (execute _ _ tbl_jobs q)) as Hidem.
    fold q in Hidem. destruct (error _); cbn [snd add_console set_db db]; exact Hidem.
Qed.

(** A job of 100 credits set to 40 credits, twice. *)
Lemma updateJob_idempotent_witness :
  db (snd (Server.updateJob "a"
             {| Jobs.u_id := None; Jobs.u_user_id := None; Jobs.u_status := Some (Some "done");
                Jobs.u_created_at := None; Jobs.u_credits := Some (Some (Q2Qc 40));
                Jobs.u_is_deleted := None; Jobs.u_original_video_url := None;
                Jobs.u_transcription_id := None; Jobs.u_unknown := [] |}
             (snd (Server.updateJob "a"
                     {| Jobs.u_id := None; Jobs.u_user_id := None;
                        Jobs.u_status := Some (Some "done");
                        Jobs.u_created_at := None; Jobs.u_credits := Some (Some (Q2Qc 40));
                        Jobs.u_is_deleted := None; Jobs.u_original_video_url := None;
                        Jobs.u_transcription_id := None; Jobs.u_unknown := [] |}
                     (Demo.world
                        (Demo.tables [] (Demo.metadata (JStr "500"))
                           [Demo.job "a" "u1" "2024-01-05T00:00:00Z" (Some 100%Z)])
                        [])))))
  = db (snd (Server.updateJob "a"
               {| Jobs.u_id := None; Jobs.u_user_id := None; Jobs.u_status := Some (Some "done");
                  Jobs.u_created_at := None; Jobs.u_credits := Some (Some (Q2Qc 40));
                  Jobs.u_is_deleted := None; Jobs.u_original_video_url := None;
                  Jobs.u_transcription_id := None; Jobs.u_unknown := [] |}
               (Demo.world
                  (Demo.tables [] (Demo.metadata (JStr "500"))
                     [Demo.job "a" "u1" "2024-01-05T00:00:00Z" (Some 100%Z)])
                  []))).
Proof. apply updateJob_idempotent. reflexivity. Defined.

(** The update of the witness does change the table. *)
Example updateJob_changes_the_row :
  jobs_table
    (db (snd (Server.updateJob "a"
                {| Jobs.u_id := None; Jobs.u_user_id := None;
                   Jobs.u_status := Some (Some "done");
                   Jobs.u_created_at := None; Jobs.u_credits := Some (Some (Q2Qc 40));
                   Jobs.u_is_deleted := None; Jobs.u_original_video_url := None;
                   Jobs.u_transcription_id := None; Jobs.u_unknown := [] |}
                (Demo.world
                   (Demo.tables [] (Demo.metadata (JStr "500"))
                      [Demo.job "a" "u1" "2024-01-05T00:00:00Z" (Some 100%Z)])
                   []))))
  = [ {| Jobs.id := "a"; Jobs.user_id := Some "u1"; Jobs.status := Some "done";
         Jobs.created_at := "2024-01-05T00:00:00Z"; Jobs.credits := Some (Q2Qc 40);
         Jobs.is_deleted := Some false;
         Jobs.original_video_url := Some "https://video/a";
         Jobs.transcription_id := Some "tr-a" |} ].
Proof. reflexivity. Qed.

(** When the first round trip fails, the first call changes nothing and the
    second call alone decides the tables. *)
Lemma updateJob_after_failure (jobId : string) (u : Jobs.Update) (w : World) :
  failed 0 w = true ->
  db (snd (Server.updateJob jobId u w)) = db w
  /\ db (snd (Server.updateJob jobId u (snd (Server.updateJob jobId u w))))
     = db (snd (Server.updateJob jobId u (set_faults (tail (faults w)) w))).
Proof.
  intros [e He]%failed_true.
  set (q := update_query (SessionClient (cookie_user w)) "id" jobId u).
  assert (H1 : Server.updateJob jobId u w
               = (Return [], add_console "updateJob error" (sent q w))).
  { rewrite updateJob_eq. fold q. by rewrite (statement_eq q _ w eq_refl), send_eq, He. }
  rewrite H1. cbn [snd]. split; [reflexivity|].
  rewrite !updateJob_eq.
  change (cookie_user (add_console "updateJob error" (sent q w))) with (cookie_user w).
  change (cookie_user (set_faults (tail (faults w)) w)) with (cookie_user w).
  fold q. rewrite !(statement_eq q _ _ eq_refl), !send_eq.
  change (faults (add_console "updateJob error" (sent q w))) with (tail (faults w)).
  change (faults (set_faults (tail (faults w)) w)) with (tail (faults w)).
  destruct (mjoin (tail (faults w) !! 0%nat)); cbn [fst snd error failure].
  - reflexivity.
  - change (backend (add_console "updateJob error" (sent q w))) with (backend w).
    change (db (add_console "updateJob error" (sent q w))) with (db w).
    change (backend (set_faults (tail (faults w)) w)) with (backend w).
    change (db (set_faults (tail (faults w)) w)) with (db w).
    by destruct (error _).
Qed.

(** ** Inserting without a user *)



(** In that world the insert is no no-op: the job is stored, without a
    user. *)
Example insertJob_without_user_stores_a_job :
  (fun out => (fst out, jobs_table (db (snd out))))
    (Server.insertJob
       (Demo.world_of Demo.lenient (Demo.tables [] (Demo.metadata (JStr "500")) [])
          [Some (FetchError "fetch failed")]))
  = (Return [ {| Jobs.id := "job-new"; Jobs.user_id := None;
                 Jobs.status := Some "pending";
                 Jobs.created_at := "2024-03-01T00:00:00Z";
                 Jobs.credits := None; Jobs.is_deleted := Some false;
                 Jobs.original_video_url := None; Jobs.transcription_id := None |} ],
     [ {| Jobs.id := "job-new"; Jobs.user_id := None;
          Jobs.status := Some "pending";
          Jobs.created_at := "2024-03-01T00:00:00Z";
          Jobs.credits := None; Jobs.is_deleted := Some false;
          Jobs.original_video_url := None; Jobs.transcription_id := None |} ]).
Proof. reflexivity. Qed.

(** The second copy of the module does the same, without [throwOnError]. *)
Lemma unchecked_insertJob_inserts_without_user (w w1 : World) :
  ServerUnchecked.getUserDetails w = (Return None, w1) ->
  exists (rows : list Jobs.Row) (w' : World),
    ServerUnchecked.insertJob w = (Return rows, w')
    /\ requests w'
       = (requests w1
          ++ [Rest tbl_jobs
                (from (SessionClient (cookie_user w)) tbl_jobs
                   .> insert [ {| Jobs.i_user_id := None; Jobs.i_status := Some "pending" |} ]
                   .> select (Star []))])%list.
Proof.
  intros H1. unfold ServerUnchecked.insertJob, bind at 1, ServerUnchecked.createClient at 1.
  unfold bind at 1. rewrite H1. cbn [fmap option_fmap option_map].
  unfold bind, await, settle, ret, console_error.
  match goal with |- context [send ?q w1] => set (q0 := q) end.
  assert (Hreq : requests (snd (send q0 w1)) = (requests w1 ++ [Rest tbl_jobs q0])%list).
  { rewrite send_eq. by destruct (mjoin (faults w1 !! 0%nat)). }
  destruct (send q0 w1) as [r w2]. cbn [snd] in Hreq.
  change (q_throw q0) with false. cbv iota.
  destruct (error r) eqn:He; rewrite ?He; do 2 eexists;
    (split; [reflexivity|exact Hreq]).
Qed.

(** * The OAuth callback *)

(** C9. For every inbound request the callback answers with a redirect to
    [/subscription] on the origin of the request, the same answer whatever
    happens before it.  Without a [code] parameter nothing is sent at all;
    with one, the exchange is sent once, its result is dropped, and a failed
    exchange changes nothing in the answer. *)
Theorem callback_always_redirects (request : NextRequest) (w : World) :
  exists w' : World,
    Route.GET request w
    = (Return (redirect (origin (url request) ++ "/subscription")), w')
    /\ (searchParams_get "code" (url request) = None -> w' = w)
    /\ (forall code,
          searchParams_get "code" (url request) = Some code -> code <> "" ->
          requests w' = (requests w ++ [ExchangeCodeForSession code])%list)
    /\ db w' = db w.
Proof.
  unfold Route.GET. run.
  destruct (searchParams_get "code" (url request)) as [code|].
  - case_bool_decide as Hcode; cbn [negb].
    + eexists. split; [reflexivity|]. split; [done|]. split; [|done].
      intros ? [= <-] Hne. by destruct Hne.
    + unfold exchangeCodeForSession. rewrite next_fault_eq.
      destruct (mjoin _) as [e|]; [|destruct (redeem _ _)];
        (eexists; split; [reflexivity|]; split; [done|]; split; [|done];
         by intros ? [= <-] _).
  - eexists. split; [reflexivity|]. split; [done|]. split; [|done]. by intros.
Qed.

(** Scenario 4, and a failed exchange: the answers are the same. *)
Example callback_without_code :
  Route.GET
    {| url := {| origin := "https://app.example"; pathname := "/auth/callback";
                 searchParams := [] |} |}
    (Demo.world (Demo.tables [] JNull []) [])
  = (Return {| status := 307; location := "https://app.example/subscription" |},
     Demo.world (Demo.tables [] JNull []) []).
Proof. reflexivity. Qed.

Example callback_with_rejected_code :
  fst (Route.GET
         {| url := {| origin := "https://app.example"; pathname := "/auth/callback";
                      searchParams := [("code", "bad")] |} |}
         (Demo.world (Demo.tables [] JNull []) []))
  = Return {| status := 307; location := "https://app.example/subscription" |}.
Proof. reflexivity. Qed.

(** * Further properties *)

(** ** The in-period query *)

Lemma matches_period (b : Backend) (userId startDate endDate : string) (r : Jobs.Row) :
  matches b tbl_jobs
    [FilterEq "user_id" userId; FilterGte "created_at" startDate;
     FilterLte "created_at" endDate] r
  = bool_decide (Jobs.user_id r = Some userId) && in_period b startDate endDate r.
Proof.
  unfold matches, in_period. cbn [forallb holds].
  change (cell tbl_jobs "user_id" r) with (text (Jobs.user_id r)).
  change (cell tbl_jobs "created_at" r) with (CTime (Jobs.created_at r)).
  cbn [compare_literal]. rewrite andb_true_r. f_equal; [|f_equal].
  - destruct (Jobs.user_id r) as [u|]; cbn [text].
    + apply bool_decide_ext. rewrite compare_text_eq. naive_solver.
    + rewrite compare_null. by rewrite !bool_decide_eq_false_2.
  - destruct (ts_compare b (Jobs.created_at r) startDate); reflexivity.
  - destruct (ts_compare b (Jobs.created_at r) endDate); reflexivity.
Qed.

Lemma execute_period (userId startDate endDate : string) (w : World) :
  execute (backend w) (db w) tbl_jobs (period_query userId startDate endDate w)
  = (success (Some (ordered (backend w) tbl_jobs []
                      (period_jobs w userId startDate endDate))), db w).
Proof.
  change (execute (backend w) (db w) tbl_jobs (period_query userId startDate endDate w))
    with (success (Some (ordered (backend w) tbl_jobs []
                           (List.filter
                              (matches (backend w) tbl_jobs
                                 [FilterEq "user_id" userId;
                                  FilterGte "created_at" startDate;
                                  FilterLte "created_at" endDate])
                              (visible_jobs w)))), db w).
  do 4 f_equal. apply filter_ext. intros r. apply matches_period.
Qed.

Lemma period_jobs_spec (w : World) (userId startDate endDate : string) (r : Jobs.Row) :
  In r (period_jobs w userId startDate endDate) ->
  Jobs.user_id r = Some userId
  /\ ts_compare (backend w) (Jobs.created_at r) startDate <> Lt
  /\ ts_compare (backend w) (Jobs.created_at r) endDate <> Gt.
Proof.
  intros (_ & (Hu & Hp)%andb_prop)%filter_In. unfold in_period in Hp.
  apply andb_prop in Hp as [Hs He]. apply bool_decide_eq_true in Hu.
  apply negb_true_iff, bool_decide_eq_false in Hs, He. done.
Qed.

Lemma getJobsBetweenDates_delivered (userId startDate endDate : string) (w : World) :
  failed 0 w = false ->
  exists js w',
    Server.getJobsBetweenDates userId startDate endDate w = (Return (Some js), w')
    /\ js ≡ₚ period_jobs w userId startDate endDate.
Proof.
  intros Hf%failed_false. rewrite getJobsBetweenDates_eq. cbn zeta.
  rewrite send_eq, Hf, execute_period. cbn [fst snd error success data].
  do 2 eexists. split; [reflexivity|].
  exact (ordered_Permutation (backend w) tbl_jobs _ _).
Qed.

Lemma period_jobs_only_read (w w' : World) (userId startDate endDate : string) :
  only_read w w' ->
  period_jobs w' userId startDate endDate = period_jobs w userId startDate endDate.
Proof.
  intros Hr. unfold period_jobs. rewrite (visible_jobs_only_read w w' Hr).
  destruct Hr as (Hb & _). by rewrite Hb.
Qed.

(** X1. [getJobsBetweenDates] returns [null] when its round trip fails, and
    otherwise the jobs the session may see whose [user_id] is the given user
    and whose [created_at] lies between the two dates, both included, in
    some order.  A job without a user is never among them. *)
Theorem getJobsBetweenDates_selects_the_period
    (userId startDate endDate : string) (w : World) :
  exists (found : option (list Jobs.Row)) (w' : World),
    Server.getJobsBetweenDates userId startDate endDate w = (Return found, w')
    /\ (if failed 0 w then found = None
        else exists js, found = Some js
                        /\ js ≡ₚ period_jobs w userId startDate endDate)
    /\ forall r, In r (period_jobs w userId startDate endDate) ->
                 Jobs.user_id r = Some userId
                 /\ ts_compare (backend w) (Jobs.created_at r) startDate <> Lt
                 /\ ts_compare (backend w) (Jobs.created_at r) endDate <> Gt.
Proof.
  destruct (failed 0 w) eqn:Hf.
  - destruct (getJobsBetweenDates_returns userId startDate endDate w)
      as (found & w' & H & _ & _ & Hnone).
    exists found, w'. split; [exact H|]. split; [by apply Hnone|].
    apply period_jobs_spec.
  - destruct (getJobsBetweenDates_delivered userId startDate endDate w Hf)
      as (js & w' & H & Hperm).
    exists (Some js), w'. split; [exact H|]. split; [by exists js|].
    apply period_jobs_spec.
Qed.

(** X2. On the subscribed path, when the in-period query is answered, the
    credits spent are those of the jobs of the subscription's user that the
    session may see and that were created within the billing period, the
    first and the last instant of the period included; [remaining] is the
    allotment minus their sum and [outOf] the allotment. *)
Theorem subscribed_balance_counts_period_jobs (w w1 : World)
    (sub : SubscriptionWithPrice) :
  Server.getSubscription w = (Return (Some sub), w1) ->
  failed 1 w = false ->
  fst (Server.getCreditBalance w)
  = Return
      {| remaining :=
           num_sub (allotment sub)
             (Fin (total_credits
                     (period_jobs w (Subscriptions.user_id (row sub))
                        (Subscriptions.current_period_start (row sub))
                        (Subscriptions.current_period_end (row sub)))));
         outOf := allotment sub |}.
Proof.
  intros H1 Hf.
  destruct (getSubscription_returns w) as (s & w1' & H1' & Hread & Hfaults & _).
  rewrite H1 in H1'. injection H1' as <- <-.
  rewrite <- (failed_tail w w1 0 Hfaults) in Hf.
  destruct (getJobsBetweenDates_delivered
              (Subscriptions.user_id (row sub))
              (Subscriptions.current_period_start (row sub))
              (Subscriptions.current_period_end (row sub)) w1 Hf)
    as (js & w2 & H2 & Hperm).
  rewrite (getCreditBalance_subscribed w w1 w2 sub (Some js) H1 H2).
  cbn [fst]. change (default [] (Some js)) with js.
  rewrite (total_credits_Permutation _ _ Hperm).
  by rewrite (period_jobs_only_read w w1 _ _ _ Hread).
Qed.

(** A job created at the last instant of the period counts, one created
    after it does not: 100 + 50 of 500 are spent. *)
Lemma subscribed_balance_counts_period_jobs_witness :
  fst (Server.getCreditBalance
         (Demo.world
            (Demo.tables [Demo.subscription "trialing"] (Demo.metadata (JStr "500"))
               [Demo.job "a" "u1" "2024-01-05T00:00:00Z" (Some 100%Z);
                Demo.job "b" "u1" "2024-02-01T00:00:00Z" (Some 50%Z);
                Demo.job "c" "u1" "2024-02-01T00:00:01Z" (Some 70%Z);
                Demo.job "d" "u1" "2023-12-31T23:59:59Z" (Some 30%Z)])
            []))
  = Return {| remaining := int 350; outOf := int 500 |}.
Proof.
  pose proof (fun w1 sub H1 =>
                subscribed_balance_counts_period_jobs
                  (Demo.world
                     (Demo.tables [Demo.subscription "trialing"]
                        (Demo.metadata (JStr "500"))
                        [Demo.job "a" "u1" "2024-01-05T00:00:00Z" (Some 100%Z);
                         Demo.job "b" "u1" "2024-02-01T00:00:00Z" (Some 50%Z);
                         Demo.job "c" "u1" "2024-02-01T00:00:01Z" (Some 70%Z);
                         Demo.job "d" "u1" "2023-12-31T23:59:59Z" (Some 30%Z)])
                     [])
                  w1 sub H1 eq_refl) as H.
  erewrite H; cycle 1; [reflexivity|reflexivity].
Defined.

(** ** The listing, newest first *)

Lemma Sorted_weaken {A} (R R' : A -> A -> Prop) (l : list A) :
  (forall x y, R x y -> R' x y) -> Sorted R l -> Sorted R' l.
Proof.
  intros HR. induction 1 as [|x l _ IH Hhd]; constructor; [exact IH|].
  destruct Hhd; constructor. by apply HR.
Qed.

Lemma order_created_at_desc (b : Backend) (x y : Jobs.Row) :
  order_compare b tbl_jobs [("created_at", false)] x y <> Gt <-> not_older b x y.
Proof.
  unfold not_older. cbn [order_compare].
  change (cell tbl_jobs "created_at" x) with (CTime (Jobs.created_at x)).
  change (cell tbl_jobs "created_at" y) with (CTime (Jobs.created_at y)).
  cbn [cell_compare].
  destruct (ts_compare b (Jobs.created_at x) (Jobs.created_at y)); cbn; split; congruence.
Qed.

(** X3. The rows [getJobs] lists are ordered newest first: each job is not
    older than the one after it, provided the order of timestamps of the
    deployment never puts two timestamps each before the other. *)
Theorem getJobs_lists_newest_first (w w' : World) (listing : JobsResult.t)
    (js : list Jobs.Row) :
  (forall x y, ts_compare (backend w) x y = Lt -> ts_compare (backend w) y x <> Lt) ->
  Server.getJobs w = (Return listing, w') ->
  JobsResult.data listing = Some js ->
  Sorted (not_older (backend w)) js.
Proof.
  intros Hasym. rewrite getJobs_eq. cbn zeta. rewrite send_eq.
  destruct (mjoin (faults w !! 0%nat)) as [e|]; cbn [fst snd failure error].
  { by intros [= <- _]. }
  rewrite execute_listing. cbn [fst snd success error data].
  intros [= <- _] [= <-].
  assert (Total (fun x y : RowOf tbl_jobs =>
                   order_compare (backend w) tbl_jobs [("created_at", false)] x y <> Gt))
    as Htotal.
  { intros x y.
    destruct (ts_compare (backend w) (Jobs.created_at x) (Jobs.created_at y)) eqn:Hxy.
    - left. apply order_created_at_desc. unfold not_older. by rewrite Hxy.
    - right. apply order_created_at_desc. by apply Hasym.
    - left. apply order_created_at_desc. unfold not_older. by rewrite Hxy. }
  apply (Sorted_weaken
           (fun x y => order_compare (backend w) tbl_jobs [("created_at", false)] x y <> Gt)).
  { intros x y. apply order_created_at_desc. }
  unfold ordered. apply (Sorted_merge_sort _).
Qed.

Lemma getJobs_lists_newest_first_witness :
  Sorted (not_older Demo.deployment)
    [Demo.job "c" "u1" "2024-02-15T00:00:00Z" (Some 500%Z);
     Demo.job "b" "u1" "2024-01-15T00:00:00Z" (Some 2000%Z);
     Demo.job "a" "u1" "2024-01-05T00:00:00Z" (Some 1000%Z)].
Proof.
  eapply (getJobs_lists_newest_first
            (Demo.world
               (Demo.tables [] JNull
                  [Demo.job "a" "u1" "2024-01-05T00:00:00Z" (Some 1000%Z);
                   Demo.job "c" "u1" "2024-02-15T00:00:00Z" (Some 500%Z);
                   Demo.job "b" "u1" "2024-01-15T00:00:00Z" (Some 2000%Z)])
               [])).
  - intros x y Hxy. cbn in *. rewrite String.compare_antisym, Hxy. discriminate.
  - reflexivity.
  - reflexivity.
Defined.

(** ** The single-row lookups *)

Lemma ordered_nil (b : Backend) (t : Table) (keys : list (string * bool)) :
  ordered b t keys [] = [].
Proof. reflexivity. Qed.

Lemma ordered_singleton (b : Backend) (t : Table) (keys : list (string * bool))
    (x : RowOf t) :
  ordered b t keys [x] = [x].
Proof. reflexivity. Qed.

Lemma ordered_length (b : Backend) (t : Table) (keys : list (string * bool))
    (rows : list (RowOf t)) :
  length (ordered b t keys rows) = length rows.
Proof. apply Permutation_length, ordered_Permutation. Qed.

(** The answer of [maybeSingle] to the rows a select found. *)
Lemma at_most_one_ordered (b : Backend) (t : Table) (keys : list (string * bool))
    (rows : list (RowOf t)) :
  at_most_one_row (success (Some (ordered b t keys rows)))
  = match rows with
    | [] => success None
    | [x] => success (Some x)
    | _ => failure (PostgrestError "PGRST116")
    end.
Proof.
  destruct rows as [|x [|y rows]]; [reflexivity|reflexivity|].
  pose proof (ordered_length b t keys (x :: y :: rows)) as Hlen.
  destruct (ordered b t keys (x :: y :: rows)) as [|x' [|y' rows']];
    [discriminate Hlen|discriminate Hlen|reflexivity].
Qed.

(** The answer of [single] to the rows a select found. *)
Lemma one_ordered (b : Backend) (t : Table) (keys : list (string * bool))
    (rows : list (RowOf t)) :
  one_row (success (Some (ordered b t keys rows)))
  = match rows with
    | [x] => success (Some x)
    | _ => failure (PostgrestError "PGRST116")
    end.
Proof.
  destruct rows as [|x [|y rows]]; [reflexivity|reflexivity|].
  pose proof (ordered_length b t keys (x :: y :: rows)) as Hlen.
  destruct (ordered b t keys (x :: y :: rows)) as [|x' [|y' rows']];
    [discriminate Hlen|discriminate Hlen|reflexivity].
Qed.

Lemma filter_map_comm {A B} (f : A -> B) (p : B -> bool) (l : list A) :
  List.filter p (List.map f l) = List.map f (List.filter (fun x => p (f x)) l).
Proof.
  induction l as [|x l IH]; cbn [List.map List.filter]; [done|].
  destruct (p (f x)); cbn [List.map]; by rewrite IH.
Qed.

(** What [getSubscription] answers when its round trip is delivered. *)
Lemma getSubscription_delivered (w : World) :
  failed 0 w = false ->
  exists w1,
    Server.getSubscription w
    = (Return match active_subscriptions w with
              | [s] => Some (joined w s)
              | _ => None
              end, w1)
    /\ only_read w w1 /\ faults w1 = tail (faults w).
Proof.
  intros Hf%failed_false. rewrite getSubscription_eq. cbn zeta.
  pose proof (only_read_send (subscription_query w) _ w eq_refl) as Hr.
  pose proof (faults_send (subscription_query w) w) as Hfs.
  revert Hr Hfs. rewrite send_eq, Hf, execute_subscription. cbn [fst snd scan].
  rewrite (filter_map_comm _ (fun r => active_like (row r))). cbn [row].
  change (List.filter (fun x => active_like x) _) with (active_subscriptions w).
  rewrite at_most_one_ordered.
  intros Hr Hfs.
  destruct (active_subscriptions w) as [|s [|s' l]]; cbn [List.map error data success failure].
  - eexists. split; [reflexivity|]. by split.
  - eexists. split; [reflexivity|]. by split.
  - eexists. split; [reflexivity|]. split; [|done].
    eapply only_read_trans; [exact Hr|apply only_read_console].
Qed.

(** X4. [getSubscription] answers a subscription exactly when its round trip
    is delivered and the session sees exactly one subscription in status
    trialing or active: then it answers that one, with its price and product
    embedded.  With none, with two or more, or on a failed round trip it
    answers [null]. *)
Theorem getSubscription_needs_exactly_one (w : World) :
  exists (s : option SubscriptionWithPrice) (w' : World),
    Server.getSubscription w = (Return s, w')
    /\ s = if failed 0 w then None
           else match active_subscriptions w with
                | [x] => Some (joined w x)
                | _ => None
                end.
Proof.
  destruct (failed 0 w) eqn:Hf.
  - destruct (getSubscription_returns w) as (s & w' & H & _ & _ & Hnone).
    exists s, w'. split; [exact H|by apply Hnone].
  - destruct (getSubscription_delivered w Hf) as (w' & H & _).
    by do 2 eexists.
Qed.

(** X5. A session that sees two or more subscriptions in status trialing or
    active is treated like one with none: the lookup answers [null] and
    [getCreditBalance] takes the free tier, with [outOf = 7500]. *)
Theorem several_active_subscriptions_fall_to_free_tier (w : World) :
  (2 <= length (active_subscriptions w))%nat ->
  exists (b : Balance) (w1 w' : World),
    Server.getSubscription w = (Return None, w1)
    /\ Server.getCreditBalance w = (Return b, w')
    /\ outOf b = int 7500.
Proof.
  intros Hlen.
  assert (exists w1, Server.getSubscription w = (Return None, w1)) as [w1 H1].
  { destruct (failed 0 w) eqn:Hf.
    - destruct (getSubscription_returns w) as (s & w1 & H & _ & _ & Hnone).
      exists w1. by rewrite <- (Hnone Hf).
    - destruct (getSubscription_delivered w Hf) as (w1 & H & _). exists w1.
      rewrite H. destruct (active_subscriptions w) as [|x [|y l]]; [done| |done].
      cbn in Hlen. lia. }
  destruct (getJobs_returns w1) as (listing & w2 & H2 & _).
  do 3 eexists. split; [exact H1|].
  split; [exact (getCreditBalance_free_tier w w1 w2 listing H1 H2)|reflexivity].
Qed.

Lemma several_active_subscriptions_witness :
  exists (b : Balance) (w1 w' : World),
    Server.getSubscription
      (Demo.world
         (Demo.tables [Demo.subscription "active"; Demo.subscription "trialing"]
            (Demo.metadata (JStr "500")) [])
         []) = (Return None, w1)
    /\ Server.getCreditBalance
         (Demo.world
            (Demo.tables [Demo.subscription "active"; Demo.subscription "trialing"]
               (Demo.metadata (JStr "500")) [])
            []) = (Return b, w')
    /\ outOf b = int 7500.
Proof.
  apply several_active_subscriptions_fall_to_free_tier. vm_compute. lia.
Defined.

(** ** The user of the session *)

Lemma requests_send {t} (q : Query t) (w : World) :
  requests (snd (send q w)) = (requests w ++ [Rest t q])%list
  /\ backend (snd (send q w)) = backend w
  /\ cookie_user (snd (send q w)) = cookie_user w
  /\ console (snd (send q w)) = console w.
Proof. rewrite send_eq. by destruct (mjoin (faults w !! 0%nat)). Qed.

Lemma execute_user (w : World) :
  execute (backend w) (db w) tbl_users (user_query w)
  = (success (Some (ordered (backend w) tbl_users [] (visible_users w))), db w).
Proof.
  change (execute (backend w) (db w) tbl_users (user_query w))
    with (success (Some (ordered (backend w) tbl_users []
                           (List.filter (matches (backend w) tbl_users [])
                              (visible_users w)))), db w).
  by rewrite filter_all.
Qed.

(** What [getUserDetails] answers when its round trip is delivered. *)
Lemma getUserDetails_delivered (w : World) :
  failed 0 w = false ->
  exists w1,
    Server.getUserDetails w
    = (Return match visible_users w with
              | [u] => Some u
              | _ => None
              end, w1)
    /\ only_read w w1 /\ faults w1 = tail (faults w)
    /\ requests w1 = (requests w ++ [Rest tbl_users (user_query w)])%list.
Proof.
  intros Hf%failed_false. rewrite getUserDetails_eq. cbn zeta.
  pose proof (only_read_send (user_query w) _ w eq_refl) as Hr.
  pose proof (faults_send (user_query w) w) as Hfs.
  destruct (requests_send (user_query w) w) as (Hreq & _).
  revert Hr Hfs Hreq. rewrite send_eq, Hf, execute_user. cbn [fst snd].
  rewrite one_ordered. intros Hr Hfs Hreq.
  destruct (visible_users w) as [|u [|u' l]]; cbn [error data success failure].
  - eexists. split; [reflexivity|]. split; [|by split].
    eapply only_read_trans; [exact Hr|apply only_read_console].
  - eexists. split; [reflexivity|]. by split.
  - eexists. split; [reflexivity|]. split; [|by split].
    eapply only_read_trans; [exact Hr|apply only_read_console].
Qed.

(** X6. [getUserDetails] answers a user exactly when its round trip is
    delivered and the session sees exactly one row of [users]: then it
    answers that row.  With no row, with two or more, or on a failed round
    trip it answers [null]; it never throws. *)
Theorem getUserDetails_needs_exactly_one (w : World) :
  exists (user : option Users.Row) (w' : World),
    Server.getUserDetails w = (Return user, w')
    /\ user = if failed 0 w then None
              else match visible_users w with
                   | [u] => Some u
                   | _ => None
                   end.
Proof.
  destruct (failed 0 w) eqn:Hf.
  - destruct (getUserDetails_returns w) as (user & w' & H & _ & _ & Hnone).
    exists user, w'. split; [exact H|by apply Hnone].
  - destruct (getUserDetails_delivered w Hf) as (w' & H & _).
    by do 2 eexists.
Qed.

(** ** Inserting a job *)

(** The statement of [insertJob] appends what it returns, and at most one
    row. *)
Lemma insert_statement_appends (c : Client) (payload : Jobs.Insert) (line : string)
    (w : World) :
  exists (rows : list Jobs.Row) (w' : World),
    statement (insert_query c payload) line w = (Return rows, w')
    /\ jobs_table (db w') = (jobs_table (db w) ++ rows)%list
    /\ (length rows <= 1)%nat
    /\ same_but_jobs (db w) (db w')
    /\ backend w' = backend w /\ cookie_user w' = cookie_user w
    /\ requests w' = (requests w ++ [Rest tbl_jobs (insert_query c payload)])%list.
Proof.
  rewrite (statement_eq (insert_query c payload) line w eq_refl).
  destruct (requests_send (insert_query c payload) w) as (Hreq & Hb & Hc & _).
  revert Hreq Hb Hc. rewrite send_eq.
  destruct (mjoin (faults w !! 0%nat)) as [e|]; cbn [fst snd error failure].
  { intros Hreq Hb Hc. exists [], (add_console line (sent (insert_query c payload) w)).
    split; [reflexivity|]. cbn [add_console sent db set_faults add_request length].
    rewrite app_nil_r. repeat split; done || lia. }
  rewrite execute_insert. destruct (new_job (backend w) c (db w) payload) as [r|];
    cbn [fst snd error success failure data default]; intros Hreq Hb Hc.
  - do 2 eexists. split; [reflexivity|]. cbn [set_db db with_jobs jobs_table length].
    repeat split; done || lia.
  - do 2 eexists. split; [reflexivity|].
    cbn [add_console set_db db length]. rewrite app_nil_r. repeat split; done || lia.
Qed.

Lemma insertJob_appends_rows (w : World) :
  exists (rows : list Jobs.Row) (w' : World),
    Server.insertJob w = (Return rows, w')
    /\ jobs_table (db w') = (jobs_table (db w) ++ rows)%list
    /\ (length rows <= 1)%nat
    /\ same_but_jobs (db w) (db w')
    /\ backend w' = backend w /\ cookie_user w' = cookie_user w.
Proof.
  destruct (getUserDetails_returns w) as (user & w1 & H1 & (Hb1 & Hd1 & Hc1 & _) & _).
  rewrite (insertJob_eq w w1 user H1).
  destruct (insert_statement_appends (SessionClient (cookie_user w))
              {| Jobs.i_user_id := Users.id <$> user; Jobs.i_status := Some "pending" |}
              "insertJob error" w1)
    as (rows & w' & H & Happ & Hlen & Hsame & Hb & Hc & _).
  exists rows, w'. rewrite Hd1 in Happ, Hsame.
  split; [exact H|]. split; [exact Happ|]. split; [exact Hlen|]. split; [exact Hsame|].
  split; congruence.
Qed.

(** X7. [insertJob] only ever appends: the rows it returns are put after
    the jobs that were there, which stay as they were and in their order; it
    returns at most one row; and the other tables are untouched. *)
Theorem insertJob_appends_what_it_returns (w : World) :
  exists (rows : list Jobs.Row) (w' : World),
    Server.insertJob w = (Return rows, w')
    /\ jobs_table (db w') = (jobs_table (db w) ++ rows)%list
    /\ (length rows <= 1)%nat
    /\ same_but_jobs (db w) (db w').
Proof.
  destruct (insertJob_appends_rows w) as (rows & w' & H & Happ & Hlen & Hsame & _).
  by exists rows, w'.
Qed.

(** X8. When the user lookup is delivered and the session sees exactly one
    user, [insertJob] sends two requests: the lookup, and an insert whose
    payload names that user and has the status pending. *)
Theorem insertJob_names_the_user (w : World) (user : Users.Row) :
  failed 0 w = false ->
  visible_users w = [user] ->
  exists (rows : list Jobs.Row) (w' : World),
    Server.insertJob w = (Return rows, w')
    /\ requests w'
       = (requests w
          ++ [Rest tbl_users (user_query w);
              Rest tbl_jobs
                (insert_query (SessionClient (cookie_user w))
                   {| Jobs.i_user_id := Some (Users.id user);
                      Jobs.i_status := Some "pending" |})])%list.
Proof.
  intros Hf Hone. destruct (getUserDetails_delivered w Hf) as (w1 & H1 & _ & _ & Hreq1).
  rewrite Hone in H1. rewrite (insertJob_eq w w1 (Some user) H1).
  cbn [fmap option_fmap option_map].
  destruct (insert_statement_appends (SessionClient (cookie_user w))
              {| Jobs.i_user_id := Some (Users.id user); Jobs.i_status := Some "pending" |}
              "insertJob error" w1)
    as (rows & w' & H & _ & _ & _ & _ & _ & Hreq).
  exists rows, w'. split; [exact H|]. rewrite Hreq, Hreq1, <- app_assoc. reflexivity.
Qed.

Lemma insertJob_names_the_user_witness :
  exists (rows : list Jobs.Row) (w' : World),
    Server.insertJob (Demo.world (Demo.tables [] JNull []) []) = (Return rows, w')
    /\ requests w'
       = [Rest tbl_users (user_query (Demo.world (Demo.tables [] JNull []) []));
          Rest tbl_jobs
            (insert_query (SessionClient (Some "u1"))
               {| Jobs.i_user_id := Some "u1"; Jobs.i_status := Some "pending" |})].
Proof.
  exact (insertJob_names_the_user (Demo.world (Demo.tables [] JNull []) [])
           {| Users.id := "u1" |} eq_refl eq_refl).
Defined.

(** X9. A job that [insertJob] has returned and that the session may see is
    among the jobs the next [getJobs] lists, when that listing is
    delivered. *)
Theorem inserted_job_is_listed (w w' : World) (r : Jobs.Row) :
  Server.insertJob w = (Return [r], w') ->
  visible (backend w) (SessionClient (cookie_user w)) (JobRow r) = true ->
  failed 0 w' = false ->
  exists (listing : JobsResult.t) (w'' : World) (js : list Jobs.Row),
    Server.getJobs w' = (Return listing, w'')
    /\ JobsResult.success listing = true
    /\ JobsResult.data listing = Some js
    /\ In r js.
Proof.
  intros Hins Hvis Hf%failed_false.
  destruct (insertJob_appends_rows w) as (rows & w0 & H & Happ & _ & _ & Hb & Hc).
  rewrite Hins in H. injection H as <- <-.
  rewrite getJobs_eq. cbn zeta. rewrite send_eq, Hf, execute_listing.
  cbn [fst snd error success data].
  do 3 eexists. split; [reflexivity|]. split; [reflexivity|]. split; [reflexivity|].
  apply (Permutation_in r
           (Permutation_sym (ordered_Permutation (backend w') tbl_jobs _ (visible_jobs w')))).
  unfold visible_jobs. apply filter_In. rewrite Happ, Hb, Hc. split; [|exact Hvis].
  apply in_or_app. right. by left.
Qed.

Lemma inserted_job_is_listed_witness :
  exists (listing : JobsResult.t) (w'' : World) (js : list Jobs.Row),
    Server.getJobs
      (snd (Server.insertJob
              (Demo.world
                 (Demo.tables [] JNull [Demo.job "a" "u1" "2024-01-05T00:00:00Z" None])
                 [])))
    = (Return listing, w'')
    /\ JobsResult.success listing = true
    /\ JobsResult.data listing = Some js
    /\ In {| Jobs.id := "job-new"; Jobs.user_id := Some "u1";
             Jobs.status := Some "pending";
             Jobs.created_at := "2024-03-01T00:00:00Z";
             Jobs.credits := None; Jobs.is_deleted := Some false;
             Jobs.original_video_url := None; Jobs.transcription_id := None |} js.
Proof.
  apply (inserted_job_is_listed
           (Demo.world
              (Demo.tables [] JNull [Demo.job "a" "u1" "2024-01-05T00:00:00Z" None])
              [])); reflexivity.
Defined.

(** ** What an update touches *)

Lemma selected_id (b : Backend) (c : Client) (jobId : string) (r : Jobs.Row) :
  selected b c [FilterEq "id" jobId] r
  = visible b c (JobRow r) && bool_decide (Jobs.id r = jobId).
Proof.
  unfold selected, matches. cbn [forallb holds].
  change (cell tbl_jobs "id" r) with (CText (Jobs.id r)).
  rewrite andb_true_r. f_equal. apply bool_decide_ext. apply compare_text_eq.
Qed.

Lemma Forall2_updated (b : Backend) (c : Client) (fs : list Filter) (u : Jobs.Update)
    (js : list Jobs.Row) :
  Forall2 (fun r r' => r' = r \/ (selected b c fs r = true /\ r' = Jobs.set u r))
    js (List.map (updated b c fs u) js).
Proof.
  induction js as [|r js IH]; cbn [List.map]; constructor; [|exact IH].
  unfold updated. destruct (selected b c fs r); [right|left]; done.
Qed.

Lemma Forall2_unchanged (b : Backend) (c : Client) (fs : list Filter) (u : Jobs.Update)
    (js : list Jobs.Row) :
  Forall2 (fun r r' => r' = r \/ (selected b c fs r = true /\ r' = Jobs.set u r)) js js.
Proof. induction js; constructor; [by left|done]. Qed.

Lemma same_but_jobs_refl (d : Db) : same_but_jobs d d.
Proof. by repeat split. Qed.

(** An update statement changes rows in place, and only rows it selects. *)
Lemma update_statement_frame (c : Client) (column value line : string)
    (u : Jobs.Update) (w : World) :
  In column (columns tbl_jobs) ->
  exists (rows : list Jobs.Row) (w' : World),
    statement (update_query c column value u) line w = (Return rows, w')
    /\ same_but_jobs (db w) (db w')
    /\ Forall2
         (fun r r' =>
            r' = r
            \/ (selected (backend w) c [FilterEq column value] r = true
                /\ r' = Jobs.set u r))
         (jobs_table (db w)) (jobs_table (db w'))
    /\ requests w' = (requests w ++ [Rest tbl_jobs (update_query c column value u)])%list.
Proof.
  intros Hcol. rewrite (statement_eq (update_query c column value u) line w eq_refl).
  destruct (requests_send (update_query c column value u) w) as (Hreq & _).
  revert Hreq. rewrite send_eq.
  destruct (mjoin (faults w !! 0%nat)) as [e|]; cbn [fst snd error failure].
  { intros Hreq. do 2 eexists. split; [reflexivity|].
    cbn [add_console sent db set_faults add_request].
    split; [apply same_but_jobs_refl|]. split; [apply Forall2_unchanged|exact Hreq]. }
  rewrite (execute_update _ _ _ _ _ _ Hcol). cbn zeta.
  destruct (negb _); [|destruct (forallb _ _)];
    cbn [fst snd error success failure data default]; intros Hreq;
    do 2 eexists; (split; [reflexivity|]);
    cbn [add_console set_db db with_jobs jobs_table].
  - split; [apply same_but_jobs_refl|]. split; [apply Forall2_unchanged|exact Hreq].
  - split; [by repeat split|]. split; [apply Forall2_updated|exact Hreq].
  - split; [apply same_but_jobs_refl|]. split; [apply Forall2_unchanged|exact Hreq].
Qed.

(** X10. [updateJob] changes rows in place: afterwards the jobs table has
    the same rows at the same positions, except that a row may have been
    replaced by its update, and then it has the given id and the session may
    see it.  Rows of another id, rows the session may not see and the other
    tables stay as they are, whatever the outcome. *)
Theorem updateJob_touches_only_the_job (jobId : string) (u : Jobs.Update) (w : World) :
  exists (rows : list Jobs.Row) (w' : World),
    Server.updateJob jobId u w = (Return rows, w')
    /\ same_but_jobs (db w) (db w')
    /\ Forall2
         (fun r r' =>
            r' = r
            \/ (Jobs.id r = jobId
                /\ visible (backend w) (SessionClient (cookie_user w)) (JobRow r) = true
                /\ r' = Jobs.set u r))
         (jobs_table (db w)) (jobs_table (db w')).
Proof.
  rewrite updateJob_eq.
  destruct (update_statement_frame (SessionClient (cookie_user w)) "id" jobId
              "updateJob error" u w (in_columns_jobs _ (or_introl eq_refl)))
    as (rows & w' & H & Hsame & Hrows & _).
  exists rows, w'. split; [exact H|]. split; [exact Hsame|].
  eapply Forall2_impl; [exact Hrows|]. intros r r' [->|[Hsel ->]]; [by left|right].
  rewrite selected_id in Hsel. apply andb_prop in Hsel as [Hvis Hid].
  apply bool_decide_eq_true in Hid. done.
Qed.

(** ** The update by transcription id *)

Lemma filter_selected_transcription_id (b : Backend) (tid : string)
    (js : list Jobs.Row) :
  List.filter (selected b ServiceClient [FilterEq "transcription_id" tid]) js
  = List.filter (fun r => bool_decide (Jobs.transcription_id r = Some tid)) js.
Proof. apply filter_ext. intros r. apply selected_transcription_id. Qed.

(** X11. [updateJobByTranscriptionId] goes past row-level security: when
    its round trip is delivered and the store accepts the new rows, it
    rewrites every job that carries the transcription id, whoever owns it
    and whoever is signed in, and returns the rewritten rows.  A job without
    a transcription id is never among them. *)
Theorem updateJobByTranscriptionId_reaches_every_owner
    (transcriptionId : string) (u : Jobs.Update) (w : World) :
  failed 0 w = false ->
  Jobs.u_unknown u = [] ->
  forallb (check_job (backend w) ServiceClient (db w))
    (List.map (Jobs.set u)
       (List.filter
          (fun r => bool_decide (Jobs.transcription_id r = Some transcriptionId))
          (jobs_table (db w)))) = true ->
  exists w' : World,
    Server.updateJobByTranscriptionId transcriptionId u w
    = (Return
         (List.map (Jobs.set u)
            (List.filter
               (fun r => bool_decide (Jobs.transcription_id r = Some transcriptionId))
               (jobs_table (db w)))), w')
    /\ jobs_table (db w')
       = List.map
           (fun r =>
              if bool_decide (Jobs.transcription_id r = Some transcriptionId)
              then Jobs.set u r else r)
           (jobs_table (db w)).
Proof.
  intros Hf%failed_false Hknown Hcheck. rewrite updateJobByTranscriptionId_eq.
  rewrite (statement_eq (update_query ServiceClient "transcription_id" transcriptionId u)
             _ w eq_refl), send_eq, Hf.
  rewrite (execute_update _ _ _ _ _ _ (in_columns_jobs _ (or_intror (or_intror eq_refl)))).
  cbn zeta. rewrite filter_selected_transcription_id, Hknown, Hcheck.
  rewrite bool_decide_eq_true_2 by reflexivity.
  cbn [negb fst snd error success data default].
  eexists. split; [reflexivity|]. cbn [set_db db with_jobs jobs_table].
  apply map_ext. intros r. unfold updated. by rewrite selected_transcription_id.
Qed.

(** The session of user [u1] cannot see the job of user [u2], so that
    [updateJob] would not touch it; the update by transcription id sets its
    credits. *)
Lemma updateJobByTranscriptionId_reaches_every_owner_witness :
  exists w' : World,
    Server.updateJobByTranscriptionId "tr-b"
      {| Jobs.u_id := None; Jobs.u_user_id := None; Jobs.u_status := None;
         Jobs.u_created_at := None; Jobs.u_credits := Some (Some (Q2Qc 40));
         Jobs.u_is_deleted := None; Jobs.u_original_video_url := None;
         Jobs.u_transcription_id := None; Jobs.u_unknown := [] |}
      (Demo.world
         (Demo.tables [] JNull
            [Demo.job "a" "u1" "2024-01-05T00:00:00Z" None;
             Demo.job "b" "u2" "2024-01-06T00:00:00Z" None])
         [])
    = (Return [Demo.job "b" "u2" "2024-01-06T00:00:00Z" (Some 40%Z)], w')
    /\ jobs_table (db w')
       = [Demo.job "a" "u1" "2024-01-05T00:00:00Z" None;
          Demo.job "b" "u2" "2024-01-06T00:00:00Z" (Some 40%Z)].
Proof.
  exact (updateJobByTranscriptionId_reaches_every_owner "tr-b"
           {| Jobs.u_id := None; Jobs.u_user_id := None; Jobs.u_status := None;
              Jobs.u_created_at := None; Jobs.u_credits := Some (Some (Q2Qc 40));
              Jobs.u_is_deleted := None; Jobs.u_original_video_url := None;
              Jobs.u_transcription_id := None; Jobs.u_unknown := [] |}
           (Demo.world
              (Demo.tables [] JNull
                 [Demo.job "a" "u1" "2024-01-05T00:00:00Z" None;
                  Demo.job "b" "u2" "2024-01-06T00:00:00Z" None])
              [])
           eq_refl eq_refl eq_refl).
Defined.

(** The same update through the session of [u1] leaves the job of [u2]
    alone. *)
Example updateJob_respects_row_level_security :
  (fun out => (fst out, jobs_table (db (snd out))))
    (Server.updateJob "b"
       {| Jobs.u_id := None; Jobs.u_user_id := None; Jobs.u_status := None;
          Jobs.u_created_at := None; Jobs.u_credits := Some (Some (Q2Qc 40));
          Jobs.u_is_deleted := None; Jobs.u_original_video_url := None;
          Jobs.u_transcription_id := None; Jobs.u_unknown := [] |}
       (Demo.world
          (Demo.tables [] JNull
             [Demo.job "a" "u1" "2024-01-05T00:00:00Z" None;
              Demo.job "b" "u2" "2024-01-06T00:00:00Z" None])
          []))
  = (Return [],
     [Demo.job "a" "u1" "2024-01-05T00:00:00Z" None;
      Demo.job "b" "u2" "2024-01-06T00:00:00Z" None]).
Proof. reflexivity. Qed.

(** ** Updating twice, by URL and by transcription id *)

Lemma update_statement_world (c : Client) (column value line : string)
    (u : Jobs.Update) (w : World) :
  failed 0 w = false ->
  exists w1,
    statement (update_query c column value u) line w
    = (fst (statement (update_query c column value u) line w), w1)
    /\ cookie_user w1 = cookie_user w
    /\ backend w1 = backend w
    /\ db w1 = snd (execute (backend w) (db w) tbl_jobs (update_query c column value u)).
Proof.
  intros Hok%failed_false.
  rewrite (statement_eq (update_query c column value u) _ w eq_refl), send_eq, Hok.
  cbn [fst snd]. destruct (error _); by eexists.
Qed.

Lemma update_statement_idempotent (c : Client) (column value line : string)
    (u : Jobs.Update) (w w1 : World) :
  In column (columns tbl_jobs) ->
  backend w1 = backend w ->
  db w1 = snd (execute (backend w) (db w) tbl_jobs (update_query c column value u)) ->
  db (snd (statement (update_query c column value u) line w1)) = db w1.
Proof.
  intros Hcol Hb Hd.
  rewrite (statement_eq (update_query c column value u) _ w1 eq_refl), send_eq.
  destruct (mjoin (faults w1 !! 0%nat)) as [e|]; [reflexivity|].
  cbn [fst snd].
  assert (snd (execute (backend w1) (db w1) tbl_jobs (update_query c column value u))
          = db w1) as Hidem.
  { rewrite Hb, Hd. by apply execute_update_idempotent. }
  destruct (error _); cbn [snd add_console set_db db]; exact Hidem.
Qed.

(** X12. [updateJobByOriginalVideoUrl] and [updateJobByTranscriptionId] are
    idempotent as [updateJob] is: after a first call that reached the store,
    a second call with the same arguments leaves the tables as the first
    left them. *)
Theorem updates_by_url_and_transcription_idempotent
    (key : string) (u : Jobs.Update) (w : World) :
  failed 0 w = false ->
  db (snd (Server.updateJobByOriginalVideoUrl key u
             (snd (Server.updateJobByOriginalVideoUrl key u w))))
  = db (snd (Server.updateJobByOriginalVideoUrl key u w))
  /\ db (snd (Server.updateJobByTranscriptionId key u
                (snd (Server.updateJobByTranscriptionId key u w))))
     = db (snd (Server.updateJobByTranscriptionId key u w)).
Proof.
  intros Hok. split.
  - assert (Hcol : In "original_video_url" (columns tbl_jobs))
      by (apply in_columns_jobs; right; by left).
    rewrite (updateJobByOriginalVideoUrl_eq key u w).
    destruct (update_statement_world (SessionClient (cookie_user w)) "original_video_url"
                key "updateJobByOriginalVideoUrl error" u w Hok)
      as (w1 & H1 & Hc & Hb & Hd).
    rewrite H1. cbn [snd]. rewrite updateJobByOriginalVideoUrl_eq, Hc.
    by apply (update_statement_idempotent _ _ _ _ _ w w1).
  - assert (Hcol : In "transcription_id" (columns tbl_jobs))
      by (apply in_columns_jobs; right; by right).
    rewrite (updateJobByTranscriptionId_eq key u w).
    destruct (update_statement_world ServiceClient "transcription_id"
                key "updateJobByTranscriptionId error" u w Hok)
      as (w1 & H1 & Hc & Hb & Hd).
    rewrite H1. cbn [snd]. rewrite updateJobByTranscriptionId_eq.
    by apply (update_statement_idempotent _ _ _ _ _ w w1).
Qed.

Lemma updates_by_url_and_transcription_idempotent_witness :
  jobs_table
    (db (snd (Server.updateJobByTranscriptionId "tr-a"
                {| Jobs.u_id := None; Jobs.u_user_id := None;
                   Jobs.u_status := Some (Some "transcribed");
                   Jobs.u_created_at := None; Jobs.u_credits := None;
                   Jobs.u_is_deleted := None; Jobs.u_original_video_url := None;
                   Jobs.u_transcription_id := Some (Some "tr-z"); Jobs.u_unknown := [] |}
                (snd (Server.updateJobByTranscriptionId "tr-a"
                        {| Jobs.u_id := None; Jobs.u_user_id := None;
                           Jobs.u_status := Some (Some "transcribed");
                           Jobs.u_created_at := None; Jobs.u_credits := None;
                           Jobs.u_is_deleted := None; Jobs.u_original_video_url := None;
                           Jobs.u_transcription_id := Some (Some "tr-z");
                           Jobs.u_unknown := [] |}
                        (Demo.world
                           (Demo.tables [] JNull
                              [Demo.job "a" "u1" "2024-01-05T00:00:00Z" None])
                           []))))))
  = [ {| Jobs.id := "a"; Jobs.user_id := Some "u1"; Jobs.status := Some "transcribed";
         Jobs.created_at := "2024-01-05T00:00:00Z"; Jobs.credits := None;
         Jobs.is_deleted := Some false;
         Jobs.original_video_url := Some "https://video/a";
         Jobs.transcription_id := Some "tr-z" |} ].
Proof.
  rewrite (proj2 (updates_by_url_and_transcription_idempotent "tr-a"
                    {| Jobs.u_id := None; Jobs.u_user_id := None;
                       Jobs.u_status := Some (Some "transcribed");
                       Jobs.u_created_at := None; Jobs.u_credits := None;
                       Jobs.u_is_deleted := None; Jobs.u_original_video_url := None;
                       Jobs.u_transcription_id := Some (Some "tr-z");
                       Jobs.u_unknown := [] |}
                    (Demo.world
                       (Demo.tables [] JNull
                          [Demo.job "a" "u1" "2024-01-05T00:00:00Z" None])
                       [])
                    eq_refl)).
  reflexivity.
Defined.

(** ** The requests and their credentials *)

Lemma getSubscription_request (w : World) :
  requests (snd (Server.getSubscription w))
  = (requests w ++ [Rest tbl_subscriptions (subscription_query w)])%list.
Proof.
  rewrite getSubscription_eq. cbn zeta.
  destruct (requests_send (subscription_query w) w) as (Hreq & _).
  by destruct (error _).
Qed.

Lemma getJobsBetweenDates_request (userId startDate endDate : string) (w : World) :
  requests (snd (Server.getJobsBetweenDates userId startDate endDate w))
  = (requests w ++ [Rest tbl_jobs (period_query userId startDate endDate w)])%list.
Proof.
  rewrite getJobsBetweenDates_eq. cbn zeta.
  destruct (requests_send (period_query userId startDate endDate w) w) as (Hreq & _).
  by destruct (error _).
Qed.

Lemma getUserDetails_request (w : World) :
  requests (snd (Server.getUserDetails w))
  = (requests w ++ [Rest tbl_users (user_query w)])%list.
Proof.
  rewrite getUserDetails_eq. cbn zeta.
  destruct (requests_send (user_query w) w) as (Hreq & _).
  by destruct (error _).
Qed.

(** X13. [getCreditBalance] always makes exactly two round trips, both
    selects through the client of the session: the subscription lookup, and
    then one query of [jobs] (the in-period query or the listing), also when
    the lookup has failed. *)
Theorem getCreditBalance_makes_two_round_trips (w : World) :
  exists q : Query tbl_jobs,
    requests (snd (Server.getCreditBalance w))
    = (requests w
       ++ [Rest tbl_subscriptions (subscription_query w); Rest tbl_jobs q])%list
    /\ q_client q = SessionClient (cookie_user w)
    /\ is_select (Rest tbl_jobs q) = true
    /\ faults (snd (Server.getCreditBalance w)) = tail (tail (faults w)).
Proof.
  pose proof (getSubscription_request w) as Hreq1.
  destruct (getSubscription_returns w) as (s & w1 & H1 & (_ & _ & Hc1 & _) & Hf1 & _).
  rewrite H1 in Hreq1. cbn [snd] in Hreq1.
  destruct s as [sub|].
  - pose proof (getJobsBetweenDates_request
                  (Subscriptions.user_id (row sub))
                  (Subscriptions.current_period_start (row sub))
                  (Subscriptions.current_period_end (row sub)) w1) as Hreq2.
    destruct (getJobsBetweenDates_returns
                (Subscriptions.user_id (row sub))
                (Subscriptions.current_period_start (row sub))
                (Subscriptions.current_period_end (row sub)) w1)
      as (found & w2 & H2 & _ & Hf2 & _).
    rewrite H2 in Hreq2. cbn [snd] in Hreq2.
    rewrite (getCreditBalance_subscribed w w1 w2 sub found H1 H2). cbn [snd].
    eexists. rewrite Hreq2, Hreq1, <- app_assoc, Hf2, Hf1.
    split; [reflexivity|]. split; [cbn; by rewrite Hc1|]. by split.
  - destruct (getJobs_returns w1) as (listing & w2 & H2 & _ & Hf2 & _).
    rewrite (getCreditBalance_free_tier w w1 w2 listing H1 H2). cbn [snd].
    eexists. rewrite (getJobs_request w1 w2 listing H2), Hreq1, <- app_assoc, Hf2, Hf1.
    split; [reflexivity|]. split; [cbn; by rewrite Hc1|]. by split.
Qed.

(** X14. Of the four mutators only [updateJobByTranscriptionId] uses the
    service-role client.  [insertJob], [updateJob] and
    [updateJobByOriginalVideoUrl] send all their requests through the client
    of the session; [updateJobByTranscriptionId] sends one request, and
    through the service-role client, whoever is signed in. *)
Theorem only_the_transcription_update_uses_the_service_role (w : World) :
  (exists rs, requests (snd (Server.insertJob w)) = (requests w ++ rs)%list
              /\ length rs = 2%nat
              /\ forallb (through_session (cookie_user w)) rs = true)
  /\ (forall jobId u,
        exists rs, requests (snd (Server.updateJob jobId u w)) = (requests w ++ rs)%list
                   /\ length rs = 1%nat
                   /\ forallb (through_session (cookie_user w)) rs = true)
  /\ (forall originalVideoUrl u,
        exists rs, requests (snd (Server.updateJobByOriginalVideoUrl originalVideoUrl u w))
                   = (requests w ++ rs)%list
                   /\ length rs = 1%nat
                   /\ forallb (through_session (cookie_user w)) rs = true)
  /\ (forall transcriptionId u,
        requests (snd (Server.updateJobByTranscriptionId transcriptionId u w))
        = (requests w
           ++ [Rest tbl_jobs
                 (update_query ServiceClient "transcription_id" transcriptionId u)])%list).
Proof.
  split; [|split; [|split]].
  - pose proof (getUserDetails_request w) as Hreq1.
    destruct (getUserDetails_returns w) as (user & w1 & H1 & _).
    rewrite H1 in Hreq1. cbn [snd] in Hreq1.
    rewrite (insertJob_eq w w1 user H1).
    destruct (insert_statement_appends (SessionClient (cookie_user w))
                {| Jobs.i_user_id := Users.id <$> user; Jobs.i_status := Some "pending" |}
                "insertJob error" w1)
      as (rows & w' & H & _ & _ & _ & _ & _ & Hreq).
    rewrite H. cbn [snd]. eexists. rewrite Hreq, Hreq1, <- app_assoc.
    split; [reflexivity|]. split; [reflexivity|].
    cbn. by rewrite !bool_decide_eq_true_2.
  - intros jobId u. rewrite updateJob_eq.
    destruct (update_statement_frame (SessionClient (cookie_user w)) "id" jobId
                "updateJob error" u w (in_columns_jobs _ (or_introl eq_refl)))
      as (rows & w' & H & _ & _ & Hreq).
    rewrite H. cbn [snd]. eexists. split; [exact Hreq|]. split; [reflexivity|].
    cbn. by rewrite bool_decide_eq_true_2.
  - intros url u. rewrite updateJobByOriginalVideoUrl_eq.
    destruct (update_statement_frame (SessionClient (cookie_user w)) "original_video_url"
                url "updateJobByOriginalVideoUrl error" u w
                (in_columns_jobs _ (or_intror (or_introl eq_refl))))
      as (rows & w' & H & _ & _ & Hreq).
    rewrite H. cbn [snd]. eexists. split; [exact Hreq|]. split; [reflexivity|].
    cbn. by rewrite bool_decide_eq_true_2.
  - intros tid u. rewrite updateJobByTranscriptionId_eq.
    destruct (update_statement_frame ServiceClient "transcription_id" tid
                "updateJobByTranscriptionId error" u w
                (in_columns_jobs _ (or_intror (or_intror eq_refl))))
      as (rows & w' & H & _ & _ & Hreq).
    rewrite H. exact Hreq.
Qed.

(** * The second copy of the module, without [throwOnError] *)

Lemma execute_throwOnError (b : Backend) (d : Db) {t} (q : Query t) :
  execute b d t (throwOnError q) = execute b d t q.
Proof. destruct t; reflexivity. Qed.

(** An answer of the store has data or an error, never both. *)
Lemma execute_error_no_data (b : Backend) (d : Db) {t} (q : Query t) (e : Error) :
  error (fst (execute b d t q)) = Some e -> data (fst (execute b d t q)) = None.
Proof.
  unfold execute. destruct (negb (forallb _ _)); [done|].
  destruct t, (q_verb q); cbn [fst error success failure data returning]; try done.
  - destruct (mapM _ _); cbn [fst error success failure data returning]; done.
  - destruct (negb _); [done|].
    destruct (forallb _ _); cbn [fst error success failure data returning]; done.
Qed.

Lemma send_error_no_data {t} (q : Query t) (w : World) (e : Error) :
  error (fst (send q w)) = Some e -> data (fst (send q w)) = None.
Proof.
  rewrite send_eq. destruct (mjoin (faults w !! 0%nat)); cbn [fst]; [done|].
  apply execute_error_no_data.
Qed.

(** The answer to a request and the tables after it depend on the
    deployment, the tables and the coming faults only, and not on
    [throwOnError]. *)
Lemma send_throwOnError {t} (q : Query t) (w w' : World) :
  backend w' = backend w -> db w' = db w -> faults w' = faults w ->
  fst (send (throwOnError q) w') = fst (send q w)
  /\ db (snd (send (throwOnError q) w')) = db (snd (send q w))
  /\ faults (snd (send (throwOnError q) w')) = faults (snd (send q w)).
Proof.
  intros Hb Hd Hf. rewrite !send_eq, Hb, Hd, Hf, execute_throwOnError.
  destruct (mjoin (faults w !! 0%nat));
    cbn [fst snd set_db sent set_faults add_request db faults]; by rewrite Hf.
Qed.

Lemma unchecked_updateJob_eq (jobId : string) (u : Jobs.Update) (w : World) :
  ServerUnchecked.updateJob jobId u w
  = (Return (default [] (data (fst (send (unchecked_update_query
                                          (SessionClient (cookie_user w)) "id" jobId u) w)))),
     snd (send (unchecked_update_query (SessionClient (cookie_user w)) "id" jobId u) w)).
Proof.
  unfold ServerUnchecked.updateJob, ServerUnchecked.createClient. run.
  fold (unchecked_update_query (SessionClient (cookie_user w)) "id" jobId u).
  destruct (send _ w) as [r w1]. cbn [fst snd].
  change (q_throw _) with false. by destruct (error r).
Qed.

Lemma unchecked_updateJobByTranscriptionId_eq (transcriptionId : string)
    (u : Jobs.Update) (w : World) :
  ServerUnchecked.updateJobByTranscriptionId transcriptionId u w
  = (Return (default [] (data (fst (send (unchecked_update_query ServiceClient
                                          "transcription_id" transcriptionId u) w)))),
     snd (send (unchecked_update_query ServiceClient "transcription_id"
                  transcriptionId u) w)).
Proof.
  unfold ServerUnchecked.updateJobByTranscriptionId, ServerUnchecked.supabaseService. run.
  fold (unchecked_update_query ServiceClient "transcription_id" transcriptionId u).
  destruct (send _ w) as [r w1]. cbn [fst snd].
  change (q_throw _) with false. by destruct (error r).
Qed.

Lemma unchecked_updateJobByOriginalVideoUrl_eq (originalVideoUrl : string)
    (u : Jobs.Update) (w : World) :
  ServerUnchecked.updateJobByOriginalVideoUrl originalVideoUrl u w
  = let q := unchecked_update_query (SessionClient (cookie_user w))
               "original_video_url" originalVideoUrl u in
    (Return (default [] (data (fst (send q w)))),
     match error (fst (send q w)) with
     | Some _ => add_console "updateJobByOriginalVideoUrl error" (snd (send q w))
     | None => snd (send q w)
     end).
Proof.
  unfold ServerUnchecked.updateJobByOriginalVideoUrl, ServerUnchecked.createClient. run.
  fold (unchecked_update_query (SessionClient (cookie_user w))
          "original_video_url" originalVideoUrl u).
  cbn zeta. destruct (send _ w) as [r w1]. cbn [fst snd].
  change (q_throw _) with false.
  destruct (error r) eqn:He; unfold ret; cbv beta iota; rewrite He; reflexivity.
Qed.

(** A statement with [throwOnError] and a handler that answers [[]] against
    the same statement without. *)
Lemma statement_unchecked (c : Client) (column value line : string) (u : Jobs.Update)
    (w : World) :
  fst (statement (update_query c column value u) line w)
  = Return (default [] (data (fst (send (unchecked_update_query c column value u) w))))
  /\ db (snd (statement (update_query c column value u) line w))
     = db (snd (send (unchecked_update_query c column value u) w)).
Proof.
  rewrite (statement_eq (update_query c column value u) line w eq_refl).
  change (update_query c column value u)
    with (throwOnError (unchecked_update_query c column value u)).
  destruct (send_throwOnError (unchecked_update_query c column value u) w w
              eq_refl eq_refl eq_refl) as (Hfst & Hdb & _).
  rewrite Hfst.
  destruct (error (fst (send (unchecked_update_query c column value u) w))) as [e|] eqn:He.
  - rewrite (send_error_no_data _ _ _ He). by split.
  - by split.
Qed.

(** X15. The three updates of the second copy return the same rows and
    leave the same tables as those of the first copy, for every outcome of
    the round trip: without [throwOnError] a failed update comes back with
    [data = null], which [data ?? []] turns into the empty list the handlers
    of the first copy return. *)
Theorem unchecked_updates_agree (key : string) (u : Jobs.Update) (w : World) :
  (fst (ServerUnchecked.updateJob key u w) = fst (Server.updateJob key u w)
   /\ db (snd (ServerUnchecked.updateJob key u w)) = db (snd (Server.updateJob key u w)))
  /\ (fst (ServerUnchecked.updateJobByTranscriptionId key u w)
      = fst (Server.updateJobByTranscriptionId key u w)
      /\ db (snd (ServerUnchecked.updateJobByTranscriptionId key u w))
         = db (snd (Server.updateJobByTranscriptionId key u w)))
  /\ (fst (ServerUnchecked.updateJobByOriginalVideoUrl key u w)
      = fst (Server.updateJobByOriginalVideoUrl key u w)
      /\ db (snd (ServerUnchecked.updateJobByOriginalVideoUrl key u w))
         = db (snd (Server.updateJobByOriginalVideoUrl key u w))).
Proof.
  split; [|split].
  - rewrite unchecked_updateJob_eq, updateJob_eq. cbn [fst snd].
    destruct (statement_unchecked (SessionClient (cookie_user w)) "id" key
                "updateJob error" u w) as [-> ->].
    by split.
  - rewrite unchecked_updateJobByTranscriptionId_eq, updateJobByTranscriptionId_eq.
    cbn [fst snd].
    destruct (statement_unchecked ServiceClient "transcription_id" key
                "updateJobByTranscriptionId error" u w) as [-> ->].
    by split.
  - rewrite unchecked_updateJobByOriginalVideoUrl_eq, updateJobByOriginalVideoUrl_eq.
    cbn zeta. cbn [fst snd].
    destruct (statement_unchecked (SessionClient (cookie_user w)) "original_video_url" key
                "updateJobByOriginalVideoUrl error" u w) as [-> ->].
    split; [done|]. by destruct (error _).
Qed.

(** ** The listing of the second copy *)

Lemma unchecked_getJobs_eq (w : World) :
  ServerUnchecked.getJobs w
  = (Return {| JobsResult.success := true;
               JobsResult.data :=
                 data (fst (send (from (SessionClient (cookie_user w)) tbl_jobs
                                    .> select (Star []) .> order "created_at" false) w));
               JobsResult.error := None |},
     snd (send (from (SessionClient (cookie_user w)) tbl_jobs
                  .> select (Star []) .> order "created_at" false) w)).
Proof.
  unfold ServerUnchecked.getJobs, ServerUnchecked.createClient. run.
  destruct (send _ w) as [r w1]. cbn [fst snd].
  change (q_throw _) with false. by destruct (error r).
Qed.

Lemma unchecked_getJobs_returns (w : World) :
  exists (listing : JobsResult.t) (w' : World),
    ServerUnchecked.getJobs w = (Return listing, w')
    /\ JobsResult.success listing = true
    /\ JobsResult.error listing = None
    /\ console w' = console w
    /\ faults w' = tail (faults w)
    /\ if failed 0 w then JobsResult.data listing = None
       else exists js, JobsResult.data listing = Some js /\ js ≡ₚ visible_jobs w.
Proof.
  rewrite unchecked_getJobs_eq. do 2 eexists. split; [reflexivity|].
  cbn [JobsResult.success JobsResult.error JobsResult.data].
  split; [done|]. split; [done|]. split; [apply requests_send|].
  split; [apply faults_send|].
  rewrite send_eq. destruct (failed 0 w) eqn:Hf.
  - apply failed_true in Hf as [e ->]. reflexivity.
  - apply failed_false in Hf as ->.
    rewrite <- (execute_throwOnError (backend w) (db w)).
    change (throwOnError _) with (listing_query w).
    rewrite execute_listing. cbn [fst data success].
    eexists. split; [reflexivity|].
    exact (ordered_Permutation (backend w) tbl_jobs _ (visible_jobs w)).
Qed.

(** X16. Once its client is built, [getJobs] of the second copy reports
    success for either outcome of its query.  A failed query does not throw
    there, so the answer is [{ success: true, data: null }], without an
    error; a delivered query gives [success: true] with the jobs the session
    may see. *)
Theorem unchecked_getJobs_reports_success_on_failed_query
    (w w1 : World) (supabase : Client) :
  ServerUnchecked.createClient w = (Return supabase, w1) ->
  exists (listing : JobsResult.t) (w' : World),
    ServerUnchecked.getJobs w = (Return listing, w')
    /\ if failed 0 w1
       then JobsResult.success listing = true
            /\ JobsResult.data listing = None
            /\ JobsResult.error listing = None
       else JobsResult.success listing = true
            /\ JobsResult.error listing = None
            /\ exists js, JobsResult.data listing = Some js /\ js ≡ₚ visible_jobs w.
Proof.
  intros [= _ <-].
  destruct (unchecked_getJobs_returns w) as (listing & w' & H & Hs & He & _ & _ & Hd).
  exists listing, w'. split; [exact H|].
  destruct (failed 0 w); [by repeat split|by repeat split].
Qed.

(** The listing fails on the network and still reports success. *)
Lemma unchecked_getJobs_reports_success_witness :
  exists (listing : JobsResult.t) (w' : World),
    ServerUnchecked.getJobs
      (Demo.world
         (Demo.tables [] JNull [Demo.job "a" "u1" "2024-01-05T00:00:00Z" None])
         [Some (FetchError "fetch failed")])
    = (Return listing, w')
    /\ JobsResult.success listing = true
    /\ JobsResult.data listing = None
    /\ JobsResult.error listing = None.
Proof.
  exact (unchecked_getJobs_reports_success_on_failed_query
           (Demo.world
              (Demo.tables [] JNull [Demo.job "a" "u1" "2024-01-05T00:00:00Z" None])
              [Some (FetchError "fetch failed")])
           _ _ eq_refl).
Defined.

(** ** The balance of the second copy *)

Lemma unchecked_getSubscription_eq (w : World) :
  ServerUnchecked.getSubscription w = Server.getSubscription w.
Proof. reflexivity. Qed.

Lemma unchecked_getJobsBetweenDates_eq (userId startDate endDate : string) (w : World) :
  ServerUnchecked.getJobsBetweenDates userId startDate endDate w
  = (Return (data (fst (send (from (SessionClient (cookie_user w)) tbl_jobs
                                .> select (Star [])
                                .> eq "user_id" userId
                                .> gte "created_at" startDate
                                .> lte "created_at" endDate) w))),
     snd (send (from (SessionClient (cookie_user w)) tbl_jobs
                  .> select (Star [])
                  .> eq "user_id" userId
                  .> gte "created_at" startDate
                  .> lte "created_at" endDate) w)).
Proof.
  unfold ServerUnchecked.getJobsBetweenDates, ServerUnchecked.createClient. run.
  destruct (send _ w) as [r w1]. cbn [fst snd].
  change (q_throw _) with false. by destruct (error r).
Qed.

(** The in-period query of the second copy finds what that of the first
    finds. *)
Lemma unchecked_getJobsBetweenDates_agrees (userId startDate endDate : string)
    (w : World) :
  fst (ServerUnchecked.getJobsBetweenDates userId startDate endDate w)
  = fst (Server.getJobsBetweenDates userId startDate endDate w).
Proof.
  rewrite unchecked_getJobsBetweenDates_eq, getJobsBetweenDates_eq. cbn zeta.
  change (period_query userId startDate endDate w)
    with (throwOnError (from (SessionClient (cookie_user w)) tbl_jobs
                          .> select (Star [])
                          .> eq "user_id" userId
                          .> gte "created_at" startDate
                          .> lte "created_at" endDate)).
  match goal with |- context [send (throwOnError ?q0) w] => set (q := q0) end.
  destruct (send_throwOnError q w w eq_refl eq_refl eq_refl) as (Hfst & _).
  rewrite Hfst. cbn [fst].
  destruct (error (fst (send q w))) as [e|] eqn:He; [|reflexivity].
  cbn [fst]. by rewrite (send_error_no_data _ _ _ He).
Qed.

(** X17. On the subscribed path the two copies of [getCreditBalance] return
    the same balance when the metadata of the product has a [credits]
    entry; without one the first copy takes the allotment to be zero, and
    the second answers [NaN] for both numbers. *)
Theorem copies_differ_on_an_absent_allotment_only (w w1 : World)
    (sub : SubscriptionWithPrice) :
  Server.getSubscription w = (Return (Some sub), w1) ->
  match get_property (product_metadata sub) "credits" with
  | Some _ =>
      fst (ServerUnchecked.getCreditBalance w) = fst (Server.getCreditBalance w)
  | None =>
      fst (ServerUnchecked.getCreditBalance w) = Return {| remaining := NaN; outOf := NaN |}
      /\ exists b, fst (Server.getCreditBalance w) = Return b /\ outOf b = int 0
  end.
Proof.
  intros H1.
  pose proof (unchecked_getJobsBetweenDates_agrees
                (Subscriptions.user_id (row sub))
                (Subscriptions.current_period_start (row sub))
                (Subscriptions.current_period_end (row sub)) w1) as Hagree.
  destruct (Server.getJobsBetweenDates _ _ _ w1) as [out2 w2] eqn:H2.
  destruct (ServerUnchecked.getJobsBetweenDates _ _ _ w1) as [out2' w2'] eqn:H2'.
  cbn [fst] in Hagree. subst out2'.
  destruct (getJobsBetweenDates_returns
              (Subscriptions.user_id (row sub))
              (Subscriptions.current_period_start (row sub))
              (Subscriptions.current_period_end (row sub)) w1) as (found & w2'' & H2'' & _).
  rewrite H2 in H2''. injection H2'' as -> <-.
  rewrite (getCreditBalance_subscribed w w1 w2 sub found H1 H2).
  rewrite (unchecked_getCreditBalance_subscribed w w1 w2' sub found H1 H2').
  cbn [fst]. unfold allotment.
  destruct (get_property (product_metadata sub) "credits") as [c|]; cbn [Number].
  - reflexivity.
  - split; [reflexivity|]. by eexists.
Qed.

Lemma copies_differ_on_an_absent_allotment_only_witness :
  fst (ServerUnchecked.getCreditBalance
         (Demo.world
            (Demo.tables [Demo.subscription "active"] (JObj [("index", JStr "0")])
               [Demo.job "a" "u1" "2024-01-05T00:00:00Z" (Some 100%Z)])
            []))
  = Return {| remaining := NaN; outOf := NaN |}
  /\ exists b,
       fst (Server.getCreditBalance
              (Demo.world
                 (Demo.tables [Demo.subscription "active"] (JObj [("index", JStr "0")])
                    [Demo.job "a" "u1" "2024-01-05T00:00:00Z" (Some 100%Z)])
                 []))
       = Return b /\ outOf b = int 0.
Proof.
  exact (copies_differ_on_an_absent_allotment_only
           (Demo.world
              (Demo.tables [Demo.subscription "active"] (JObj [("index", JStr "0")])
                 [Demo.job "a" "u1" "2024-01-05T00:00:00Z" (Some 100%Z)])
              [])
           _ _ eq_refl).
Defined.

Lemma unchecked_getJobsBetweenDates_returns (userId startDate endDate : string)
    (w : World) :
  exists found w', ServerUnchecked.getJobsBetweenDates userId startDate endDate w
                   = (Return found, w').
Proof. rewrite unchecked_getJobsBetweenDates_eq. by do 2 eexists. Qed.

(** X18. Unlike the first copy, the second copy of [getCreditBalance] can
    throw, and it does so in exactly one case: no subscription was found and
    the listing of the free tier failed.  The listing then reports success
    with [data = null], and [reduce] is called on [null]. *)
Theorem unchecked_getCreditBalance_throws_exactly_when (w : World) :
  exists (s : option SubscriptionWithPrice) (w1 : World),
    ServerUnchecked.getSubscription w = (Return s, w1)
    /\ ((exists e w', ServerUnchecked.getCreditBalance w = (Throw e, w'))
        <-> s = None /\ failed 1 w = true).
Proof.
  destruct (getSubscription_returns w) as (s & w1 & H1 & _ & Hf1 & _).
  exists s, w1. split; [exact H1|]. destruct s as [sub|].
  - destruct (unchecked_getJobsBetweenDates_returns
                (Subscriptions.user_id (row sub))
                (Subscriptions.current_period_start (row sub))
                (Subscriptions.current_period_end (row sub)) w1) as (found & w2 & H2).
    rewrite (unchecked_getCreditBalance_subscribed w w1 w2 sub found H1 H2).
    split; [by intros (e & w' & ?)|by intros [? _]].
  - destruct (unchecked_getJobs_returns w1) as (listing & w2 & H2 & Hs & _ & _ & _ & Hd).
    unfold ServerUnchecked.getCreditBalance, bind at 1.
    rewrite unchecked_getSubscription_eq, H1. unfold bind at 1. rewrite H2, Hs.
    rewrite (failed_tail w w1 0 Hf1) in Hd.
    destruct (failed 1 w).
    + rewrite Hd. unfold bind, throw. split; [done|]. intros _. by do 2 eexists.
    + destruct Hd as (js & -> & _). unfold bind, ret.
      split; [by intros (e & w' & ?)|by intros [_ ?]].
Qed.

(** ** The insert of the second copy *)

Lemma statement_throwOnError (q : Query tbl_jobs) (line : string) (w w' : World) :
  backend w' = backend w -> db w' = db w -> faults w' = faults w ->
  fst (statement (throwOnError q) line w') = Return (default [] (data (fst (send q w))))
  /\ db (snd (statement (throwOnError q) line w')) = db (snd (send q w)).
Proof.
  intros Hb Hd Hf. rewrite (statement_eq (throwOnError q) line w' eq_refl).
  destruct (send_throwOnError q w w' Hb Hd Hf) as (Hfst & Hdb & _). rewrite Hfst.
  destruct (error (fst (send q w))) as [e|] eqn:He.
  - rewrite (send_error_no_data _ _ _ He). by split.
  - by split.
Qed.

Lemma unchecked_getUserDetails_eq (w : World) :
  ServerUnchecked.getUserDetails w
  = (Return (data (one_row (fst (send (from (SessionClient (cookie_user w)) tbl_users
                                         .> select (Star [])) w)))),
     snd (send (from (SessionClient (cookie_user w)) tbl_users .> select (Star [])) w)).
Proof.
  unfold ServerUnchecked.getUserDetails, ServerUnchecked.createClient. run.
  destruct (send _ w) as [r w1]. cbn [fst snd].
  change (q_throw _) with false. by destruct (error (one_row r)).
Qed.

Lemma one_row_error_no_data {A} (r : Response (list A)) (e : Error) :
  error (one_row r) = Some e -> data (one_row r) = None.
Proof.
  unfold one_row. destruct (error r); [done|]. by destruct (data r) as [[|x [|y l]]|].
Qed.

(** The user lookups of the two copies: the same answer, and worlds that
    differ in the console and the recorded requests only. *)
Lemma unchecked_getUserDetails_agrees (w : World) :
  fst (ServerUnchecked.getUserDetails w) = fst (Server.getUserDetails w)
  /\ backend (snd (Server.getUserDetails w)) = backend (snd (ServerUnchecked.getUserDetails w))
  /\ db (snd (Server.getUserDetails w)) = db (snd (ServerUnchecked.getUserDetails w))
  /\ faults (snd (Server.getUserDetails w)) = faults (snd (ServerUnchecked.getUserDetails w)).
Proof.
  rewrite unchecked_getUserDetails_eq, getUserDetails_eq. cbn zeta.
  change (user_query w)
    with (throwOnError (from (SessionClient (cookie_user w)) tbl_users .> select (Star []))).
  match goal with |- context [send (throwOnError ?q0) w] => set (q := q0) end.
  destruct (send_throwOnError q w w eq_refl eq_refl eq_refl) as (Hfst & Hdb & Hfs).
  destruct (requests_send q w) as (_ & Hb & _).
  destruct (requests_send (throwOnError q) w) as (_ & Hb' & _).
  rewrite Hfst. cbn [fst snd].
  destruct (error (one_row (fst (send q w)))) as [e|] eqn:He; cbn [fst snd].
  - rewrite (one_row_error_no_data _ _ He).
    cbn [add_console backend db faults]. repeat split; congruence.
  - repeat split; congruence.
Qed.

Lemma unchecked_insertJob_eq (w w1 : World) (user : option Users.Row) :
  ServerUnchecked.getUserDetails w = (Return user, w1) ->
  ServerUnchecked.insertJob w
  = let q := unchecked_insert_query (SessionClient (cookie_user w))
               {| Jobs.i_user_id := Users.id <$> user; Jobs.i_status := Some "pending" |} in
    (Return (default [] (data (fst (send q w1)))),
     match error (fst (send q w1)) with
     | Some _ => add_console "insertJob error" (snd (send q w1))
     | None => snd (send q w1)
     end).
Proof.
  intros H1. unfold ServerUnchecked.insertJob, bind at 1, ServerUnchecked.createClient at 1.
  unfold bind at 1. rewrite H1. run.
  fold (unchecked_insert_query (SessionClient (cookie_user w))
          {| Jobs.i_user_id := Users.id <$> user; Jobs.i_status := Some "pending" |}).
  cbn zeta. destruct (send _ w1) as [r w2]. cbn [fst snd].
  change (q_throw _) with false.
  destruct (error r) eqn:He; unfold ret; cbv beta iota; rewrite He; reflexivity.
Qed.

(** X19. [getUserDetails] and [insertJob] of the second copy answer as
    those of the first and leave the same tables, for every outcome of the
    round trips: without [throwOnError] a failed query comes back with
    [data = null], which both functions turn into what the handlers of the
    first copy return. *)
Theorem unchecked_insertJob_agrees (w : World) :
  fst (ServerUnchecked.getUserDetails w) = fst (Server.getUserDetails w)
  /\ fst (ServerUnchecked.insertJob w) = fst (Server.insertJob w)
  /\ db (snd (ServerUnchecked.insertJob w)) = db (snd (Server.insertJob w)).
Proof.
  destruct (unchecked_getUserDetails_agrees w) as (Hu & Hb & Hd & Hf).
  split; [exact Hu|].
  destruct (getUserDetails_returns w) as (user & w1 & H1 & _).
  destruct (ServerUnchecked.getUserDetails w) as [out w1'] eqn:H1'.
  rewrite H1 in Hu, Hb, Hd, Hf. cbn [fst snd] in Hu, Hb, Hd, Hf. subst out.
  rewrite (insertJob_eq w w1 user H1), (unchecked_insertJob_eq w w1' user H1').
  cbn zeta. cbn [fst snd].
  change (insert_query (SessionClient (cookie_user w))
            {| Jobs.i_user_id := Users.id <$> user; Jobs.i_status := Some "pending" |})
    with (throwOnError
            (unchecked_insert_query (SessionClient (cookie_user w))
               {| Jobs.i_user_id := Users.id <$> user; Jobs.i_status := Some "pending" |})).
  destruct (statement_throwOnError
              (unchecked_insert_query (SessionClient (cookie_user w))
                 {| Jobs.i_user_id := Users.id <$> user; Jobs.i_status := Some "pending" |})
              "insertJob error" w1' w1 Hb Hd Hf) as [-> ->].
  split; [reflexivity|]. by destruct (error _).
Qed.

(** * The callback with an empty code *)

(** X20. A [code] parameter that is present but empty counts as no code:
    the callback sends nothing, changes nothing, and redirects. *)
Theorem callback_with_empty_code (request : NextRequest) (w : World) :
  searchParams_get "code" (url request) = Some "" ->
  Route.GET request w
  = (Return (redirect (origin (url request) ++ "/subscription")), w).
Proof.
  intros Hcode. unfold Route.GET. run. rewrite Hcode.
  rewrite bool_decide_eq_true_2 by reflexivity. reflexivity.
Qed.

Lemma callback_with_empty_code_witness :
  Route.GET
    {| url := {| origin := "https://app.example"; pathname := "/auth/callback";
                 searchParams := [("state", "x"); ("code", ""); ("code", "good")] |} |}
    (Demo.world (Demo.tables [] JNull []) [])
  = (Return (redirect "https://app.example/subscription"),
     Demo.world (Demo.tables [] JNull []) []).
Proof.
  exact (callback_with_empty_code
           {| url := {| origin := "https://app.example"; pathname := "/auth/callback";
                        searchParams := [("state", "x"); ("code", ""); ("code", "good")] |} |}
           (Demo.world (Demo.tables [] JNull []) []) eq_refl).
Defined.
